(** * GrowWise backend: order / payment lifecycle

    A shallow embedding of the checkout route
    ([routes/payment.js], POST /api/payment/create-checkout-session), the
    Stripe webhook of [server.js] (POST /api/payment/webhook), the order
    service ([services/orderService.js]) and the Supabase adapter
    ([database/adapters/SupabaseAdapter.js]) it delegates to, followed by
    the read routes of [routes/payment.js] and the error middleware
    ([middleware/errorHandler.js]).

    JavaScript numbers are IEEE-754 binary64 values ([PrimFloat.float]).
    Asynchronous handlers become functions in a state-and-exception monad
    over a [World] that holds the orders table, the logger output, the
    payment provider and the response object of the request being served. *)

From Stdlib Require Import List String Ascii ZArith QArith Bool Lia.
From Stdlib Require Import PrimFloat SpecFloat FloatOps Permutation Sorted.
Import ListNotations.

Local Open Scope string_scope.
Local Open Scope Z_scope.

Set Warnings "-register-all".

(** ** JavaScript values *)

Module JS.

(** The values [express.json()] can produce, plus [undefined], which is
    what reading a missing property gives. *)
Inductive value : Type :=
| Undefined
| Null
| Boolean (b : bool)
| Number (x : float)
| Str (s : string)
| Array (xs : list value)
| Object (fields : list (string * value)).

(** [!!v] *)
Definition truthy (v : value) : bool :=
  match v with
  | Undefined | Null => false
  | Boolean b => b
  | Number x => negb (PrimFloat.eqb x 0 || PrimFloat.is_nan x)
  | Str s => negb (String.eqb s "")
  | Array _ | Object _ => true
  end.

(** [typeof v === 'number'] *)
Definition is_number (v : value) : bool :=
  match v with Number _ => true | _ => false end.

(** [Array.isArray(v)] *)
Definition isArray (v : value) : bool :=
  match v with Array _ => true | _ => false end.

Fixpoint lookup (k : string) (fields : list (string * value)) : value :=
  match fields with
  | [] => Undefined
  | (k', v) :: rest => if String.eqb k k' then v else lookup k rest
  end.

(** [v.k] for the property names the handlers read ([id], [name],
    [price], [quantity]): a [TypeError] on [null] and [undefined], the
    field of an object, [undefined] on every other value.  [inl] carries
    the message of the error thrown. *)
Definition get (v : value) (k : string) : string + value :=
  match v with
  | Undefined => inl ("Cannot read properties of undefined (reading '" ++ k ++ "')")
  | Null => inl ("Cannot read properties of null (reading '" ++ k ++ "')")
  | Object fields => inr (lookup k fields)
  | _ => inr Undefined
  end.

(** Structural comparison, used for [JSON.stringify(a) === JSON.stringify(b)]
    on values that came out of [JSON.parse]. *)
Fixpoint eqb (a b : value) {struct a} : bool :=
  match a, b with
  | Undefined, Undefined => true
  | Null, Null => true
  | Boolean x, Boolean y => Bool.eqb x y
  | Number x, Number y => PrimFloat.eqb x y
  | Str x, Str y => String.eqb x y
  | Array xs, Array ys =>
      (fix go (l1 l2 : list value) : bool :=
         match l1, l2 with
         | [], [] => true
         | x :: l1', y :: l2' => eqb x y && go l1' l2'
         | _, _ => false
         end) xs ys
  | Object fs, Object gs =>
      (fix go (l1 l2 : list (string * value)) : bool :=
         match l1, l2 with
         | [], [] => true
         | (k, x) :: l1', (k', y) :: l2' => String.eqb k k' && eqb x y && go l1' l2'
         | _, _ => false
         end) fs gs
  | _, _ => false
  end.

(** [a || b] *)
Definition or (a b : value) : value := if truthy a then a else b.

(** [typeof v === 'string'] *)
Definition is_string (v : value) : bool :=
  match v with Str _ => true | _ => false end.

Definition to_primitive_error : string := "Cannot convert object to primitive value".

(** Does the conversion of [v] to a primitive ([String(v)], [`${v}`], an
    operand of [*], an element of [join]) throw a [TypeError]?  A value out
    of [JSON.parse] holds no function: an object with an own property
    [toString] hides [Object.prototype.toString] behind something that
    cannot be called, the inherited [valueOf] gives the object back, and
    the conversion fails.  An array is converted by [join], which skips
    [null] and [undefined] and converts every other element. *)
Fixpoint to_primitive_throws (v : value) : bool :=
  match v with
  | Object fields => existsb (fun kv => String.eqb (fst kv) "toString") fields
  | Array xs =>
      (fix go (l : list value) : bool :=
         match l with
         | [] => false
         | Undefined :: l' => go l'
         | Null :: l' => go l'
         | x :: l' => to_primitive_throws x || go l'
         end) xs
  | _ => false
  end.

End JS.

(** Fallible pure code: [inl] carries the message of the error thrown. *)
Definition and_then {A B : Type} (x : string + A) (k : A -> string + B) : string + B :=
  match x with
  | inl e => inl e
  | inr a => k a
  end.

(** ** Data model *)

Inductive Status : Type := pending | paid | failed.

Definition Status_eqb (a b : Status) : bool :=
  match a, b with
  | pending, pending | paid, paid | failed, failed => true
  | _, _ => false
  end.

(** Timestamps ([Date.now()], ISO strings of [created_at]) are milliseconds
    since the epoch. *)
Definition Time := Z.

Definition opt_string_eqb (a b : option string) : bool :=
  match a, b with
  | Some x, Some y => String.eqb x y
  | None, None => true
  | _, _ => false
  end.

(** [if (s)] on a value that is a string, [null] or [undefined]. *)
Definition truthy_str (s : option string) : bool :=
  match s with
  | Some x => negb (String.eqb x "")
  | None => false
  end.

(** A row of the [orders] table of [supabase_schema.sql].  [NULL] is [None];
    DECIMAL columns hold the binary64 value the adapter sent. *)
Record Row : Type := mkRow {
  id : string;
  status : Status;
  items : list JS.value;
  customer_email : option string;
  customer_name : option string;
  customer_phone : option string;
  shipping_name : option string;
  shipping_line1 : option string;
  shipping_line2 : option string;
  shipping_city : option string;
  shipping_state : option string;
  shipping_postal_code : option string;
  shipping_country : option string;
  tax_amount : option float;
  tax_rate : option float;
  tax_id : option string;
  processing_fee : option float;
  metadata : option JS.value;
  locale : option string;
  total_amount : float;
  currency : option string;
  amount_paid : option float;
  stripe_session_id : option string;
  stripe_payment_intent_id : option string;
  stripe_session_url : option string;
  paid_at : option Time;
  failed_at : option Time;
  error_message : option string;
  created_at : Time;
  updated_at : Time
}.

(** The order object the adapter hands to the service
    ([mapSupabaseOrderToOrder]). *)
Record Order : Type := mkOrder {
  o_id : string;
  o_status : Status;
  o_items : list JS.value;
  o_customerEmail : option string;
  o_customerName : option string;
  o_customerPhone : option string;
  o_locale : option string;
  o_totalAmount : float;
  o_currency : option string;
  o_amountPaid : option float;
  o_stripeSessionId : option string;
  o_stripePaymentIntentId : option string;
  o_stripeSessionUrl : option string;
  o_paidAt : option Time;
  o_failedAt : option Time;
  o_errorMessage : option string;
  o_shippingName : option string;
  o_shippingLine1 : option string;
  o_shippingLine2 : option string;
  o_shippingCity : option string;
  o_shippingState : option string;
  o_shippingPostalCode : option string;
  o_shippingCountry : option string;
  o_taxAmount : option float;
  o_taxRate : option float;
  o_taxId : option string;
  o_processingFee : option float;
  o_metadata : option JS.value;
  o_createdAt : Time;
  o_updatedAt : Time
}.

(** [x ? parseFloat(x) : null] on a DECIMAL column. *)
Definition parse_if_truthy (x : option float) : option float :=
  match x with
  | Some v => if JS.truthy (JS.Number v) then Some v else None
  | None => None
  end.

Definition mapSupabaseOrderToOrder (r : Row) : Order :=
  {| o_id := id r;
     o_status := status r;
     o_items := items r;
     o_customerEmail := customer_email r;
     o_customerName := customer_name r;
     o_customerPhone := customer_phone r;
     o_locale := locale r;
     o_totalAmount := total_amount r;
     o_currency := currency r;
     o_amountPaid := parse_if_truthy (amount_paid r);
     o_stripeSessionId := stripe_session_id r;
     o_stripePaymentIntentId := stripe_payment_intent_id r;
     o_stripeSessionUrl := stripe_session_url r;
     o_paidAt := paid_at r;
     o_failedAt := failed_at r;
     o_errorMessage := error_message r;
     o_shippingName := shipping_name r;
     o_shippingLine1 := shipping_line1 r;
     o_shippingLine2 := shipping_line2 r;
     o_shippingCity := shipping_city r;
     o_shippingState := shipping_state r;
     o_shippingPostalCode := shipping_postal_code r;
     o_shippingCountry := shipping_country r;
     o_taxAmount := parse_if_truthy (tax_amount r);
     o_taxRate := parse_if_truthy (tax_rate r);
     o_taxId := tax_id r;
     o_processingFee := parse_if_truthy (processing_fee r);
     o_metadata := metadata r;
     o_createdAt := created_at r;
     o_updatedAt := updated_at r |}.

(** The [additionalData] argument of [updateOrderStatus]: [None] is a
    property that is absent or [undefined]. *)
Record AdditionalData : Type := mkAdditionalData {
  ad_stripeSessionId : option string;
  ad_stripePaymentIntentId : option string;
  ad_stripeSessionUrl : option string;
  ad_paidAt : option Time;
  ad_failedAt : option Time;
  ad_error : option string;
  ad_amountPaid : option float;
  ad_currency : option string;
  ad_customerEmail : option string;
  ad_customerName : option string;
  ad_customerPhone : option string;
  ad_shippingName : option string;
  ad_shippingLine1 : option string;
  ad_shippingLine2 : option string;
  ad_shippingCity : option string;
  ad_shippingState : option string;
  ad_shippingPostalCode : option string;
  ad_shippingCountry : option string;
  ad_taxAmount : option float;
  ad_taxRate : option (option float);   (* [Some None] is an explicit [null] *)
  ad_taxId : option string;
  ad_processingFee : option float;
  ad_metadata : option JS.value
}.

Definition no_additionalData : AdditionalData :=
  mkAdditionalData None None None None None None None None None None None None
                   None None None None None None None None None None None.

(** ** The world a request runs in *)

Inductive Level : Type := info | debug | warn | error.

Definition LogEntry : Type := (Level * string)%type.

(** What reaches the store and the payment provider, in the order it
    happens. *)
Inductive Effect : Type :=
| DbInsert (order_id : string) (st : Status)
| DbUpdate (order_id : string) (st : Status)
| StripeSessionsCreate (order_id : string)
| StripeSessionsRetrieve (session_id : string).

(** A Checkout Session as the provider returns it from [sessions.create]
    and [sessions.retrieve]. *)
Record CheckoutSession : Type := mkCheckoutSession {
  cs_id : string;
  cs_url : option string;
  cs_payment_intent : option string;
  cs_status : string
}.

Inductive Body : Type :=
| Received (message warning : option string)
| ErrorBody (err : string) (message : option string)
| Text (s : string)
| SessionBody (sessionId orderId : string) (url : option string) (warning : option string).

Record Response : Type := mkResponse { code : Z; body : Body }.

(** The promise [orderService.updateOrderStatus(order.id, 'pending', {...})]
    which the checkout route starts and does not await. *)
Record Task : Type := mkTask {
  t_orderId : string;
  t_sessionId : string;
  t_paymentIntent : option string
}.

Record World : Type := mkWorld {
  w_connected : bool;                 (* [adapter.isConnected()] *)
  w_rows : list Row;                  (* the [orders] table *)
  w_faults : list bool;               (* per query sent: does it come back with [error]? *)
  w_clock : Time;                     (* [Date.now()] *)
  w_ids : list string;                (* what [generateOrderId()] will return *)
  w_log : list LogEntry;
  w_trace : list Effect;
  w_stripe : bool;                    (* STRIPE_SECRET_KEY is set *)
  w_webhook_secret : bool;            (* STRIPE_WEBHOOK_SECRET is set *)
  w_stripe_create : list (string + CheckoutSession);
                                      (* what [sessions.create] will answer: an error message or a session *)
  w_stripe_sessions : list CheckoutSession;  (* the sessions the provider knows *)
  w_res : option Response;            (* [res], once sent *)
  w_tasks : list Task
}.

Definition set_rows (x : list Row) (w : World) : World :=
  mkWorld (w_connected w) x (w_faults w) (w_clock w) (w_ids w) (w_log w) (w_trace w)
          (w_stripe w) (w_webhook_secret w) (w_stripe_create w) (w_stripe_sessions w)
          (w_res w) (w_tasks w).
Definition set_faults (x : list bool) (w : World) : World :=
  mkWorld (w_connected w) (w_rows w) x (w_clock w) (w_ids w) (w_log w) (w_trace w)
          (w_stripe w) (w_webhook_secret w) (w_stripe_create w) (w_stripe_sessions w)
          (w_res w) (w_tasks w).
Definition set_clock (x : Time) (w : World) : World :=
  mkWorld (w_connected w) (w_rows w) (w_faults w) x (w_ids w) (w_log w) (w_trace w)
          (w_stripe w) (w_webhook_secret w) (w_stripe_create w) (w_stripe_sessions w)
          (w_res w) (w_tasks w).
Definition set_ids (x : list string) (w : World) : World :=
  mkWorld (w_connected w) (w_rows w) (w_faults w) (w_clock w) x (w_log w) (w_trace w)
          (w_stripe w) (w_webhook_secret w) (w_stripe_create w) (w_stripe_sessions w)
          (w_res w) (w_tasks w).
Definition set_log (x : list LogEntry) (w : World) : World :=
  mkWorld (w_connected w) (w_rows w) (w_faults w) (w_clock w) (w_ids w) x (w_trace w)
          (w_stripe w) (w_webhook_secret w) (w_stripe_create w) (w_stripe_sessions w)
          (w_res w) (w_tasks w).
Definition set_trace (x : list Effect) (w : World) : World :=
  mkWorld (w_connected w) (w_rows w) (w_faults w) (w_clock w) (w_ids w) (w_log w) x
          (w_stripe w) (w_webhook_secret w) (w_stripe_create w) (w_stripe_sessions w)
          (w_res w) (w_tasks w).
Definition set_stripe_create (x : list (string + CheckoutSession)) (w : World) : World :=
  mkWorld (w_connected w) (w_rows w) (w_faults w) (w_clock w) (w_ids w) (w_log w) (w_trace w)
          (w_stripe w) (w_webhook_secret w) x (w_stripe_sessions w)
          (w_res w) (w_tasks w).
Definition set_stripe_sessions (x : list CheckoutSession) (w : World) : World :=
  mkWorld (w_connected w) (w_rows w) (w_faults w) (w_clock w) (w_ids w) (w_log w) (w_trace w)
          (w_stripe w) (w_webhook_secret w) (w_stripe_create w) x
          (w_res w) (w_tasks w).
Definition set_res (x : option Response) (w : World) : World :=
  mkWorld (w_connected w) (w_rows w) (w_faults w) (w_clock w) (w_ids w) (w_log w) (w_trace w)
          (w_stripe w) (w_webhook_secret w) (w_stripe_create w) (w_stripe_sessions w)
          x (w_tasks w).
Definition set_tasks (x : list Task) (w : World) : World :=
  mkWorld (w_connected w) (w_rows w) (w_faults w) (w_clock w) (w_ids w) (w_log w) (w_trace w)
          (w_stripe w) (w_webhook_secret w) (w_stripe_create w) (w_stripe_sessions w)
          (w_res w) x.

(** ** Handlers as computations

    A computation ends with a value, with a thrown [Error] (its message),
    or with [return] out of the request handler. *)

Inductive outcome (A : Type) : Type :=
| Val (a : A)
| Throw (e : string)
| Return.
Arguments Val {A} a.
Arguments Throw {A} e.
Arguments Return {A}.

Definition M (A : Type) : Type := World -> outcome A * World.

Definition ret {A} (a : A) : M A := fun w => (Val a, w).

Definition bind {A B} (m : M A) (k : A -> M B) : M B :=
  fun w =>
    match m w with
    | (Val a, w') => k a w'
    | (Throw e, w') => (Throw e, w')
    | (Return, w') => (Return, w')
    end.

Definition throw {A} (e : string) : M A := fun w => (Throw e, w).

(** [return;] in the handler body. *)
Definition return_ {A} : M A := fun w => (Return, w).

(** [try { m } catch (e) { h e }] *)
Definition try_catch {A} (m : M A) (h : string -> M A) : M A :=
  fun w =>
    match m w with
    | (Throw e, w') => h e w'
    | r => r
    end.

Declare Scope js_scope.
Delimit Scope js_scope with js.
Notation "x <- m ;; k" := (bind m (fun x => k))
  (at level 100, m at next level, right associativity) : js_scope.
Notation "m ;; k" := (bind m (fun _ => k))
  (at level 100, right associativity) : js_scope.
Local Open Scope js_scope.

Definition when (b : bool) (m : M unit) : M unit := if b then m else ret tt.

Definition of_sum {A} (r : string + A) : M A :=
  match r with inl e => throw e | inr a => ret a end.

Definition now : M Time := fun w => (Val (w_clock w), w).

Definition logger (l : Level) (msg : string) : M unit :=
  fun w => (Val tt, set_log (w_log w ++ [(l, msg)]) w).

Definition effect (e : Effect) : M unit :=
  fun w => (Val tt, set_trace (w_trace w ++ [e]) w).

Definition headersSent : M bool :=
  fun w => (Val (match w_res w with Some _ => true | None => false end), w).

(** [res.status(c).json(b)] / [res.json(b)] / [res.status(c).send(b)] *)
Definition send (c : Z) (b : Body) : M unit :=
  fun w =>
    match w_res w with
    | Some _ => (Throw "Cannot set headers after they are sent to the client", w)
    | None => (Val tt, set_res (Some (mkResponse c b)) w)
    end.

(** ** The JavaScript runtime

    The conversions of the language the handlers rely on and which are
    not part of the repository: the text they produce is left to the
    runtime, the cases in which they throw are [JS.to_primitive_throws]. *)
Class JsRuntime : Type := {
  ToString : JS.value -> string;        (* [String(v)], where it returns *)
  StringToNumber : string -> float;     (* [Number(s)] *)
  JSONstringify : JS.value -> string    (* [JSON.stringify(v)] *)
}.

(** [String(v)] and [`${v}`]. *)
Definition to_string `{JsRuntime} (v : JS.value) : string + string :=
  if JS.to_primitive_throws v then inl JS.to_primitive_error
  else inr (match v with
            | JS.Str s => s
            | _ => ToString v
            end).

(** [ToNumber(v)], as [*] applies it to its operands. *)
Definition ToNumber `{JsRuntime} (v : JS.value) : string + float :=
  if JS.to_primitive_throws v then inl JS.to_primitive_error
  else inr (match v with
            | JS.Undefined => PrimFloat.nan
            | JS.Null => 0%float
            | JS.Boolean b => if b then 1%float else 0%float
            | JS.Number x => x
            | JS.Str s => StringToNumber s
            | JS.Array _ | JS.Object _ => StringToNumber (ToString v)
            end).

(** ** The Supabase client

    Every query that is sent takes the next flag of [w_faults]: when it is
    set the query comes back as [{ data: null, error }] and the table is
    left as it was.  [inl] is the [error.message]. *)
Module Supabase.

Definition fetch_failed : string := "TypeError: fetch failed".
Definition not_a_single_row : string :=
  "JSON object requested, multiple (or no) rows returned".
Definition duplicate_key : string :=
  "duplicate key value violates unique constraint".
Definition not_null_violation : string :=
  "null value in column total_amount violates not-null constraint".
Definition numeric_overflow : string := "numeric field overflow".

Definition fault : M bool :=
  fun w =>
    match w_faults w with
    | [] => (Val false, w)
    | f :: fs => (Val f, set_faults fs w)
    end.

Definition rows : M (list Row) := fun w => (Val (w_rows w), w).

(** A write that went through. *)
Definition commit (rs : list Row) (e : Effect) : M unit :=
  fun w => (Val tt, set_trace (w_trace w ++ [e]) (set_rows rs w)).

Definition single (l : list Row) : string + Row :=
  match l with
  | [r] => inr r
  | _ => inl not_a_single_row
  end.

(** [.from('orders').select('*').<filters>] *)
Definition select (p : Row -> bool) : M (string + list Row) :=
  f <- fault ;;
  if f then ret (inl fetch_failed)
  else (rs <- rows ;; ret (inr (filter p rs))).

(** [.from('orders').select('*').<filters>.single()] *)
Definition select_single (p : Row -> bool) : M (string + Row) :=
  f <- fault ;;
  if f then ret (inl fetch_failed)
  else (rs <- rows ;; ret (single (filter p rs))).

Fixpoint insert_desc (r : Row) (l : list Row) : list Row :=
  match l with
  | [] => [r]
  | x :: l' =>
      if created_at x <=? created_at r then r :: x :: l'
      else x :: insert_desc r l'
  end.

(** [.order('created_at', { ascending: false })] *)
Definition order_desc (l : list Row) : list Row := fold_right insert_desc [] l.

Definition select_order_desc (p : Row -> bool) : M (string + list Row) :=
  f <- fault ;;
  if f then ret (inl fetch_failed)
  else (rs <- rows ;; ret (inr (order_desc (filter p rs)))).

Definition has_id (k : string) (r : Row) : bool := String.eqb (id r) k.

Definition has_session (k : string) (r : Row) : bool :=
  opt_string_eqb (stripe_session_id r) (Some k).

(** What a TEXT column makes of the JSON value it is sent: [undefined] is
    left out of the request and [null] is NULL, a string is itself, any
    other value is kept as its JSON text. *)
Definition text `{JsRuntime} (v : JS.value) : option string :=
  match v with
  | JS.Undefined | JS.Null => None
  | JS.Str s => Some s
  | _ => Some (JSONstringify v)
  end.

(** Decimal literals stand for the nearest binary64 value, as in JavaScript. *)
Set Warnings "-inexact-float".

(** [total_amount DECIMAL(10,2) NOT NULL]: [NaN] and the infinities travel
    as the JSON [null]; a number that rounds to 10^8 or more does not fit
    the column. *)
Definition decimal_10_2 (x : float) : string + unit :=
  if PrimFloat.is_nan x || PrimFloat.is_infinity x then inl not_null_violation
  else if (PrimFloat.abs x <? 99999999.995)%float then inr tt
  else inl numeric_overflow.

(** [.from('orders').insert([r]).select().single()]; [id] is the primary
    key and [total_amount] is [DECIMAL(10,2) NOT NULL].  The other columns
    the route writes are [TEXT] and [JSONB] without a constraint. *)
Definition insert (r : Row) : M (string + Row) :=
  f <- fault ;;
  if f then ret (inl fetch_failed)
  else match decimal_10_2 (total_amount r) with
       | inl e => ret (inl e)
       | inr _ =>
           rs <- rows ;;
           if existsb (has_id (id r)) rs then ret (inl duplicate_key)
           else commit (rs ++ [r]) (DbInsert (id r) (status r)) ;; ret (inr r)
       end.

Definition update_rows (k : string) (f : Row -> Row) (rs : list Row) : list Row :=
  map (fun r => if has_id k r then f r else r) rs.

(** The partial unique index [orders_stripe_session_id_unique]: would
    writing session id [s] into order [k] collide with another row? *)
Definition session_taken (k : string) (s : option string) (rs : list Row) : bool :=
  match s with
  | Some sid => existsb (fun r => negb (has_id k r) && has_session sid r) rs
  | None => false
  end.

(** [.from('orders').update(u).eq('id', k).select().single()], where [u]
    rewrites a row as [f] does and sets [stripe_session_id] to [s] when
    [s] is given. *)
Definition update (k : string) (s : option string) (f : Row -> Row)
  : M (string + Row) :=
  flt <- fault ;;
  if flt then ret (inl fetch_failed)
  else (rs <- rows ;;
        if session_taken k s rs then ret (inl duplicate_key)
        else match filter (has_id k) rs with
             | [r] => commit (update_rows k f rs) (DbUpdate k (status (f r))) ;;
                      ret (inr (f r))
             | _ => ret (inl not_a_single_row)
             end).

End Supabase.

(** ** The database adapter interface ([BaseAdapter]) *)

(** The order the service passes to [db.createOrder]. *)
Record NewOrder : Type := mkNewOrder {
  n_id : string;
  n_status : option Status;
  n_items : list JS.value;
  n_customerEmail : JS.value;
  n_customerName : JS.value;
  n_locale : JS.value;
  n_totalAmount : float;
  n_createdAt : Time;
  n_updatedAt : Time
}.

Record Adapter : Type := mkAdapter {
  db_createOrder : NewOrder -> M Order;
  db_getOrderById : string -> M (option Order);
  db_updateOrderStatus : string -> Status -> AdditionalData -> M Order;
  db_findOrderByStripeSessionId : string -> M (option Order);
  db_findPendingOrderByItems : list JS.value -> option string -> M (option Order);
  db_getOrdersByEmail : JS.value -> M (list Order)
}.

(** ** [SupabaseAdapter] *)

Module SupabaseAdapter.

Definition not_connected : string := "Database adapter is not connected".

Definition isConnected : M bool := fun w => (Val (w_connected w), w).

Definition require_connected : M unit :=
  c <- isConnected ;;
  if c then ret tt else throw not_connected.

(** The row [createOrder] inserts; the columns it does not name take
    their defaults. *)
Definition new_row `{JsRuntime} (o : NewOrder) : Row :=
  {| id := n_id o;
     status := match n_status o with Some s => s | None => pending end;
     items := n_items o;
     customer_email := Supabase.text (n_customerEmail o);
     customer_name := Supabase.text (n_customerName o);
     customer_phone := None;
     shipping_name := None;
     shipping_line1 := None;
     shipping_line2 := None;
     shipping_city := None;
     shipping_state := None;
     shipping_postal_code := None;
     shipping_country := None;
     tax_amount := Some 0%float;
     tax_rate := None;
     tax_id := None;
     processing_fee := Some 0%float;
     metadata := None;
     locale := Supabase.text (JS.or (n_locale o) (JS.Str "en"));
     total_amount := n_totalAmount o;
     currency := Some "usd";
     amount_paid := None;
     stripe_session_id := None;
     stripe_payment_intent_id := None;
     stripe_session_url := None;
     paid_at := None;
     failed_at := None;
     error_message := None;
     created_at := n_createdAt o;
     updated_at := n_updatedAt o |}.

Definition createOrder `{JsRuntime} (o : NewOrder) : M Order :=
  require_connected ;;
  r <- Supabase.insert (new_row o) ;;
  match r with
  | inl msg =>
      logger error "Supabase error creating order" ;;
      throw ("Failed to create order: " ++ msg)
  | inr data => ret (mapSupabaseOrderToOrder data)
  end.

Definition findOrderByStripeSessionId (stripeSessionId : string) : M (option Order) :=
  require_connected ;;
  r <- Supabase.select_single (Supabase.has_session stripeSessionId) ;;
  match r with
  | inl _ => ret None
  | inr data => ret (Some (mapSupabaseOrderToOrder data))
  end.

Definition getOrderById (orderId : string) : M (option Order) :=
  require_connected ;;
  r <- Supabase.select_single (Supabase.has_id orderId) ;;
  match r with
  | inl _ => findOrderByStripeSessionId orderId   (* try finding by Stripe session ID *)
  | inr data => ret (Some (mapSupabaseOrderToOrder data))
  end.

(** [if (additionalData.x) updateData.col = additionalData.x] *)
Definition if_truthy (new old : option string) : option string :=
  if truthy_str new then new else old.

(** [if (additionalData.x !== undefined) updateData.col = additionalData.x],
    and [if (additionalData.x)] on a timestamp, which is truthy whenever
    it is there. *)
Definition if_defined {A} (new old : option A) : option A :=
  match new with Some _ => new | None => old end.

(** The [stripe_session_id] of [updateData], when it has one. *)
Definition updateData_session (ad : AdditionalData) : option string :=
  if truthy_str (ad_stripeSessionId ad) then ad_stripeSessionId ad else None.

(** What [.update(updateData)] makes of a row. *)
Definition update_row (st : Status) (t : Time) (ad : AdditionalData) (r : Row) : Row :=
  {| id := id r;
     status := st;
     items := items r;
     customer_email := if_truthy (ad_customerEmail ad) (customer_email r);
     customer_name := if_truthy (ad_customerName ad) (customer_name r);
     customer_phone := if_truthy (ad_customerPhone ad) (customer_phone r);
     shipping_name := if_truthy (ad_shippingName ad) (shipping_name r);
     shipping_line1 := if_truthy (ad_shippingLine1 ad) (shipping_line1 r);
     shipping_line2 := if_truthy (ad_shippingLine2 ad) (shipping_line2 r);
     shipping_city := if_truthy (ad_shippingCity ad) (shipping_city r);
     shipping_state := if_truthy (ad_shippingState ad) (shipping_state r);
     shipping_postal_code := if_truthy (ad_shippingPostalCode ad) (shipping_postal_code r);
     shipping_country := if_truthy (ad_shippingCountry ad) (shipping_country r);
     tax_amount := if_defined (ad_taxAmount ad) (tax_amount r);
     tax_rate := match ad_taxRate ad with Some v => v | None => tax_rate r end;
     tax_id := if_truthy (ad_taxId ad) (tax_id r);
     processing_fee := if_defined (ad_processingFee ad) (processing_fee r);
     metadata := match ad_metadata ad with
                 | Some v => if JS.truthy v then Some v else metadata r
                 | None => metadata r
                 end;
     locale := locale r;
     total_amount := total_amount r;
     currency := if_truthy (ad_currency ad) (currency r);
     amount_paid := if_defined (ad_amountPaid ad) (amount_paid r);
     stripe_session_id := if_truthy (ad_stripeSessionId ad) (stripe_session_id r);
     stripe_payment_intent_id :=
       if_truthy (ad_stripePaymentIntentId ad) (stripe_payment_intent_id r);
     stripe_session_url := if_truthy (ad_stripeSessionUrl ad) (stripe_session_url r);
     paid_at := if_defined (ad_paidAt ad) (paid_at r);
     failed_at := if_defined (ad_failedAt ad) (failed_at r);
     error_message := if_truthy (ad_error ad) (error_message r);
     created_at := created_at r;
     updated_at := t |}.

Definition updateOrderStatus (orderId : string) (st : Status) (ad : AdditionalData)
  : M Order :=
  require_connected ;;
  (* Check if order is already in the target status (idempotency) *)
  existingOrder <- getOrderById orderId ;;
  let write :=
    t <- now ;;
    r <- Supabase.update orderId (updateData_session ad) (update_row st t ad) ;;
    match r with
    | inl msg =>
        logger error "Supabase update error for order" ;;
        throw ("Failed to update order: " ++ msg)
    | inr data => ret (mapSupabaseOrderToOrder data)
    end in
  match existingOrder with
  | Some o =>
      if Status_eqb (o_status o) st && Status_eqb st paid
      then logger warn "Order already in paid status. Skipping update." ;; ret o
      else write
  | None => write
  end.

Fixpoint ids_of (l : list JS.value) : string + list JS.value :=
  match l with
  | [] => inr []
  | item :: rest =>
      match JS.get item "id" with
      | inl e => inl e
      | inr v => match ids_of rest with
                 | inl e => inl e
                 | inr vs => inr (v :: vs)
                 end
      end
  end.

Definition is_undefined (v : JS.value) : bool :=
  match v with JS.Undefined => true | _ => false end.

Fixpoint sort_insert `{JsRuntime} (x : JS.value) (l : list JS.value) : list JS.value :=
  match l with
  | [] => [x]
  | y :: l' =>
      if String.leb (ToString x) (ToString y) then x :: y :: l'
      else y :: sort_insert x l'
  end.

(** [Array.prototype.sort()] without a comparator: by [String(v)], with
    every [undefined] at the end. *)
Definition sort `{JsRuntime} (l : list JS.value) : list JS.value :=
  (fold_right sort_insert [] (filter (fun v => negb (is_undefined v)) l)
   ++ filter is_undefined l)%list.

(** [Array.prototype.join(',')] *)
Definition join `{JsRuntime} (l : list JS.value) : string :=
  String.concat ","
    (map (fun v => match v with
                   | JS.Undefined | JS.Null => ""
                   | _ => ToString v
                   end) l).

(** [items.map(item => item.id).sort().join(',')] *)
Definition item_ids_key `{JsRuntime} (l : list JS.value) : string + string :=
  match ids_of l with
  | inl e => inl e
  | inr vs => inr (join (sort vs))
  end.

Fixpoint find_by_item_ids `{JsRuntime} (itemIds : string) (data : list Row)
  : string + option Row :=
  match data with
  | [] => inr None
  | order :: rest =>
      match item_ids_key (items order) with
      | inl e => inl e
      | inr orderItemIds =>
          if String.eqb orderItemIds itemIds then inr (Some order)
          else find_by_item_ids itemIds rest
      end
  end.

Definition findPendingOrderByItems `{JsRuntime}
  (its : list JS.value) (customerEmail : option string) : M (option Order) :=
  require_connected ;;
  itemIds <- of_sum (item_ids_key its) ;;
  t <- now ;;
  let fiveMinutesAgo := t - 5 * 60 * 1000 in
  r <- Supabase.select
         (fun row =>
            Status_eqb (status row) pending
            && (fiveMinutesAgo <=? created_at row)
            && (if truthy_str customerEmail
                then opt_string_eqb (customer_email row) customerEmail
                else true)) ;;
  match r with
  | inl _ =>
      logger error "Supabase error finding pending order by items" ;;
      ret None
  | inr data =>
      matchingOrder <- of_sum (find_by_item_ids itemIds data) ;;
      ret (option_map mapSupabaseOrderToOrder matchingOrder)
  end.

(** [.eq('customer_email', email)] filters by the text [`eq.${email}`]. *)
Definition getOrdersByEmail `{JsRuntime} (email : JS.value) : M (list Order) :=
  require_connected ;;
  e <- of_sum (to_string email) ;;
  r <- Supabase.select_order_desc
         (fun row => opt_string_eqb (customer_email row) (Some e)) ;;
  match r with
  | inl msg => throw msg
  | inr data => ret (map mapSupabaseOrderToOrder data)
  end.

Definition adapter `{JsRuntime} : Adapter :=
  {| db_createOrder := createOrder;
     db_getOrderById := getOrderById;
     db_updateOrderStatus := updateOrderStatus;
     db_findOrderByStripeSessionId := findOrderByStripeSessionId;
     db_findPendingOrderByItems := findPendingOrderByItems;
     db_getOrdersByEmail := getOrdersByEmail |}.

End SupabaseAdapter.

(** [getDatabase()] of [database/database.js]. *)
Definition getDatabase `{JsRuntime} : Adapter := SupabaseAdapter.adapter.

(** ** [OrderService] *)

(** The [orderData] the checkout route passes to [createOrder]. *)
Record OrderData : Type := mkOrderData {
  od_items : list JS.value;
  od_customerEmail : JS.value;
  od_customerName : JS.value;
  od_locale : JS.value;
  od_totalAmount : float;
  od_status : option Status
}.

Module OrderService.
Section WithDatabase.

Variable db : Adapter.    (* [this.db] *)

(** [`ORD-${Date.now()}-${random}`]: the next identifier of [w_ids]. *)
Definition generateOrderId : M string :=
fun w =>
  match w_ids w with
  | [] => (Val "ORD-", w)
  | i :: rest => (Val i, set_ids rest w)
  end.

Definition createOrder (orderData : OrderData) : M Order :=
try_catch
  (orderId <- generateOrderId ;;
   t <- now ;;
   let order :=
     {| n_id := orderId;
        n_status := od_status orderData;
        n_items := od_items orderData;
        n_customerEmail := od_customerEmail orderData;
        n_customerName := od_customerName orderData;
        n_locale := od_locale orderData;
        n_totalAmount := od_totalAmount orderData;
        n_createdAt := t;
        n_updatedAt := t |} in
   createdOrder <- db_createOrder db order ;;
   logger info "Order created successfully" ;;
   ret createdOrder)
  (fun e =>
     logger error "Error creating order" ;;
     throw ("Failed to create order: " ++ e)).

Definition updateOrderStatus (orderId : string) (st : Status) (ad : AdditionalData)
: M Order :=
try_catch
  (updatedOrder <- db_updateOrderStatus db orderId st ad ;;
   logger info "Order updated successfully" ;;
   ret updatedOrder)
  (fun e =>
     logger error "Error updating order" ;;
     throw ("Failed to update order: " ++ e)).

Definition findOrderByStripeSessionId (stripeSessionId : string) : M (option Order) :=
try_catch
  (db_findOrderByStripeSessionId db stripeSessionId)
  (fun e => logger error "Error finding order by session ID" ;; ret None).

Definition findPendingOrderByItems (its : list JS.value) (customerEmail : option string)
: M (option Order) :=
try_catch
  (db_findPendingOrderByItems db its customerEmail)
  (fun e => logger error "Error finding pending order by items" ;; ret None).

Definition getOrderById (orderId : string) : M (option Order) :=
try_catch
  (db_getOrderById db orderId)
  (fun e => logger error "Error getting order by ID" ;; ret None).

Definition getOrdersByEmail (email : JS.value) : M (list Order) :=
try_catch
  (db_getOrdersByEmail db email)
  (fun e => logger error "Error getting orders by email" ;; ret []).

End WithDatabase.
End OrderService.

(** ** The payment provider *)

Module Stripe.

Definition timed_out : string :=
  "An error occurred with our connection to Stripe. Request was retried 2 times.".

(** [stripe.checkout.sessions.retrieve(id)] *)
Definition sessions_retrieve (sid : string) : M CheckoutSession :=
  effect (StripeSessionsRetrieve sid) ;;
  fun w =>
    match find (fun s => String.eqb (cs_id s) sid) (w_stripe_sessions w) with
    | Some s => (Val s, w)
    | None => (Throw ("No such checkout.session: " ++ sid), w)
    end.

(** [stripe.checkout.sessions.create({...}, { idempotencyKey })].  Of the
    request only [metadata.orderId] is kept. *)
Definition sessions_create (orderId : string) : M CheckoutSession :=
  effect (StripeSessionsCreate orderId) ;;
  fun w =>
    match w_stripe_create w with
    | [] => (Throw timed_out, w)
    | inl msg :: rest => (Throw msg, set_stripe_create rest w)
    | inr s :: rest =>
        (Val s, set_stripe_sessions (w_stripe_sessions w ++ [s]) (set_stripe_create rest w))
    end.

End Stripe.

(** ** Webhook events *)

Record CustomerDetails : Type := mkCustomerDetails {
  cd_email : option string;
  cd_name : option string;
  cd_phone : option string
}.

Record Address : Type := mkAddress {
  line1 : option string;
  line2 : option string;
  city : option string;
  state : option string;
  postal_code : option string;
  country : option string
}.

Record ShippingDetails : Type := mkShippingDetails {
  sd_name : option string;
  sd_address : option Address
}.

(** [event.data.object] of a [checkout.session.*] event. *)
Record Session : Type := mkSession {
  s_id : string;
  s_customer_email : option string;
  s_customer_details : option CustomerDetails;
  s_amount_total : option float;            (* [null] when absent *)
  s_currency : option string;
  s_payment_intent : option string;
  s_metadata_orderId : option string;       (* [session.metadata?.orderId] *)
  s_metadata_customerName : option string;
  s_shipping_details : option ShippingDetails;
  s_amount_tax : option float               (* [session.total_details?.amount_tax] *)
}.

(** [event.data.object] of a [payment_intent.*] event. *)
Record PaymentIntent : Type := mkPaymentIntent {
  pi_id : string;
  pi_last_payment_error : option string     (* [last_payment_error?.message] *)
}.

Inductive StripeEvent : Type :=
| checkout_session_completed (session : Session)
| payment_intent_succeeded (paymentIntent : PaymentIntent)
| payment_intent_payment_failed (failedPayment : PaymentIntent)
| checkout_session_async_payment_failed (failedSession : Session)
| unhandled_event (type : string).

(** A webhook request, by what
    [stripe.webhooks.constructEvent(req.body, sig, webhookSecret)] makes of
    it: the verified event, or the message of the error it throws. *)
Record WebhookRequest : Type := mkWebhookRequest {
  constructEvent : string + StripeEvent
}.

(** [a || b] on strings that may be missing. *)
Definition or_str (a b : option string) : option string :=
  if truthy_str a then a else b.

(** [x?.f] *)
Definition opt_chain {A B} (x : option A) (f : A -> option B) : option B :=
  match x with Some a => f a | None => None end.

(** The fields the webhook attaches to an order it marks as paid. *)
Definition paid_data (session : Session) (t : Time) : AdditionalData :=
  let shippingAddress := opt_chain (s_shipping_details session) sd_address in
  {| ad_stripeSessionId := Some (s_id session);
     ad_stripePaymentIntentId := s_payment_intent session;
     ad_stripeSessionUrl := None;
     ad_paidAt := Some t;
     ad_failedAt := None;
     ad_error := None;
     ad_amountPaid :=
       Some (match s_amount_total session with Some a => a | None => 0 end / 100)%float;
     ad_currency := or_str (s_currency session) (Some "usd");
     ad_customerEmail :=
       or_str (s_customer_email session) (opt_chain (s_customer_details session) cd_email);
     ad_customerName :=
       or_str (opt_chain (s_customer_details session) cd_name)
              (s_metadata_customerName session);
     ad_customerPhone := opt_chain (s_customer_details session) cd_phone;
     ad_shippingName := opt_chain (s_shipping_details session) sd_name;
     ad_shippingLine1 := opt_chain shippingAddress line1;
     ad_shippingLine2 := opt_chain shippingAddress line2;
     ad_shippingCity := opt_chain shippingAddress city;
     ad_shippingState := opt_chain shippingAddress state;
     ad_shippingPostalCode := opt_chain shippingAddress postal_code;
     ad_shippingCountry := opt_chain shippingAddress country;
     ad_taxAmount :=
       Some (match s_amount_tax session with
             | Some x => if JS.truthy (JS.Number x) then (x / 100)%float else 0%float
             | None => 0%float
             end);
     ad_taxRate := Some None;
     ad_taxId := None;
     ad_processingFee := None;
     ad_metadata := None |}.

(** The fields of the fallback path (order found by session id). *)
Definition paid_data_fallback (session : Session) (t : Time) : AdditionalData :=
  mkAdditionalData None None None (Some t) None None
    (Some (match s_amount_total session with Some a => a | None => 0 end / 100)%float)
    (or_str (s_currency session) (Some "usd"))
    None None None None None None None None None None None None None None None.

Definition failed_data (msg : string) (t : option Time) : AdditionalData :=
  mkAdditionalData None None None None t (Some msg)
    None None None None None None None None None None None None None None None None None.

Definition attach_data (sessionId : string) (paymentIntent : option string)
  : AdditionalData :=
  mkAdditionalData (Some sessionId) paymentIntent None None None None
    None None None None None None None None None None None None None None None None None.

(** ** [server.js]: POST /api/payment/webhook *)

Section Handlers.

Context `{JsRuntime}.

Let db : Adapter := getDatabase.

(** [if (orderId) { ... }]: the order id comes with the event. *)
Definition completed_by_metadata (session : Session) (orderId : string) : M unit :=
  (* Check if order already exists and is already paid *)
  existingOrder <- OrderService.getOrderById db orderId ;;
  match existingOrder with
  | Some o =>
      (* Check if this session was already processed *)
      when (opt_string_eqb (o_stripeSessionId o) (Some (s_id session))
            && Status_eqb (o_status o) paid)
        (logger info
           "Order already marked as paid for session. Skipping duplicate webhook." ;;
         send 200 (Received (Some "Order already processed") None) ;;
         return_) ;;
      (* Check if order is already paid (even with different session) *)
      when (Status_eqb (o_status o) paid)
        (logger warn
           "Order is already paid. Duplicate payment attempt detected. Skipping update." ;;
         send 200 (Received (Some "Order already paid")
                            (Some "Duplicate payment attempt detected")) ;;
         return_)
  | None => ret tt
  end ;;
  logger info "Updating order to paid status" ;;
  t <- now ;;
  updatedOrder <- OrderService.updateOrderStatus db orderId paid (paid_data session t) ;;
  logger info "Order marked as paid in database".

(** [else { ... }]: fallback, find the order by Stripe session id. *)
Definition completed_by_session (session : Session) : M unit :=
  logger warn "No orderId found in session metadata, trying to find by session ID" ;;
  order <- OrderService.findOrderByStripeSessionId db (s_id session) ;;
  match order with
  | Some o =>
      logger info "Found order by session ID, updating to paid" ;;
      t <- now ;;
      _ <- OrderService.updateOrderStatus db (o_id o) paid (paid_data_fallback session t) ;;
      logger info "Order marked as paid (found by session ID)"
  | None => logger error "Order not found for session"
  end.

Definition handle_completed (session : Session) : M unit :=
  logger info "Payment successful for session" ;;
  try_catch
    (logger debug "Looking for order ID" ;;
     match s_metadata_orderId session with
     | Some orderId =>
         if negb (String.eqb orderId "")
         then completed_by_metadata session orderId
         else completed_by_session session
     | None => completed_by_session session
     end)
    (fun e =>
       (* Don't fail the webhook - log error but return success *)
       logger error "Error updating order status").

Definition handle_payment_failed (failedPayment : PaymentIntent) : M unit :=
  logger warn "PaymentIntent failed" ;;
  try_catch
    (order <- OrderService.findOrderByStripeSessionId db (pi_id failedPayment) ;;
     match order with
     | Some o =>
         t <- now ;;
         _ <- OrderService.updateOrderStatus db (o_id o) failed
                (failed_data
                   (match or_str (pi_last_payment_error failedPayment) None with
                    | Some m => m
                    | None => "Payment failed"
                    end) (Some t)) ;;
         logger info "Order marked as failed"
     | None => ret tt
     end)
    (fun e => logger error "Error updating failed order status").

Definition handle_async_payment_failed (failedSession : Session) : M unit :=
  logger warn "Checkout session payment failed" ;;
  try_catch
    (let orderId := s_metadata_orderId failedSession in
     match orderId with
     | Some oid =>
         when (negb (String.eqb oid ""))
           (t <- now ;;
            _ <- OrderService.updateOrderStatus db oid failed
                   (failed_data "Payment failed" (Some t)) ;;
            logger info "Order marked as failed")
     | None => ret tt
     end)
    (fun e => logger error "Error updating failed order status").

(** [switch (event.type) { ... }] *)
Definition dispatch (event : StripeEvent) : M unit :=
  match event with
  | checkout_session_completed session => handle_completed session
  | payment_intent_succeeded paymentIntent => logger info "PaymentIntent succeeded"
  | payment_intent_payment_failed failedPayment => handle_payment_failed failedPayment
  | checkout_session_async_payment_failed failedSession =>
      handle_async_payment_failed failedSession
  | unhandled_event _ => logger debug "Unhandled event type"
  end.

Definition webhook (req : WebhookRequest) : M unit :=
  fun w0 =>
    (if negb (w_stripe w0 && w_webhook_secret w0) then
       logger error
         "Stripe is not configured. Please set STRIPE_SECRET_KEY and STRIPE_WEBHOOK_SECRET environment variables." ;;
       send 500 (ErrorBody "Stripe is not configured" None) ;;
       return_
     else
       event <- try_catch
                  (of_sum (constructEvent req))
                  (fun err =>
                     logger error "Webhook signature verification failed" ;;
                     send 400 (Text ("Webhook Error: " ++ err)) ;;
                     return_) ;;
       (* Handle the event *)
       logger info "Received webhook event" ;;
       dispatch event ;;
       send 200 (Received None None)) w0.

End Handlers.

(** ** [routes/payment.js]: POST /api/payment/create-checkout-session *)

(** [req.body], as the route destructures it: the four properties, each
    any JSON value, [undefined] when the body does not have it. *)
Record CheckoutBody : Type := mkCheckoutBody {
  b_items : JS.value;
  b_customerEmail : JS.value;
  b_customerName : JS.value;
  b_locale : JS.value
}.

(** [locale = 'en'] in the destructuring: the default stands in for
    [undefined] only. *)
Definition default_en (locale : JS.value) : JS.value :=
  match locale with
  | JS.Undefined => JS.Str "en"
  | l => l
  end.

Section Checkout.

Context `{JsRuntime}.

Let db : Adapter := getDatabase.

(** [items.length] *)
Definition elements (v : JS.value) : list JS.value :=
  match v with JS.Array xs => xs | _ => [] end.

(** [!item.id || !item.name || typeof item.price !== 'number' || !item.quantity] *)
Definition item_invalid (item : JS.value) : string + bool :=
  match JS.get item "id" with
  | inl e => inl e
  | inr i =>
      if negb (JS.truthy i) then inr true
      else match JS.get item "name" with
           | inl e => inl e
           | inr n =>
               if negb (JS.truthy n) then inr true
               else match JS.get item "price" with
                    | inl e => inl e
                    | inr p =>
                        if negb (JS.is_number p) then inr true
                        else match JS.get item "quantity" with
                             | inl e => inl e
                             | inr q => inr (negb (JS.truthy q))
                             end
                    end
           end
  end.

(** [for (const item of items) { if (...) return res.status(400)... }] *)
Fixpoint validate_items (l : list JS.value) : M unit :=
  match l with
  | [] => ret tt
  | item :: rest =>
      bad <- of_sum (item_invalid item) ;;
      if bad then
        send 400 (ErrorBody "Each item must have id, name, price, and quantity" None) ;;
        return_
      else validate_items rest
  end.

(** [items.reduce((sum, item) => sum + (item.price * item.quantity * 100), sum)] *)
Fixpoint total_cents (l : list JS.value) (sum : float) : string + float :=
  match l with
  | [] => inr sum
  | item :: rest =>
      match JS.get item "price" with
      | inl e => inl e
      | inr p =>
          match JS.get item "quantity" with
          | inl e => inl e
          | inr q =>
              and_then (ToNumber p) (fun x =>
              and_then (ToNumber q) (fun y =>
              total_cents rest (sum + (x * y * 100))%float))
          end
      end
  end.

(** [i => ({ id: i.id, quantity: i.quantity })] *)
Definition id_quantity (i : JS.value) : string + JS.value :=
  match JS.get i "id" with
  | inl e => inl e
  | inr a =>
      match JS.get i "quantity" with
      | inl e => inl e
      | inr b => inr (JS.Object [("id", a); ("quantity", b)])
      end
  end.

Fixpoint map_id_quantity (l : list JS.value) : string + list JS.value :=
  match l with
  | [] => inr []
  | i :: rest =>
      match id_quantity i with
      | inl e => inl e
      | inr x => match map_id_quantity rest with
                 | inl e => inl e
                 | inr xs => inr (x :: xs)
                 end
      end
  end.

(** The predicate of [existingOrders.find(o => ...)]. *)
Definition recent_pending (its : list JS.value) (t : Time) (o : Order) : string + bool :=
  if negb (Status_eqb (o_status o) pending) then inr false
  else if negb (Nat.eqb (List.length (o_items o)) (List.length its)) then inr false
  else match map_id_quantity (o_items o) with
       | inl e => inl e
       | inr a =>
           match map_id_quantity its with
           | inl e => inl e
           | inr b =>
               if negb (JS.eqb (JS.Array a) (JS.Array b)) then inr false
               else inr (t - 5 * 60 * 1000 <? o_createdAt o)   (* within last 5 minutes *)
           end
       end.

Fixpoint find_recent_pending (its : list JS.value) (t : Time) (orders : list Order)
  : string + option Order :=
  match orders with
  | [] => inr None
  | o :: rest =>
      match recent_pending its t o with
      | inl e => inl e
      | inr true => inr (Some o)
      | inr false => find_recent_pending its t rest
      end
  end.

Definition spawn (t : Task) : M unit :=
  fun w => (Val tt, set_tasks (w_tasks w ++ [t]) w).

(** If there's a recent pending order with a Stripe session, return that
    session. *)
Definition reuse_session (recentPendingOrder : option Order) : M unit :=
  match recentPendingOrder with
  | Some o =>
      match o_stripeSessionId o with
      | Some sid =>
          when (negb (String.eqb sid ""))
            (logger warn "Found existing pending order with session" ;;
             logger info "Returning existing session to prevent duplicate payment" ;;
             try_catch
               (existingSession <- Stripe.sessions_retrieve sid ;;
                when (String.eqb (cs_status existingSession) "open")
                  (send 200 (SessionBody (cs_id existingSession) (o_id o)
                                         (cs_url existingSession)
                                         (Some "Using existing checkout session")) ;;
                   return_))
               (fun err =>
                  logger info "Existing session not found or expired, creating new order"))
      | None => ret tt
      end
  | None => ret tt
  end.

(** [`${v}`] and an element of [join], for what they throw. *)
Definition stringify (v : JS.value) : string + unit :=
  if JS.to_primitive_throws v then inl JS.to_primitive_error else inr tt.

(** One element of [lineItems]: [name], then
    [description: item.description || `${item.category || 'Course'} - ${item.level || ''}`.trim()],
    [images], [unit_amount], [quantity]. *)
Definition line_item (item : JS.value) : string + unit :=
  and_then (JS.get item "name") (fun _ =>
  and_then (JS.get item "description") (fun description =>
  and_then (if JS.truthy description then inr tt
            else and_then (JS.get item "category") (fun category =>
                 and_then (stringify (JS.or category (JS.Str "Course"))) (fun _ =>
                 and_then (JS.get item "level") (fun level =>
                 stringify (JS.or level (JS.Str "")))))) (fun _ =>
  and_then (JS.get item "image") (fun _ =>
  and_then (JS.get item "price") (fun _ =>
  and_then (JS.get item "quantity") (fun _ => inr tt)))))).

(** [items.map(item => ({ price_data: ..., quantity: item.quantity }))] *)
Fixpoint line_items (l : list JS.value) : string + unit :=
  match l with
  | [] => inr tt
  | item :: rest => and_then (line_item item) (fun _ => line_items rest)
  end.

(** [items.map(item => item.k)] *)
Fixpoint pluck (k : string) (l : list JS.value) : string + list JS.value :=
  match l with
  | [] => inr []
  | item :: rest =>
      and_then (JS.get item k) (fun v =>
      and_then (pluck k rest) (fun vs => inr (v :: vs)))
  end.

(** [items.map(item => item.k).join(sep)] *)
Definition joined (k : string) (l : list JS.value) : string + unit :=
  and_then (pluck k l) (fun vs => stringify (JS.Array vs)).

(** The line items and the success and cancel URLs, which hold
    [`${locale}`]. *)
Definition line_items_and_urls (locale : JS.value) (items : list JS.value) : string + unit :=
  and_then (line_items items) (fun _ =>
  and_then (stringify locale) (fun _ => stringify locale)).

(** The metadata of the session: the joined item ids and names, then
    [if (customerName) metadata.customerName = customerName.substring(0, 200)].
    The count and the total in between are numbers turned into strings. *)
Definition session_metadata (customerName : JS.value) (items : list JS.value)
  : string + unit :=
  and_then (joined "id" items) (fun _ =>
  and_then (joined "name" items) (fun _ =>
  if JS.truthy customerName then
    if JS.is_string customerName then inr tt
    else inl "customerName.substring is not a function"
  else inr tt)).

(** Create the Stripe checkout session for [order]. *)
Definition create_session (order : Order) : M CheckoutSession :=
  try_catch
    (logger info "Creating Stripe checkout session" ;;
     logger debug "Stripe line items" ;;
     session <- Stripe.sessions_create (o_id order) ;;
     logger info "Stripe session created successfully" ;;
     (* Update order with Stripe session ID (non-blocking - don't wait for it) *)
     spawn (mkTask (o_id order) (cs_id session) (cs_payment_intent session)) ;;
     ret session)
    (fun stripeError =>
       logger error "Stripe error creating checkout session" ;;
       (* If Stripe session creation fails, mark order as failed *)
       try_catch
         (_ <- OrderService.updateOrderStatus db (o_id order) failed
                 (failed_data stripeError None) ;;
          ret tt)
         (fun updateError => logger error "Error updating order status to failed") ;;
       throw stripeError).

(** The first half of the handler: validation and the duplicate-pending
    guard.  It ends the request with [return], or goes on with the items
    and the total in cents. *)
Definition checks (reqbody : CheckoutBody) : M (list JS.value * float) :=
  logger info "Creating checkout session" ;;
  logger debug "Checkout session request body" ;;
  let items := b_items reqbody in
  let customerEmail := b_customerEmail reqbody in
  logger debug "Parsed checkout data" ;;
  (* Validate required fields *)
  when (negb (JS.truthy items) || negb (JS.isArray items)
        || Nat.eqb (List.length (elements items)) 0)
    (send 400 (ErrorBody "Items array is required and cannot be empty" None) ;;
     return_) ;;
  (* Validate items structure *)
  validate_items (elements items) ;;
  (* Calculate total amount *)
  totalAmount <- of_sum (total_cents (elements items) 0%float) ;;
  when (totalAmount <=? 0)%float
    (send 400 (ErrorBody "Total amount must be greater than 0" None) ;;
     return_) ;;
  (* Check if there's already a pending order with the same items *)
  existingOrders <- OrderService.getOrdersByEmail db
                      (JS.or customerEmail (JS.Str "")) ;;
  t <- now ;;
  recentPendingOrder <- of_sum (find_recent_pending (elements items) t existingOrders) ;;
  reuse_session recentPendingOrder ;;
  ret (elements items, totalAmount).

(** The second half: the order, then the Stripe session, then the
    response. *)
Definition place_order (reqbody : CheckoutBody) (items : list JS.value)
  (totalAmount : float) : M unit :=
  let customerEmail := b_customerEmail reqbody in
  let customerName := b_customerName reqbody in
  let locale := default_en (b_locale reqbody) in
  (* Create order in database BEFORE creating Stripe session *)
  order <- try_catch
             (logger info "Creating order in database" ;;
              o <- OrderService.createOrder db
                     {| od_items := items;
                        od_customerEmail := customerEmail;
                        od_customerName := customerName;
                        od_locale := locale;
                        od_totalAmount := (totalAmount / 100)%float;
                        od_status := Some pending |} ;;
              logger info "Order created successfully" ;;
              ret o)
             (fun e =>
                logger error "Error creating order" ;;
                send 500 (ErrorBody "Failed to create order" (Some e)) ;;
                return_) ;;
  (* Create line items for Stripe; success and cancel URLs *)
  of_sum (line_items_and_urls locale items) ;;
  logger debug "Checkout URLs configured" ;;
  (* Prepare metadata *)
  of_sum (session_metadata customerName items) ;;
  session <- create_session order ;;
  logger info "Checkout session created successfully" ;;
  (* Send response immediately - don't wait for order update *)
  sent <- headersSent ;;
  if negb sent then
    send 200 (SessionBody (cs_id session) (o_id order) (cs_url session) None) ;;
    logger debug "Response sent to frontend"
  else
    logger warn "Response already sent, cannot send checkout session response".

Definition create_checkout_session (reqbody : CheckoutBody) : M unit :=
  try_catch
    (checked <- checks reqbody ;;
     place_order reqbody (fst checked) (snd checked))
    (fun e =>
       logger error "Error creating checkout session" ;;
       sent <- headersSent ;;
       if negb sent then
         send 500 (ErrorBody "Failed to create checkout session"
                     (Some (if String.eqb e "" then "Unknown error occurred" else e)))
       else
         logger error "Cannot send error response - headers already sent").

(** The [checkStripeConfig] middleware in front of the route. *)
Definition checkStripeConfig (next : M unit) : M unit :=
  fun w =>
    if negb (w_stripe w) then
      (send 500 (ErrorBody "Stripe is not configured"
                   (Some "Please set STRIPE_SECRET_KEY environment variable")) ;;
       return_) w
    else next w.

Definition post_create_checkout_session (reqbody : CheckoutBody) : M unit :=
  checkStripeConfig (create_checkout_session reqbody).

(** The promise the route left running: attach the session id to the
    order, [.then] log, [.catch] log. *)
Definition attach_session (t : Task) : M unit :=
  try_catch
    (_ <- OrderService.updateOrderStatus db (t_orderId t) pending
            (attach_data (t_sessionId t) (t_paymentIntent t)) ;;
     logger info "Order updated with Stripe session ID")
    (fun updateError => logger warn "Failed to update order with Stripe session ID").

End Checkout.

(** ** Requests, one after the other *)

(** Serve one request: a fresh [res], the handler, the response it sent. *)
Definition serve (handler : M unit) (w : World) : option Response * World :=
  let w' := snd (handler (set_res None w)) in
  (w_res w', w').

Inductive Op : Type :=
| PostCheckout (reqbody : CheckoutBody)
| PostWebhook (req : WebhookRequest)
| RunTask                       (* the oldest pending promise settles *)
| Tick (dt : Z).                (* time passes *)

Definition step `{JsRuntime} (op : Op) (w : World) : World :=
  match op with
  | PostCheckout reqbody => snd (serve (post_create_checkout_session reqbody) w)
  | PostWebhook req => snd (serve (webhook req) w)
  | RunTask =>
      match w_tasks w with
      | [] => w
      | t :: rest => snd (attach_session t (set_tasks rest w))
      end
  | Tick dt => set_clock (w_clock w + dt) w
  end.

Definition run `{JsRuntime} (ops : list Op) (w : World) : World :=
  fold_left (fun w op => step op w) ops w.


(** ** [routes/payment.js]: the read routes

    GET /api/payment/session/:sessionId, GET /api/payment/order/:orderId
    and GET /api/payment/orders/email/:email.  Each sends one response as
    the last thing it does, so the response is the value of the handler; a
    handler that throws has sent none. *)

Inductive ReadBody : Type :=
| SessionJson (session : CheckoutSession)         (* [{ session }] *)
| OrderJson (order : Order)                       (* [{ order }] *)
| OrdersJson (orders : list Order)                (* [{ orders }] *)
| ErrorJson (err : string) (message : option string).

Record Reply : Type := mkReply { r_code : Z; r_body : ReadBody }.

(** [return res.status(c).json(b)] *)
Definition reply (c : Z) (b : ReadBody) : M Reply := ret (mkReply c b).

(** The message of the [ReferenceError] for a name that is not in scope.
    The [catch] blocks of the read routes log the route parameter, a
    [const] that is declared inside their [try] block. *)
Definition not_defined (x : string) : string := x ++ " is not defined".

Section ReadRoutes.

Context `{JsRuntime}.

Let db : Adapter := getDatabase.

Definition get_session (sessionId : string) : M Reply :=
  fun w =>
    if negb (w_stripe w) then
      reply 500 (ErrorJson "Stripe is not configured"
                   (Some "Please set STRIPE_SECRET_KEY environment variable")) w
    else
      try_catch
        (if String.eqb sessionId "" then          (* [!sessionId] *)
           reply 400 (ErrorJson "Session ID is required" None)
         else
           session <- Stripe.sessions_retrieve sessionId ;;
           reply 200 (SessionJson session))
        (fun e => throw (not_defined "sessionId")) w.

Definition get_order (orderId : string) : M Reply :=
  try_catch
    (if String.eqb orderId "" then          (* [!orderId] *)
       reply 400 (ErrorJson "Order ID is required" None)
     else
       order <- OrderService.getOrderById db orderId ;;
       match order with
       | None => reply 404 (ErrorJson "Order not found" None)
       | Some o => reply 200 (OrderJson o)
       end)
    (fun e => throw (not_defined "orderId")).

Definition get_orders_by_email (email : string) : M Reply :=
  try_catch
    (if String.eqb email "" then          (* [!email] *)
       reply 400 (ErrorJson "Email is required" None)
     else
       orders <- OrderService.getOrdersByEmail db (JS.Str email) ;;
       reply 200 (OrdersJson orders))
    (fun e => throw (not_defined "email")).

End ReadRoutes.

(** ** [middleware/errorHandler.js] *)

(** [err.code]: absent, a number or a string. *)
Inductive Code : Type := NoCode | NumCode (n : Z) | StrCode (s : string).

(** The properties of an error the handler looks at. *)
Record JsError : Type := mkJsError {
  e_name : string;
  e_message : string;
  e_kind : option string;
  e_code : Code;
  e_status : option Z;
  e_errors : option (list string);   (* the messages of [Object.values(err.errors)] *)
  e_stack : string
}.

(** [{ success: false, error, stack? }] *)
Record ErrorResponse : Type := mkErrorResponse {
  er_success : bool;
  er_error : string;
  er_stack : option string
}.

(** [s.includes(sub)] *)
Definition includes (s sub : string) : bool :=
  match String.index 0 sub s with Some _ => true | None => false end.

Definition code_is (c : Code) (s : string) : bool :=
  match c with StrCode x => String.eqb x s | _ => false end.

(** [notFound]: the error it passes on, and the status it sets. *)
Definition notFound (originalUrl : string) (stack : string) : JsError * Z :=
  (mkJsError "Error" ("Not Found - " ++ originalUrl) None NoCode None None stack, 404).

(** [errorHandler(err, req, res, next)], with [res.statusCode] on entry and
    NODE_ENV; the status and the body it sends. *)
Definition errorHandler (development : bool) (err : JsError) (res_statusCode : Z)
  : M (Z * ErrorResponse) :=
  let statusCode := if res_statusCode =? 200 then 500 else res_statusCode in
  let message := e_message err in
  (* Mongoose bad ObjectId *)
  let '(statusCode, message) :=
    if String.eqb (e_name err) "CastError" && opt_string_eqb (e_kind err) (Some "ObjectId")
    then (404, "Resource not found") else (statusCode, message) in
  (* Mongoose duplicate key *)
  let '(statusCode, message) :=
    if match e_code err with NumCode n => n =? 11000 | _ => false end
    then (400, "Duplicate field value entered") else (statusCode, message) in
  (* Mongoose validation error *)
  sm <- (if String.eqb (e_name err) "ValidationError" then
           match e_errors err with
           | Some messages => ret (400, String.concat ", " messages)
           | None => throw "Cannot convert undefined or null to object"
           end
         else ret (statusCode, message)) ;;
  let '(statusCode, message) := sm in
  (* Rate limit error *)
  let '(statusCode, message) :=
    if match e_status err with Some n => n =? 429 | None => false end
    then (429, "Too many requests, please try again later") else (statusCode, message) in
  (* Google API specific errors *)
  let '(statusCode, message) :=
    if includes (e_message err) "Google Places API"
    then (502, "External service temporarily unavailable") else (statusCode, message) in
  (* Network timeout errors *)
  let '(statusCode, message) :=
    if code_is (e_code err) "ECONNABORTED" || includes (e_message err) "timeout"
    then (504, "Request timeout") else (statusCode, message) in
  (* Network connection errors *)
  let '(statusCode, message) :=
    if code_is (e_code err) "ECONNREFUSED" || code_is (e_code err) "ENOTFOUND"
    then (503, "Service temporarily unavailable") else (statusCode, message) in
  logger error "Request error" ;;
  ret (statusCode,
       {| er_success := false;
          er_error := message;
          er_stack := if development then Some (e_stack err) else None |}).

(** An unknown URL: [notFound], then [errorHandler]. *)
Definition unknown_route (development : bool) (originalUrl stack : string)
  : M (Z * ErrorResponse) :=
  let '(err, statusCode) := notFound originalUrl stack in
  errorHandler development err statusCode.

(** * Specification vocabulary *)

(** A property of the world after, relative to the world before, kept by
    every run of [m]. *)
Definition stable (R : World -> World -> Prop) {A} (m : M A) : Prop :=
  forall w, R w (snd (m w)).

(** [m] is not a [return] statement of the handler. *)
Definition no_return {A} (m : M A) : Prop := forall w, fst (m w) <> Return.

(** Only the logger output and the fault schedule may differ. *)
Record reads_only (w w' : World) : Prop := mkReadsOnly {
  ro_connected : w_connected w' = w_connected w;
  ro_rows : w_rows w' = w_rows w;
  ro_clock : w_clock w' = w_clock w;
  ro_ids : w_ids w' = w_ids w;
  ro_trace : w_trace w' = w_trace w;
  ro_stripe : w_stripe w' = w_stripe w;
  ro_webhook_secret : w_webhook_secret w' = w_webhook_secret w;
  ro_stripe_create : w_stripe_create w' = w_stripe_create w;
  ro_stripe_sessions : w_stripe_sessions w' = w_stripe_sessions w;
  ro_res : w_res w' = w_res w;
  ro_tasks : w_tasks w' = w_tasks w;
  ro_faults : w_faults w = [] -> w_faults w' = []
}.

(** The store may have been written and an order id drawn; the request, the
    clock, the provider and the configuration are as before. *)
Record store_only (w w' : World) : Prop := mkStoreOnly {
  so_connected : w_connected w' = w_connected w;
  so_clock : w_clock w' = w_clock w;
  so_stripe : w_stripe w' = w_stripe w;
  so_webhook_secret : w_webhook_secret w' = w_webhook_secret w;
  so_stripe_create : w_stripe_create w' = w_stripe_create w;
  so_stripe_sessions : w_stripe_sessions w' = w_stripe_sessions w;
  so_res : w_res w' = w_res w;
  so_tasks : w_tasks w' = w_tasks w;
  so_faults : w_faults w = [] -> w_faults w' = []
}.

Definition same_rows (w w' : World) : Prop := w_rows w' = w_rows w.

(** The configuration of the server is as before. *)
Definition same_config (w w' : World) : Prop :=
  w_stripe w' = w_stripe w /\ w_webhook_secret w' = w_webhook_secret w.

(** No order was written and nothing reached the store or the provider. *)
Definition untouched (w w' : World) : Prop :=
  w_rows w' = w_rows w /\ w_trace w' = w_trace w.

(** Relations a sequence of steps keeps. *)
Class Frame (R : World -> World -> Prop) : Prop := {
  frame_refl : forall w, R w w;
  frame_trans : forall a b c, R a b -> R b c -> R a c
}.

(** Relations that do not look at the logger output and the fault schedule. *)
Class IgnoresReads (R : World -> World -> Prop) : Prop :=
  ignores_reads : forall w w', reads_only w w' -> R w w'.

(** Relations that only look at the orders table. *)
Class RowsOnly (R : World -> World -> Prop) : Prop :=
  rows_only : forall w w', same_rows w w' -> R w w'.

(** Relations that do not look at the store either. *)
Class IgnoresStore (R : World -> World -> Prop) : Prop :=
  ignores_store : forall w w', store_only w w' -> R w w'.

(** The status of order [k], if the table has it. *)
Definition status_of (k : string) (rs : list Row) : option Status :=
  option_map status (find (Supabase.has_id k) rs).

(** Every order that was [paid] before is [paid] after. *)
Definition keeps_paid (w w' : World) : Prop :=
  forall k, status_of k (w_rows w) = Some paid -> status_of k (w_rows w') = Some paid.

(** The effects a handler added to the trace. *)
Definition new_effects (w w' : World) : list Effect :=
  skipn (List.length (w_trace w)) (w_trace w').

(** A verified webhook request carrying [ev]. *)
Definition verified (ev : StripeEvent) : WebhookRequest := mkWebhookRequest (inr ev).

(** Run from a request that has no response yet, [m] either [return]s
    after acknowledging the event, or has not answered. *)
Definition acks {A} (m : M A) : Prop :=
  forall w, w_res w = None ->
    match fst (m w) with
    | Return => exists a b, w_res (snd (m w)) = Some (mkResponse 200 (Received a b))
    | _ => w_res (snd (m w)) = None
    end.

(** [m] lets no exception escape. *)
Definition no_throw {A} (m : M A) : Prop := forall w e, fst (m w) <> Throw e.

(** What a query answers under a fault schedule: nothing when its flag is
    set. *)
Definition answer {A} (faults : list bool) (x : option A) : option A :=
  if hd false faults then None else x.

(** The world once the next query has been sent. *)
Definition pop (w : World) : World :=
  match w_faults w with
  | [] => w
  | _ :: fs => set_faults fs w
  end.

(** The one row with primary key [k] / with session id [k]. *)
Definition row_by_id (k : string) (rs : list Row) : option Row :=
  match filter (Supabase.has_id k) rs with [r] => Some r | _ => None end.

Definition row_by_session (k : string) (rs : list Row) : option Row :=
  match filter (Supabase.has_session k) rs with [r] => Some r | _ => None end.

(** The row [getOrderById k] resolves to: by primary key, else by session
    id. *)
Definition resolve (k : string) (faults : list bool) (rs : list Row) : option Row :=
  match answer faults (row_by_id k rs) with
  | Some r => Some r
  | None => answer (tl faults) (row_by_session k rs)
  end.

(** The same store: connection, pending faults and table. *)
Definition same_store (w w' : World) : Prop :=
  w_connected w' = w_connected w /\ w_faults w' = w_faults w /\ w_rows w' = w_rows w.

(** A stand-in runtime for the sample requests below, whose prices and
    quantities are numbers already. *)
#[export] Instance sample_runtime : JsRuntime :=
  {| ToString := fun v => match v with JS.Str s => s | _ => "[object Object]" end;
     StringToNumber := fun _ => PrimFloat.nan;
     JSONstringify := fun v => match v with JS.Str s => s | _ => "{}" end |}.

(** What an [update ... eq('id', k)] that sets [stripe_session_id] to [s]
    comes back with: the row it rewrites, or the error. *)
Definition update_result (k : string) (s : option string) (faults : list bool)
  (rs : list Row) : string + Row :=
  if hd false faults then inl Supabase.fetch_failed
  else if Supabase.session_taken k s rs then inl Supabase.duplicate_key
  else Supabase.single (filter (Supabase.has_id k) rs).

(** The world after the write [update k f] went through. *)
Definition written (k : string) (f : Row -> Row) (st : Status) (w : World) : World :=
  set_trace (w_trace w ++ [DbUpdate k st]) (set_rows (Supabase.update_rows k f (w_rows w)) w).

(** [updateOrderStatus] leaves an order alone that is already [paid] when
    asked to mark it [paid]. *)
Definition skips (st : Status) (existing : option Row) : bool :=
  match existing with
  | Some r => Status_eqb (status r) st && Status_eqb st paid
  | None => false
  end.

(** The world after the adapter's [getOrderById k] (one query, or two when
    the first finds nothing). *)
Definition after_getOrderById (k : string) (w : World) : World :=
  match answer (w_faults w) (row_by_id k (w_rows w)) with
  | Some _ => pop w
  | None => pop (pop w)
  end.

(** The row [updateOrderStatus k st ad] rewrites in [w], when the write
    goes through: the store is connected, the order is not skipped as
    already paid, and the update query comes back with its row. *)
Definition update_goes_through (k : string) (st : Status) (ad : AdditionalData)
  (w : World) : option Row :=
  if w_connected w then
    if skips st (resolve k (w_faults w) (w_rows w)) then None
    else match update_result k (SupabaseAdapter.updateData_session ad)
                 (w_faults (after_getOrderById k w)) (w_rows w) with
         | inr r => Some r
         | inl _ => None
         end
  else None.

(** The order a [checkout.session.completed] event is about is already
    [paid] in the table: the order with the id of the event's metadata, or,
    without that, the order with the event's session id. *)
Definition settled_by_id (k : string) (rs : list Row) : Prop :=
  exists r, row_by_id k rs = Some r /\ status r = paid.

Definition settled_by_session (sid : string) (rs : list Row) : Prop :=
  exists r, row_by_session sid rs = Some r /\ row_by_id (id r) rs = Some r
            /\ status r = paid.

Definition settled (session : Session) (rs : list Row) : Prop :=
  match s_metadata_orderId session with
  | Some k => if String.eqb k "" then settled_by_session (s_id session) rs
              else settled_by_id k rs
  | None => settled_by_session (s_id session) rs
  end.

(** The table is as before, or [P] holds of it. *)
Definition same_or (P : list Row -> Prop) (w w' : World) : Prop :=
  w_rows w' = w_rows w \/ P (w_rows w').

(** Without pending faults, a store where [P] holds of the table, or one
    that is not connected. *)
Definition quiet_store (P : list Row -> Prop) (w : World) : Prop :=
  w_faults w = [] /\ (w_connected w = false \/ P (w_rows w)).

(** From a quiet store, nothing is written and the store stays quiet. *)
Definition stays_quiet (P : list Row -> Prop) (w w' : World) : Prop :=
  quiet_store P w -> untouched w w' /\ quiet_store P w'.

(** What an [insert] of row [r] comes back with. *)
Definition insert_result (r : Row) (faults : list bool) (rs : list Row) : string + Row :=
  if hd false faults then inl Supabase.fetch_failed
  else match Supabase.decimal_10_2 (total_amount r) with
       | inl e => inl e
       | inr _ =>
           if existsb (Supabase.has_id (id r)) rs then inl Supabase.duplicate_key
           else inr r
       end.

(** The world after the insert of [r] went through. *)
Definition inserted (r : Row) (w : World) : World :=
  set_trace (w_trace w ++ [DbInsert (id r) (status r)]) (set_rows (w_rows w ++ [r]) w).

(** The row the checkout route creates for [orderData] in [w]. *)
Definition row_of `{JsRuntime} (orderData : OrderData) (w : World) : Row :=
  SupabaseAdapter.new_row
    {| n_id := hd "ORD-" (w_ids w);
       n_status := od_status orderData;
       n_items := od_items orderData;
       n_customerEmail := od_customerEmail orderData;
       n_customerName := od_customerName orderData;
       n_locale := od_locale orderData;
       n_totalAmount := od_totalAmount orderData;
       n_createdAt := w_clock w;
       n_updatedAt := w_clock w |}.

(** Order [k] is not [paid]; then every order that was [paid] stays [paid]
    and [k] stays not [paid]. *)
Definition keeps_paid_but (k : string) (w w' : World) : Prop :=
  status_of k (w_rows w) <> Some paid ->
  keeps_paid w w' /\ status_of k (w_rows w') <> Some paid.

(** The world once [generateOrderId] has drawn its identifier. *)
Definition take_id (w : World) : World :=
  match w_ids w with
  | [] => w
  | _ :: rest => set_ids rest w
  end.

(** The events whose handlers write no status other than [paid]. *)
Definition settles_only (ev : StripeEvent) : bool :=
  match ev with
  | checkout_session_completed _ | payment_intent_succeeded _ | unhandled_event _ => true
  | payment_intent_payment_failed _ | checkout_session_async_payment_failed _ => false
  end.

(** The operations that never take an order out of [paid]: a checkout
    request, a webhook request that is rejected or carries one of the events
    above, the passing of time. *)
Definition never_unpays (op : Op) : bool :=
  match op with
  | PostCheckout _ => true
  | PostWebhook req =>
      match constructEvent req with
      | inl _ => true
      | inr ev => settles_only ev
      end
  | RunTask => false
  | Tick _ => true
  end.

Definition is_retrieve (e : Effect) : Prop :=
  match e with StripeSessionsRetrieve _ => True | _ => False end.

(** What [checks] may do to the world: ask the provider about sessions, and
    answer the request. *)
Record checks_only (w w' : World) : Prop := mkChecksOnly {
  co_connected : w_connected w' = w_connected w;
  co_rows : w_rows w' = w_rows w;
  co_clock : w_clock w' = w_clock w;
  co_ids : w_ids w' = w_ids w;
  co_stripe_create : w_stripe_create w' = w_stripe_create w;
  co_stripe_sessions : w_stripe_sessions w' = w_stripe_sessions w;
  co_tasks : w_tasks w' = w_tasks w;
  co_faults : w_faults w = [] -> w_faults w' = [];
  co_trace : exists l, w_trace w' = (w_trace w ++ l)%list /\ Forall is_retrieve l
}.

(** The response is touched only by a computation that [return]s. *)
Definition responds_on_return {A} (m : M A) : Prop :=
  forall w, match fst (m w) with
            | Return => True
            | _ => w_res (snd (m w)) = w_res w
            end.

(** The error [stripe.checkout.sessions.create] is about to throw, if any;
    an exhausted provider times out. *)
Definition next_create_error (w : World) : option string :=
  match w_stripe_create w with
  | [] => Some Stripe.timed_out
  | inl msg :: _ => Some msg
  | inr _ :: _ => None
  end.

(** The [orderData] the route builds from a request. *)
Definition order_data (reqbody : CheckoutBody) (its : list JS.value) (totalAmount : float)
  : OrderData :=
  {| od_items := its;
     od_customerEmail := b_customerEmail reqbody;
     od_customerName := b_customerName reqbody;
     od_locale := default_en (b_locale reqbody);
     od_totalAmount := (totalAmount / 100)%float;
     od_status := Some pending |}.

(** The key the checkout route looks a customer's orders up with:
    [customerEmail || '']. *)
Definition email_key (reqbody : CheckoutBody) : JS.value :=
  JS.or (b_customerEmail reqbody) (JS.Str "").


(** The line items, the URLs and the metadata of the session can be built:
    no value that has to become a string throws on the way, and the
    customer name, if there is one, is a string. *)
Definition prepared (reqbody : CheckoutBody) (its : list JS.value) : Prop :=
  line_items_and_urls (default_en (b_locale reqbody)) its = inr tt
  /\ session_metadata (b_customerName reqbody) its = inr tt.

(** The flag the update query of [updateOrderStatus] meets, after the one
    query of its lookup by id, or the two when the first one fails. *)
Definition update_flag (faults : list bool) : bool :=
  if hd false faults then hd false (tl (tl faults)) else hd false (tl faults).

(** Order [k] is [paid] before; then it is [paid] after. *)
Definition stays_paid (k : string) (w w' : World) : Prop :=
  status_of k (w_rows w) = Some paid -> status_of k (w_rows w') = Some paid.

(** Does the operation reach order [k] with a status other than [paid]?
    These are the three writes that do not look at the status the order
    has: the [checkout.session.async_payment_failed] event that names [k]
    in its metadata, the [payment_intent.payment_failed] event whose id is
    the session id order [k] carries, and the deferred update that attaches
    the session to order [k]. *)
Definition reaches (k : string) (op : Op) (w : World) : bool :=
  match op with
  | PostWebhook req =>
      match constructEvent req with
      | inr (checkout_session_async_payment_failed failedSession) =>
          opt_string_eqb (s_metadata_orderId failedSession) (Some k)
      | inr (payment_intent_payment_failed failedPayment) =>
          existsb (fun r => Supabase.has_id k r
                            && Supabase.has_session (pi_id failedPayment) r) (w_rows w)
      | _ => false
      end
  | RunTask =>
      match w_tasks w with
      | t :: _ => String.eqb (t_orderId t) k
      | [] => false
      end
  | _ => false
  end.

(** No operation of the sequence, run from [w], reaches order [k]. *)
Fixpoint spares `{JsRuntime} (k : string) (ops : list Op) (w : World) : bool :=
  match ops with
  | [] => true
  | op :: rest => negb (reaches k op w) && spares k rest (step op w)
  end.

(** The log and the trace of effects only grow, by entries [l] and effects
    [t] of which [P] holds. *)
Definition leaves (P : list LogEntry -> list Effect -> Prop) (w w' : World) : Prop :=
  exists l t, w_log w' = (w_log w ++ l)%list /\ w_trace w' = (w_trace w ++ t)%list /\ P l t.

Definition appends : World -> World -> Prop := leaves (fun _ _ => True).

(** [P] stays true when more is logged and done, before or after. *)
Class Monotone (P : list LogEntry -> list Effect -> Prop) : Prop :=
  monotone : forall l t l0 l1 t0 t1, P l t -> P (l0 ++ l ++ l1)%list (t0 ++ t ++ t1)%list.

(** What [m] leaves behind when it ends with a value ([PV]) and when it
    [return]s ([PR]). *)
Definition accounts (PV PR : list LogEntry -> list Effect -> Prop) {A} (m : M A) : Prop :=
  forall w, match fst (m w) with
            | Val _ => leaves PV w (snd (m w))
            | Return => leaves PR w (snd (m w))
            | Throw _ => appends w (snd (m w))
            end.

(** The three entries that tell that the order was found [paid] already. *)
Definition already_paid (e : LogEntry) : Prop :=
  e = (info, "Order already marked as paid for session. Skipping duplicate webhook.")
  \/ e = (warn, "Order is already paid. Duplicate payment attempt detected. Skipping update.")
  \/ e = (warn, "Order already in paid status. Skipping update.").

(** The order the lookup by session id [sid] returns in [w]. *)
Definition found_by_session (sid : string) (w : World) : option Row :=
  if w_connected w then answer (w_faults w) (row_by_session sid (w_rows w)) else None.

(** A completed payment is applied or accounted for in the log: the order
    is written as [paid], or it was found [paid] already, or an error entry
    tells that the update failed or that no order was found. *)
Definition completed_accounted (l : list LogEntry) (t : list Effect) : Prop :=
  (exists k, In (DbUpdate k paid) t)
  \/ Exists already_paid l
  \/ In (error, "Error updating order status") l
  \/ In (error, "Order not found for session") l.

(** A failed payment for order [k] is applied or logged. *)
Definition failed_accounted (k : string) (l : list LogEntry) (t : list Effect) : Prop :=
  In (DbUpdate k failed) t \/ In (error, "Error updating failed order status") l.

(** What a verified event, delivered in [w], leaves in the log and the
    trace.  The failed asynchronous payment is accounted for when it names
    an order, the failed payment intent when the lookup by session id
    finds one; the other two events are logged. *)
Definition applied_or_logged (ev : StripeEvent) (w : World)
  (l : list LogEntry) (t : list Effect) : Prop :=
  match ev with
  | checkout_session_completed _ => completed_accounted l t
  | checkout_session_async_payment_failed failedSession =>
      match s_metadata_orderId failedSession with
      | Some k => k <> "" -> failed_accounted k l t
      | None => True
      end
  | payment_intent_payment_failed failedPayment =>
      match found_by_session (pi_id failedPayment) w with
      | Some r => failed_accounted (id r) l t
      | None => True
      end
  | payment_intent_succeeded _ => In (info, "PaymentIntent succeeded") l
  | unhandled_event _ => In (debug, "Unhandled event type") l
  end.

(** The exact value of a binary64 number that is finite. *)
Definition exact (x : float) : option Q :=
  match Prim2SF x with
  | S754_zero _ => Some 0%Q
  | S754_finite s m e =>
      let v := (inject_Z (Zpos m) * Qpower 2 e)%Q in
      Some (if s then Qopp v else v)
  | _ => None
  end.



(** Every order of after is an order of before, or has [x] as its
    [amount_paid]. *)
Definition pays (x : float) (w w' : World) : Prop :=
  forall r, In r (w_rows w') -> In r (w_rows w) \/ amount_paid r = Some x.

(** * A worked example *)

(** Decimal literals stand for the nearest binary64 value, as in JavaScript. *)
Set Warnings "-inexact-float".

(** A cart item with the four fields the route asks for. *)
Definition sample_item (i : string) (price quantity : float) : JS.value :=
  JS.Object [("id", JS.Str i); ("name", JS.Str "Course");
             ("price", JS.Number price); ("quantity", JS.Number quantity)].

(** The sessions the provider will hand out, in turn. *)
Definition sample_sessions : list (string + CheckoutSession) :=
  [inr (mkCheckoutSession "cs_1" (Some "https://pay/1") None "open");
   inr (mkCheckoutSession "cs_2" (Some "https://pay/2") None "open")].

(** An empty, connected store; Stripe and the webhook secret configured. *)
Definition sample_world : World :=
  mkWorld true [] [] 1000 ["ORD-1"; "ORD-2"] [] [] true true sample_sessions [] None [].

Definition sample_cart : JS.value := JS.Array [sample_item "c1" 49.99 2].

Definition sample_checkout : CheckoutBody :=
  mkCheckoutBody sample_cart (JS.Str "ada@example.com") (JS.Str "Ada") JS.Undefined.

(** The [checkout.session.completed] event for the first session. *)
Definition sample_completed : Session :=
  mkSession "cs_1" None None (Some 9998%float) (Some "usd") (Some "pi_1")
    (Some "ORD-1") None None None.

(** The store after the checkout, the attaching of the session and the
    payment: order ORD-1 is [paid] under session cs_1. *)
Definition sample_pending_world : World :=
  Eval vm_compute in run [PostCheckout sample_checkout; RunTask; Tick 1000] sample_world.

Definition sample_paid_world : World :=
  Eval vm_compute in
    run [PostWebhook (verified (checkout_session_completed sample_completed))]
      sample_pending_world.

(** The same two items in two orders. *)
Definition sample_checkout_ab : CheckoutBody :=
  mkCheckoutBody (JS.Array [sample_item "c1" 49.99 2; sample_item "c2" 10 1])
    (JS.Str "ada@example.com") (JS.Str "Ada") JS.Undefined.

Definition sample_checkout_ba : CheckoutBody :=
  mkCheckoutBody (JS.Array [sample_item "c2" 10 1; sample_item "c1" 49.99 2])
    (JS.Str "ada@example.com") (JS.Str "Ada") JS.Undefined.

(** The columns of an order the examples look at. *)
Definition summary (r : Row) : string * Status * option string :=
  (id r, status r, stripe_session_id r).

(** The same store when the provider cannot be reached. *)
Definition sample_outage_world : World := set_stripe_create [] sample_world.

(** A second session for the order of the example, and a failed payment
    intent. *)
Definition sample_completed_again : Session :=
  mkSession "cs_2" None None (Some 9998%float) (Some "usd") (Some "pi_2")
    (Some "ORD-1") None None None.

Definition sample_failed_intent : PaymentIntent :=
  mkPaymentIntent "pi_1" (Some "Your card was declined.").

(** The store of the example when the provider cannot be reached and the
    fourth query of the request, the update, does not come back. *)
Definition sample_lost_update_world : World :=
  set_faults [false; false; false; true] sample_outage_world.

(** The world the checks of the example's checkout leave behind. *)
Definition sample_checked_world : World :=
  Eval vm_compute in snd (checks sample_checkout (set_res None sample_outage_world)).

(** A cart whose total is beyond every binary64 number. *)
Definition sample_huge_checkout : CheckoutBody :=
  mkCheckoutBody (JS.Array [sample_item "c1" 1e308 10])
    (JS.Str "ada@example.com") (JS.Str "Ada") JS.Undefined.

(** The request of the example with a number as customer name. *)
Definition sample_numeric_name_checkout : CheckoutBody :=
  mkCheckoutBody sample_cart (JS.Str "ada@example.com") (JS.Number 123) JS.Undefined.




(** The order of the example paid before its checkout's deferred update
    has run. *)
Definition sample_early_paid_world : World :=
  Eval vm_compute in
    run [PostCheckout sample_checkout;
         PostWebhook (verified (checkout_session_completed sample_completed))]
      sample_world.

(** * More vocabulary *)

(** The columns of an order no update writes. *)
Definition core (r : Row) : string * list JS.value * float * Time * option string :=
  (id r, items r, total_amount r, created_at r, locale r).

(** Every order of before is still there, in its place, with the same
    [core]; orders may have been added at the end. *)
Definition grows (w w' : World) : Prop :=
  exists added, map core (w_rows w') = (map core (w_rows w) ++ added)%list.

(** No two orders of the table share an id. *)
Definition unique_ids (rs : list Row) : Prop := NoDup (map id rs).

Definition keeps_unique_ids (w w' : World) : Prop :=
  unique_ids (w_rows w) -> unique_ids (w_rows w').

(** The order a [checkout.session.completed] event is about: the one with
    the id of the event's metadata, or, without that, the one with the
    event's session id. *)
Definition order_of_event (session : Session) (rs : list Row) : option Row :=
  match s_metadata_orderId session with
  | Some k => if String.eqb k "" then row_by_session (s_id session) rs else row_by_id k rs
  | None => row_by_session (s_id session) rs
  end.

(** A store that is connected and whose queries all come back. *)
Definition healthy (w : World) : Prop := w_connected w = true /\ w_faults w = [].

(** The same orders in the same places, with the same [core]. *)
Definition same_orders (w w' : World) : Prop :=
  map core (w_rows w') = map core (w_rows w).

(** When order [k] is the last of the table and the only one with that id:
    the orders before it are as they were and the last one is still
    order [k]. *)
Definition only_last (k : string) (w w' : World) : Prop :=
  forall before r,
    w_rows w = (before ++ [r])%list -> id r = k ->
    existsb (Supabase.has_id k) before = false ->
    exists r', w_rows w' = (before ++ [r'])%list /\ id r' = k.

(** When the table has no order [k] (or more than one), nothing is written. *)
Definition absent_untouched (k : string) (w w' : World) : Prop :=
  row_by_id k (w_rows w) = None -> untouched w w'.

(** Session id [sid] is attached to no order other than [k]. *)
Definition session_free (sid k : string) (rs : list Row) : Prop :=
  forall r, In r rs -> stripe_session_id r = Some sid -> id r = k.

(** A cart the validation of the checkout route lets through, and its
    total in cents. *)
Definition valid_cart `{JsRuntime} (reqbody : CheckoutBody) (total : float) : Prop :=
  let its := elements (b_items reqbody) in
  JS.isArray (b_items reqbody) = true
  /\ its <> []
  /\ Forall (fun item => item_invalid item = inr false) its
  /\ total_cents its 0%float = inr total
  /\ (total <=? 0)%float = false.

(** The orders [orderService.getOrdersByEmail(e)] returns in [w]: the
    customer's orders, latest first, or none when the store is not
    connected or the query fails. *)
Definition known_orders (e : string) (w : World) : list Order :=
  if w_connected w && negb (hd false (w_faults w))
  then map mapSupabaseOrderToOrder
         (Supabase.order_desc
            (filter (fun row => opt_string_eqb (customer_email row) (Some e)) (w_rows w)))
  else [].

(** The orders the lookup of the duplicate guard returns for the key
    [email]: none when the key cannot be turned into a string. *)
Definition orders_for `{JsRuntime} (email : JS.value) (w : World) : list Order :=
  match to_string email with
  | inr e => known_orders e w
  | inl _ => []
  end.

(** The faults still pending once that lookup is behind: it takes one
    flag when its query is sent. *)
Definition after_lookup `{JsRuntime} (email : JS.value) (w : World) : list bool :=
  if w_connected w then
    match to_string email with
    | inr _ => tl (w_faults w)
    | inl _ => w_faults w
    end
  else w_faults w.




(** The order [orderService.getOrderById(k)] returns in [w]: none when the
    store is not connected or does not answer. *)
Definition order_seen (k : string) (w : World) : option Order :=
  if w_connected w
  then option_map mapSupabaseOrderToOrder (resolve k (w_faults w) (w_rows w))
  else None.

(** The store, the clock and the configuration go on as before: same
    connection, same time, same keys, and no failing query pending if none
    was. *)
Record steady (w w' : World) : Prop := mkSteady {
  st_connected : w_connected w' = w_connected w;
  st_clock : w_clock w' = w_clock w;
  st_stripe : w_stripe w' = w_stripe w;
  st_webhook_secret : w_webhook_secret w' = w_webhook_secret w;
  st_faults : w_faults w = [] -> w_faults w' = []
}.


(** The pending work is as before. *)
Definition same_tasks (w w' : World) : Prop := w_tasks w' = w_tasks w.

(** * The worked example, continued *)



(** The store right after the checkout, the update that attaches the
    session still pending. *)
Definition sample_checkout_world : World :=
  Eval vm_compute in run [PostCheckout sample_checkout] sample_world.

(** The order of the example as the checkout inserts it, once the session
    is attached, and once it is paid. *)
Definition sample_new_order : Row :=
  Eval vm_compute in
    row_of (order_data sample_checkout (elements sample_cart) 9998) sample_world.

Definition sample_pending_order : Row :=
  Eval vm_compute in
    SupabaseAdapter.update_row pending 1000 (attach_data "cs_1" None) sample_new_order.

Definition sample_paid_order : Row :=
  Eval vm_compute in
    SupabaseAdapter.update_row paid 2000 (paid_data sample_completed 2000)
      sample_pending_order.

(** The completed payment of the first session, without metadata, and one
    that names an order the table does not have. *)
Definition sample_completed_bare : Session :=
  mkSession "cs_1" None None (Some 9998%float) (Some "usd") (Some "pi_1")
    None None None None.

Definition sample_completed_unknown : Session :=
  mkSession "cs_9" None None (Some 9998%float) (Some "usd") (Some "pi_9")
    (Some "ORD-9") None None None.

(** A failed payment intent that carries the id of the first session. *)
Definition sample_declined_intent : PaymentIntent :=
  mkPaymentIntent "cs_1" (Some "Your card was declined.").


(** A store that is not connected. *)
Definition sample_down_world : World :=
  mkWorld false [] [] 1000 ["ORD-1"; "ORD-2"] [] [] true true sample_sessions [] None [].

(** An error as a database driver raises it. *)
Definition sample_error : JsError :=
  mkJsError "Error" "connect ECONNREFUSED 127.0.0.1:5432" None (StrCode "ECONNREFUSED")
    None None "Error: connect ECONNREFUSED".

(** * Properties *)

Lemma Status_eqb_eq (a b : Status) : Status_eqb a b = true <-> a = b.
Proof. destruct a, b; simpl; split; intro H; try reflexivity; discriminate H. Qed.

(** ** Composition rules *)

Section StableRules.

Context (R : World -> World -> Prop) `{Frame R}.

Lemma stable_ret {A} (a : A) : stable R (ret a).
Proof. intro w. apply frame_refl. Qed.

Lemma stable_throw {A} (e : string) : stable R (@throw A e).
Proof. intro w. apply frame_refl. Qed.

Lemma stable_return {A} : stable R (@return_ A).
Proof. intro w. apply frame_refl. Qed.

Lemma stable_bind {A B} (m : M A) (k : A -> M B) :
  stable R m -> (forall a, stable R (k a)) -> stable R (bind m k).
Proof.
  intros Hm Hk w. unfold bind. specialize (Hm w).
  destruct (m w) as [[a | e | ] w1]; simpl in *; auto.
  eapply frame_trans; [exact Hm | apply Hk].
Qed.

Lemma stable_try_catch {A} (m : M A) (h : string -> M A) :
  stable R m -> (forall e, stable R (h e)) -> stable R (try_catch m h).
Proof.
  intros Hm Hh w. unfold try_catch. specialize (Hm w).
  destruct (m w) as [[a | e | ] w1]; simpl in *; auto.
  eapply frame_trans; [exact Hm | apply Hh].
Qed.

Lemma stable_when (b : bool) (m : M unit) : stable R m -> stable R (when b m).
Proof. intro Hm. destruct b; simpl; [exact Hm | apply stable_ret]. Qed.

Lemma stable_of_sum {A} (r : string + A) : stable R (of_sum r).
Proof. destruct r; [apply stable_throw | apply stable_ret]. Qed.

Lemma stable_reads `{!IgnoresReads R} {A} (m : M A) :
  stable reads_only m -> stable R m.
Proof. intros Hm w. apply ignores_reads, Hm. Qed.

Lemma stable_same_rows `{!RowsOnly R} {A} (m : M A) :
  stable same_rows m -> stable R m.
Proof. intros Hm w. apply rows_only, Hm. Qed.

Lemma stable_store `{!IgnoresStore R} {A} (m : M A) :
  stable store_only m -> stable R m.
Proof. intros Hm w. apply ignores_store, Hm. Qed.

End StableRules.

Arguments stable_ret {R _ A}.
Arguments stable_throw {R _ A}.
Arguments stable_return {R _ A}.
Arguments stable_bind {R _ A B}.
Arguments stable_try_catch {R _ A}.
Arguments stable_when {R _}.
Arguments stable_of_sum {R _ A}.
Arguments stable_reads {R _ A}.
Arguments stable_store {R _ A}.
Arguments stable_same_rows {R _ A}.

Lemma no_return_ret {A} (a : A) : no_return (ret a).
Proof. intros w; simpl; discriminate. Qed.

Lemma no_return_throw {A} (e : string) : no_return (@throw A e).
Proof. intros w; simpl; discriminate. Qed.

Lemma no_return_bind {A B} (m : M A) (k : A -> M B) :
  no_return m -> (forall a, no_return (k a)) -> no_return (bind m k).
Proof.
  intros Hm Hk w. unfold bind. specialize (Hm w).
  destruct (m w) as [[a | e | ] w1]; simpl in *; try discriminate; auto.
  apply Hk.
Qed.

Lemma no_return_try_catch {A} (m : M A) (h : string -> M A) :
  no_return m -> (forall e, no_return (h e)) -> no_return (try_catch m h).
Proof.
  intros Hm Hh w. unfold try_catch. specialize (Hm w).
  destruct (m w) as [[a | e | ] w1]; simpl in *; try discriminate; auto.
  apply Hh.
Qed.

Lemma no_return_of_sum {A} (r : string + A) : no_return (of_sum r).
Proof. destruct r; [apply no_return_throw | apply no_return_ret]. Qed.

#[export] Instance reads_only_Frame : Frame reads_only.
Proof.
  split.
  - intro w; constructor; auto.
  - intros a b c [] []; constructor; try congruence; auto.
Qed.

#[export] Instance store_only_Frame : Frame store_only.
Proof.
  split.
  - intro w; constructor; auto.
  - intros a b c [] []; constructor; try congruence; auto.
Qed.

#[export] Instance store_only_IgnoresReads : IgnoresReads store_only.
Proof. intros w w' []; constructor; assumption. Qed.

#[export] Instance same_config_Frame : Frame same_config.
Proof. split; unfold same_config; [auto | intros a b c [] []; split; congruence]. Qed.

#[export] Instance same_config_IgnoresStore : IgnoresStore same_config.
Proof. intros w w' []; split; assumption. Qed.

#[export] Instance same_config_IgnoresReads : IgnoresReads same_config.
Proof. intros w w' []; split; assumption. Qed.

#[export] Instance same_rows_Frame : Frame same_rows.
Proof. split; unfold same_rows; [reflexivity | congruence]. Qed.

#[export] Instance same_rows_IgnoresReads : IgnoresReads same_rows.
Proof. intros w w' []; assumption. Qed.

#[export] Instance untouched_Frame : Frame untouched.
Proof. split; unfold untouched; [auto | intros a b c [] []; split; congruence]. Qed.

#[export] Instance untouched_IgnoresReads : IgnoresReads untouched.
Proof. intros w w' []; split; assumption. Qed.

#[export] Instance keeps_paid_Frame : Frame keeps_paid.
Proof. split; unfold keeps_paid; auto. Qed.

#[export] Instance keeps_paid_IgnoresReads : IgnoresReads keeps_paid.
Proof. intros w w' [] k Hk. congruence. Qed.

#[export] Instance keeps_paid_RowsOnly : RowsOnly keeps_paid.
Proof. intros w w' Hr k Hk. unfold same_rows in Hr. congruence. Qed.

#[export] Instance keeps_paid_but_Frame k : Frame (keeps_paid_but k).
Proof.
  split; unfold keeps_paid_but.
  - intros w Hk. split; [apply frame_refl | exact Hk].
  - intros a b c Hab Hbc Hk. destruct (Hab Hk) as [K1 N1]. destruct (Hbc N1) as [K2 N2].
    split; [eapply frame_trans; eassumption | exact N2].
Qed.

#[export] Instance keeps_paid_but_RowsOnly k : RowsOnly (keeps_paid_but k).
Proof.
  intros w w' Hr Hk. unfold same_rows in Hr. split; [now apply rows_only | congruence].
Qed.

#[export] Instance keeps_paid_but_IgnoresReads k : IgnoresReads (keeps_paid_but k).
Proof. intros w w' Hr. apply rows_only. apply (ro_rows _ _ Hr). Qed.

(** ** The primitives *)

Create HintDb stable discriminated.
Create HintDb no_return discriminated.

Ltac prim :=
  let w := fresh "w" in
  intro w;
  repeat match goal with
         | |- context [match ?x with _ => _ end] => destruct x
         end;
  simpl; try constructor; simpl; try reflexivity; try discriminate;
  try (intros; assumption); try (intros; discriminate).

Lemma reads_logger l s : stable reads_only (logger l s).
Proof. prim. Qed.

Lemma reads_now : stable reads_only now.
Proof. prim. Qed.

Lemma reads_headersSent : stable reads_only headersSent.
Proof. unfold headersSent. prim. Qed.

Lemma reads_fault : stable reads_only Supabase.fault.
Proof.
  intro w. unfold Supabase.fault.
  destruct (w_faults w) eqn:Hf; constructor; simpl;
    try reflexivity; try (intros; assumption); try (intros; discriminate).
  rewrite Hf. discriminate.
Qed.

Lemma reads_rows : stable reads_only Supabase.rows.
Proof. prim. Qed.

Lemma reads_isConnected : stable reads_only SupabaseAdapter.isConnected.
Proof. prim. Qed.

Lemma no_return_logger l s : no_return (logger l s).
Proof. prim. Qed.

Lemma no_return_now : no_return now.
Proof. prim. Qed.

Lemma no_return_fault : no_return Supabase.fault.
Proof. unfold Supabase.fault. prim. Qed.

Lemma no_return_rows : no_return Supabase.rows.
Proof. prim. Qed.

Lemma no_return_commit rs e : no_return (Supabase.commit rs e).
Proof. prim. Qed.

Lemma no_return_isConnected : no_return SupabaseAdapter.isConnected.
Proof. prim. Qed.

Lemma no_return_effect e : no_return (effect e).
Proof. prim. Qed.

#[export] Hint Resolve reads_logger reads_now reads_headersSent reads_fault reads_rows
  reads_isConnected : stable.
#[export] Hint Resolve no_return_logger no_return_now no_return_fault no_return_rows
  no_return_commit no_return_isConnected no_return_effect : no_return.

(** Structural proofs of [stable R m] and [no_return m]. *)
Ltac stable_step :=
  first
    [ solve [ auto with stable ]
    | solve [ apply stable_reads; auto with stable ]
    | solve [ apply stable_store; auto with stable ]
    | solve [ apply stable_same_rows; auto with stable ]
    | solve [ apply stable_same_rows; apply stable_reads; auto with stable ]
    | match goal with
      | |- stable _ (ret _) => apply stable_ret
      | |- stable _ (throw _) => apply stable_throw
      | |- stable _ return_ => apply stable_return
      | |- stable _ (of_sum _) => apply stable_of_sum
      | |- stable _ (bind _ _) => apply stable_bind; [ | intro ]
      | |- stable _ (try_catch _ _) => apply stable_try_catch; [ | intro ]
      | |- stable _ (when _ _) => apply stable_when
      | |- stable _ (if ?x then _ else _) => destruct x
      | |- stable _ (match ?x with _ => _ end) => destruct x
      | |- stable _ (let _ := _ in _) => cbv zeta
      end ].

Ltac stable_tac := repeat stable_step.

Ltac no_return_step :=
  first
    [ solve [ auto with no_return ]
    | match goal with
      | |- no_return (ret _) => apply no_return_ret
      | |- no_return (throw _) => apply no_return_throw
      | |- no_return (of_sum _) => apply no_return_of_sum
      | |- no_return (bind _ _) => apply no_return_bind; [ | intro ]
      | |- no_return (try_catch _ _) => apply no_return_try_catch; [ | intro ]
      | |- no_return (if ?x then _ else _) => destruct x
      | |- no_return (match ?x with _ => _ end) => destruct x
      | |- no_return (let _ := _ in _) => cbv zeta
      end ].

Ltac no_return_tac := repeat no_return_step.

(** ** The adapter and the service: reads *)

Lemma reads_require_connected : stable reads_only SupabaseAdapter.require_connected.
Proof. unfold SupabaseAdapter.require_connected. stable_tac. Qed.

Lemma no_return_require_connected : no_return SupabaseAdapter.require_connected.
Proof. unfold SupabaseAdapter.require_connected. no_return_tac. Qed.

#[export] Hint Resolve reads_require_connected : stable.
#[export] Hint Resolve no_return_require_connected : no_return.

Lemma reads_select p : stable reads_only (Supabase.select p).
Proof. unfold Supabase.select. stable_tac. Qed.

Lemma reads_select_single p : stable reads_only (Supabase.select_single p).
Proof. unfold Supabase.select_single. stable_tac. Qed.

Lemma reads_select_order_desc p : stable reads_only (Supabase.select_order_desc p).
Proof. unfold Supabase.select_order_desc. stable_tac. Qed.

Lemma no_return_select p : no_return (Supabase.select p).
Proof. unfold Supabase.select. no_return_tac. Qed.

Lemma no_return_select_single p : no_return (Supabase.select_single p).
Proof. unfold Supabase.select_single. no_return_tac. Qed.

Lemma no_return_select_order_desc p : no_return (Supabase.select_order_desc p).
Proof. unfold Supabase.select_order_desc. no_return_tac. Qed.

Lemma no_return_insert r : no_return (Supabase.insert r).
Proof. unfold Supabase.insert. no_return_tac. Qed.

Lemma no_return_update k s f : no_return (Supabase.update k s f).
Proof. unfold Supabase.update. no_return_tac. Qed.

#[export] Hint Resolve reads_select reads_select_single reads_select_order_desc : stable.
#[export] Hint Resolve no_return_select no_return_select_single no_return_select_order_desc
  no_return_insert no_return_update : no_return.

Lemma reads_findOrderByStripeSessionId sid :
  stable reads_only (SupabaseAdapter.findOrderByStripeSessionId sid).
Proof. unfold SupabaseAdapter.findOrderByStripeSessionId. stable_tac. Qed.

Lemma no_return_findOrderByStripeSessionId sid :
  no_return (SupabaseAdapter.findOrderByStripeSessionId sid).
Proof. unfold SupabaseAdapter.findOrderByStripeSessionId. no_return_tac. Qed.

#[export] Hint Resolve reads_findOrderByStripeSessionId : stable.
#[export] Hint Resolve no_return_findOrderByStripeSessionId : no_return.

Lemma reads_getOrderById k : stable reads_only (SupabaseAdapter.getOrderById k).
Proof. unfold SupabaseAdapter.getOrderById. stable_tac. Qed.

Lemma no_return_getOrderById k : no_return (SupabaseAdapter.getOrderById k).
Proof. unfold SupabaseAdapter.getOrderById. no_return_tac. Qed.

Lemma reads_getOrdersByEmail `{JsRuntime} e : stable reads_only (SupabaseAdapter.getOrdersByEmail e).
Proof. unfold SupabaseAdapter.getOrdersByEmail. stable_tac. Qed.

Lemma no_return_getOrdersByEmail `{JsRuntime} e : no_return (SupabaseAdapter.getOrdersByEmail e).
Proof. unfold SupabaseAdapter.getOrdersByEmail. no_return_tac. Qed.

Lemma reads_findPendingOrderByItems `{JsRuntime} its e :
  stable reads_only (SupabaseAdapter.findPendingOrderByItems its e).
Proof. unfold SupabaseAdapter.findPendingOrderByItems. stable_tac. Qed.

Lemma no_return_findPendingOrderByItems `{JsRuntime} its e :
  no_return (SupabaseAdapter.findPendingOrderByItems its e).
Proof. unfold SupabaseAdapter.findPendingOrderByItems. no_return_tac. Qed.

#[export] Hint Resolve reads_getOrderById reads_getOrdersByEmail
  reads_findPendingOrderByItems : stable.
#[export] Hint Resolve no_return_getOrderById no_return_getOrdersByEmail
  no_return_findPendingOrderByItems : no_return.

Lemma reads_svc_findOrderByStripeSessionId `{JsRuntime} sid :
  stable reads_only (OrderService.findOrderByStripeSessionId getDatabase sid).
Proof. unfold OrderService.findOrderByStripeSessionId; simpl. stable_tac. Qed.

Lemma reads_svc_getOrderById `{JsRuntime} k :
  stable reads_only (OrderService.getOrderById getDatabase k).
Proof. unfold OrderService.getOrderById; simpl. stable_tac. Qed.

Lemma reads_svc_getOrdersByEmail `{JsRuntime} e :
  stable reads_only (OrderService.getOrdersByEmail getDatabase e).
Proof. unfold OrderService.getOrdersByEmail; simpl. stable_tac. Qed.

Lemma reads_svc_findPendingOrderByItems `{JsRuntime} its e :
  stable reads_only (OrderService.findPendingOrderByItems getDatabase its e).
Proof. unfold OrderService.findPendingOrderByItems; simpl. stable_tac. Qed.

#[export] Hint Resolve reads_svc_findOrderByStripeSessionId reads_svc_getOrderById
  reads_svc_getOrdersByEmail reads_svc_findPendingOrderByItems : stable.

(** ** Lookups by session id *)

Lemma filter_none {A} (p : A -> bool) (l : list A) :
  (forall x, In x l -> p x = false) -> filter p l = [].
Proof.
  induction l as [| a l IH]; simpl; intro Hl; [reflexivity |].
  rewrite (Hl a (or_introl eq_refl)). apply IH. intros x Hx. apply Hl. now right.
Qed.

Lemma has_session_false k r :
  stripe_session_id r <> Some k -> Supabase.has_session k r = false.
Proof.
  unfold Supabase.has_session, opt_string_eqb. intro Hn.
  destruct (stripe_session_id r) as [s |]; [| reflexivity].
  destruct (String.eqb_spec s k) as [-> | ]; [now elim Hn | reflexivity].
Qed.

(** When no order carries session id [k], the adapter's lookup by session
    id finds nothing, whatever the store does. *)
Lemma findOrderByStripeSessionId_absent k w :
  (forall r, In r (w_rows w) -> stripe_session_id r <> Some k) ->
  forall o, fst (SupabaseAdapter.findOrderByStripeSessionId k w) <> Val (Some o).
Proof.
  intros Hk o.
  unfold SupabaseAdapter.findOrderByStripeSessionId, SupabaseAdapter.require_connected,
    SupabaseAdapter.isConnected, Supabase.select_single, Supabase.fault, Supabase.rows,
    bind, ret, throw.
  destruct (w_connected w); simpl; [| discriminate].
  destruct (w_faults w) as [| [|] fs]; simpl; try discriminate;
    rewrite filter_none by (intros x Hx; apply has_session_false, Hk, Hx);
    simpl; discriminate.
Qed.

Lemma svc_findOrderByStripeSessionId_absent `{JsRuntime} k w :
  (forall r, In r (w_rows w) -> stripe_session_id r <> Some k) ->
  fst (OrderService.findOrderByStripeSessionId getDatabase k w) = Val None.
Proof.
  intro Hk. unfold OrderService.findOrderByStripeSessionId, try_catch; simpl.
  pose proof (findOrderByStripeSessionId_absent k w Hk) as Hn.
  pose proof (no_return_findOrderByStripeSessionId k w) as Hr.
  destruct (SupabaseAdapter.findOrderByStripeSessionId k w) as [[[o |] | e |] w1];
    simpl in *; try reflexivity.
  - now elim (Hn o).
  - now elim Hr.
Qed.


(** ** Running a handler step by step *)

Lemma bind_ret {A B} (a : A) (k : A -> M B) w : bind (ret a) k w = k a w.
Proof. reflexivity. Qed.

Lemma bind_throw {A B} (e : string) (k : A -> M B) w : bind (throw e) k w = (Throw e, w).
Proof. reflexivity. Qed.

Lemma bind_return {A B} (k : A -> M B) w : bind return_ k w = (Return, w).
Proof. reflexivity. Qed.

Lemma bind_logger {B} l s (k : unit -> M B) w :
  bind (logger l s) k w = k tt (set_log (w_log w ++ [(l, s)]) w).
Proof. reflexivity. Qed.

Lemma bind_now {B} (k : Time -> M B) w : bind now k w = k (w_clock w) w.
Proof. reflexivity. Qed.

Lemma bind_effect {B} e (k : unit -> M B) w :
  bind (effect e) k w = k tt (set_trace (w_trace w ++ [e]) w).
Proof. reflexivity. Qed.

Lemma bind_assoc {A B C} (m : M A) (k : A -> M B) (k' : B -> M C) w :
  bind (bind m k) k' w = bind m (fun a => bind (k a) k') w.
Proof. unfold bind. destruct (m w) as [[a | e |] w1]; reflexivity. Qed.

Lemma bind_val {A B} (m : M A) (k : A -> M B) w a w1 :
  m w = (Val a, w1) -> bind m k w = k a w1.
Proof. unfold bind. now intros ->. Qed.

Lemma bind_thrown {A B} (m : M A) (k : A -> M B) w e w1 :
  m w = (Throw e, w1) -> bind m k w = (Throw e, w1).
Proof. unfold bind. now intros ->. Qed.

Lemma bind_returned {A B} (m : M A) (k : A -> M B) w w1 :
  m w = (Return, w1) -> bind m k w = (Return, w1).
Proof. unfold bind. now intros ->. Qed.

Lemma try_catch_val {A} (m : M A) h w a w1 :
  m w = (Val a, w1) -> try_catch m h w = (Val a, w1).
Proof. unfold try_catch. now intros ->. Qed.

Lemma try_catch_thrown {A} (m : M A) h w e w1 :
  m w = (Throw e, w1) -> try_catch m h w = h e w1.
Proof. unfold try_catch. now intros ->. Qed.

Lemma try_catch_returned {A} (m : M A) h w w1 :
  m w = (Return, w1) -> try_catch m h w = (Return, w1).
Proof. unfold try_catch. now intros ->. Qed.

Lemma surjective_run {A} (m : M A) w : m w = (fst (m w), snd (m w)).
Proof. destruct (m w); reflexivity. Qed.

(** ** Writes *)

Lemma store_commit rs e : stable store_only (Supabase.commit rs e).
Proof. prim. Qed.

#[export] Hint Resolve store_commit : stable.

Lemma store_insert r : stable store_only (Supabase.insert r).
Proof. unfold Supabase.insert. stable_tac. Qed.

Lemma store_update k s f : stable store_only (Supabase.update k s f).
Proof. unfold Supabase.update. stable_tac. Qed.

#[export] Hint Resolve store_insert store_update : stable.

Lemma store_db_createOrder `{JsRuntime} o : stable store_only (SupabaseAdapter.createOrder o).
Proof. unfold SupabaseAdapter.createOrder. stable_tac. Qed.

Lemma no_return_db_createOrder `{JsRuntime} o : no_return (SupabaseAdapter.createOrder o).
Proof. unfold SupabaseAdapter.createOrder. no_return_tac. Qed.

Lemma store_db_updateOrderStatus k st ad :
  stable store_only (SupabaseAdapter.updateOrderStatus k st ad).
Proof. unfold SupabaseAdapter.updateOrderStatus. stable_tac. Qed.

Lemma no_return_db_updateOrderStatus k st ad :
  no_return (SupabaseAdapter.updateOrderStatus k st ad).
Proof. unfold SupabaseAdapter.updateOrderStatus. no_return_tac. Qed.

#[export] Hint Resolve store_db_createOrder store_db_updateOrderStatus : stable.
#[export] Hint Resolve no_return_db_createOrder no_return_db_updateOrderStatus : no_return.

Lemma store_svc_updateOrderStatus `{JsRuntime} k st ad :
  stable store_only (OrderService.updateOrderStatus getDatabase k st ad).
Proof. unfold OrderService.updateOrderStatus; simpl. stable_tac. Qed.

Lemma no_return_svc_updateOrderStatus `{JsRuntime} k st ad :
  no_return (OrderService.updateOrderStatus getDatabase k st ad).
Proof. unfold OrderService.updateOrderStatus; simpl. no_return_tac. Qed.

Lemma no_return_svc_findOrderByStripeSessionId `{JsRuntime} sid :
  no_return (OrderService.findOrderByStripeSessionId getDatabase sid).
Proof. unfold OrderService.findOrderByStripeSessionId; simpl. no_return_tac. Qed.

Lemma no_return_svc_getOrderById `{JsRuntime} k :
  no_return (OrderService.getOrderById getDatabase k).
Proof. unfold OrderService.getOrderById; simpl. no_return_tac. Qed.

Lemma no_return_svc_getOrdersByEmail `{JsRuntime} e :
  no_return (OrderService.getOrdersByEmail getDatabase e).
Proof. unfold OrderService.getOrdersByEmail; simpl. no_return_tac. Qed.

#[export] Hint Resolve store_svc_updateOrderStatus : stable.
#[export] Hint Resolve no_return_svc_updateOrderStatus
  no_return_svc_findOrderByStripeSessionId no_return_svc_getOrderById
  no_return_svc_getOrdersByEmail : no_return.

Lemma untouched_send c b : stable untouched (send c b).
Proof. unfold send. prim; split; reflexivity. Qed.

Lemma same_config_send c b : stable same_config (send c b).
Proof. unfold send. prim; split; reflexivity. Qed.

Lemma same_rows_send c b : stable same_rows (send c b).
Proof. unfold send. prim. Qed.

Lemma same_rows_effect e : stable same_rows (effect e).
Proof. prim. Qed.

Lemma same_rows_sessions_retrieve sid : stable same_rows (Stripe.sessions_retrieve sid).
Proof. unfold Stripe.sessions_retrieve, bind, effect. prim. Qed.

Lemma same_rows_sessions_create k : stable same_rows (Stripe.sessions_create k).
Proof. unfold Stripe.sessions_create, bind, effect. prim. Qed.

#[export] Hint Resolve untouched_send same_config_send same_rows_send same_rows_effect
  same_rows_sessions_retrieve same_rows_sessions_create : stable.

(** ** Acknowledgment *)

Lemma acks_quiet {A} (m : M A) : no_return m -> stable store_only m -> acks m.
Proof.
  intros Hn Hs w Hw. specialize (Hn w). specialize (Hs w).
  destruct (m w) as [[a | e |] w1]; simpl in *;
    try (rewrite (so_res _ _ Hs); exact Hw).
  now elim Hn.
Qed.

Lemma acks_bind {A B} (m : M A) (k : A -> M B) :
  acks m -> (forall a, acks (k a)) -> acks (bind m k).
Proof.
  intros Hm Hk w Hw. unfold bind. specialize (Hm w Hw).
  destruct (m w) as [[a | e |] w1]; simpl in *; auto.
  apply Hk, Hm.
Qed.

Lemma acks_try_catch {A} (m : M A) (h : string -> M A) :
  acks m -> (forall e, acks (h e)) -> acks (try_catch m h).
Proof.
  intros Hm Hh w Hw. unfold try_catch. specialize (Hm w Hw).
  destruct (m w) as [[a | e |] w1]; simpl in *; auto.
  apply Hh, Hm.
Qed.

Lemma acks_ret {A} (a : A) : acks (ret a).
Proof. intros w Hw; exact Hw. Qed.

Lemma acks_when (b : bool) (m : M unit) : acks m -> acks (when b m).
Proof. destruct b; simpl; [auto | intros _; apply acks_ret]. Qed.

Lemma acks_send_return {A} a b : acks (send 200 (Received a b) ;; @return_ A).
Proof.
  intros w Hw. unfold bind, send, return_. rewrite Hw. simpl. now exists a, b.
Qed.

Ltac acks_step :=
  first
    [ solve [ apply acks_quiet; [ auto with no_return | apply stable_reads; auto with stable ] ]
    | solve [ apply acks_quiet; [ auto with no_return | auto with stable ] ]
    | match goal with
      | |- acks (ret _) => apply acks_ret
      | |- acks (send 200 (Received _ _) ;; return_) => apply acks_send_return
      | |- acks (bind _ _) => apply acks_bind; [ | intro ]
      | |- acks (try_catch _ _) => apply acks_try_catch; [ | intro ]
      | |- acks (when _ _) => apply acks_when
      | |- acks (if ?x then _ else _) => destruct x
      | |- acks (match ?x with _ => _ end) => destruct x
      end ].

Ltac acks_tac := repeat acks_step.

Lemma acks_dispatch `{JsRuntime} ev : acks (dispatch ev).
Proof.
  destruct ev; simpl;
    unfold handle_completed, completed_by_metadata, completed_by_session,
      handle_payment_failed, handle_async_payment_failed;
    acks_tac.
Qed.

Lemma no_throw_ret {A} (a : A) : no_throw (ret a).
Proof. intros w e; simpl; discriminate. Qed.

Lemma no_throw_logger l s : no_throw (logger l s).
Proof. intros w e; simpl; discriminate. Qed.

Lemma no_throw_bind {A B} (m : M A) (k : A -> M B) :
  no_throw m -> (forall a, no_throw (k a)) -> no_throw (bind m k).
Proof.
  intros Hm Hk w e. unfold bind. specialize (Hm w).
  destruct (m w) as [[a | e' |] w1]; simpl in *; try discriminate.
  - apply Hk.
  - now elim (Hm e').
Qed.

Lemma no_throw_try_catch {A} (m : M A) (h : string -> M A) :
  (forall e, no_throw (h e)) -> no_throw (try_catch m h).
Proof.
  intros Hh w e. unfold try_catch.
  destruct (m w) as [[a | e' |] w1]; simpl; try discriminate. apply Hh.
Qed.

Lemma no_throw_dispatch `{JsRuntime} ev : no_throw (dispatch ev).
Proof.
  destruct ev; simpl;
    unfold handle_completed, handle_payment_failed, handle_async_payment_failed;
    repeat first [ apply no_throw_logger
                 | apply no_throw_bind; [ | intro ]
                 | apply no_throw_try_catch; intro ].
Qed.

(** The webhook once the configuration check and the signature check are
    behind it. *)
Lemma webhook_verified `{JsRuntime} req ev w :
  w_stripe w = true -> w_webhook_secret w = true ->
  constructEvent req = inr ev ->
  webhook req w =
  (logger info "Received webhook event" ;;
   dispatch ev ;;
   send 200 (Received None None)) w.
Proof.
  intros Hs Hk Hev. unfold webhook. rewrite Hs, Hk, Hev. reflexivity.
Qed.

Lemma webhook_rejected `{JsRuntime} req msg w :
  w_stripe w = true -> w_webhook_secret w = true ->
  constructEvent req = inl msg ->
  webhook req w =
  (logger error "Webhook signature verification failed" ;;
   send 400 (Text ("Webhook Error: " ++ msg)) ;;
   @return_ unit) w.
Proof.
  intros Hs Hk Hev. unfold webhook. rewrite Hs, Hk, Hev. simpl.
  unfold bind, try_catch, of_sum, throw, logger, send, return_; simpl.
  destruct (w_res w); reflexivity.
Qed.

(** ** C9 *)

Lemma handle_payment_failed_absent `{JsRuntime} (failedPayment : PaymentIntent) w :
  (forall r, In r (w_rows w) -> stripe_session_id r <> Some (pi_id failedPayment)) ->
  untouched w (snd (handle_payment_failed failedPayment w))
  /\ fst (handle_payment_failed failedPayment w) = Val tt.
Proof.
  intro Hk. unfold handle_payment_failed.
  rewrite bind_logger.
  set (w1 := set_log _ w).
  pose proof (svc_findOrderByStripeSessionId_absent (pi_id failedPayment) w1 Hk) as Hv.
  pose proof (reads_svc_findOrderByStripeSessionId (pi_id failedPayment) w1) as Hr.
  erewrite try_catch_val.
  2:{ erewrite bind_val; [ | rewrite surjective_run, Hv; reflexivity ]. reflexivity. }
  simpl. split; [| reflexivity].
  split; [rewrite (ro_rows _ _ Hr) | rewrite (ro_trace _ _ Hr)]; reflexivity.
Qed.

Lemma untouched_unconfigured `{JsRuntime} req w :
  w_stripe w && w_webhook_secret w = false -> untouched w (snd (webhook req w)).
Proof.
  intro Hc. unfold webhook. rewrite Hc. simpl.
  unfold bind, logger, send, return_; simpl. destruct (w_res w); split; reflexivity.
Qed.

(** ** C4 *)

Lemma rejected_request `{JsRuntime} req msg w :
  w_stripe w = true -> w_webhook_secret w = true ->
  constructEvent req = inl msg ->
  fst (serve (webhook req) w) = Some (mkResponse 400 (Text ("Webhook Error: " ++ msg)))
  /\ w_rows (snd (serve (webhook req) w)) = w_rows w
  /\ w_trace (snd (serve (webhook req) w)) = w_trace w.
Proof.
  intros Hs Hk Hev. unfold serve; cbn [fst snd].
  rewrite (webhook_rejected req msg) by (simpl; assumption).
  repeat split; reflexivity.
Qed.

Lemma verified_request_acknowledged `{JsRuntime} req ev w :
  w_stripe w = true -> w_webhook_secret w = true ->
  constructEvent req = inr ev ->
  exists message warning,
    fst (serve (webhook req) w) = Some (mkResponse 200 (Received message warning)).
Proof.
  intros Hs Hk Hev. unfold serve; cbn [fst snd].
  rewrite (webhook_verified req ev) by (simpl; assumption).
  rewrite bind_logger. set (w1 := set_log _ _).
  assert (Hres : w_res w1 = None) by reflexivity.
  pose proof (acks_dispatch ev w1 Hres) as Ha.
  pose proof (no_throw_dispatch ev w1) as Ht.
  unfold bind.
  destruct (dispatch ev w1) as [[[] | e |] w2]; simpl in *.
  - unfold send. rewrite Ha. simpl. now exists None, None.
  - now elim (Ht e).
  - exact Ha.
Qed.

(** C9 (payment_intent.payment_failed resolves the order by session id).
    The handler passes the id of the failed payment intent to the lookup
    that compares it with [stripe_session_id]; when no order carries that
    id in its [stripe_session_id], handling the event writes no order and
    sends nothing to the store, whatever the configuration, the connection
    state and the failures of the store. *)
Theorem payment_failed_without_matching_session `{JsRuntime}
  (req : WebhookRequest) (failedPayment : PaymentIntent) (w : World) :
  constructEvent req = inr (payment_intent_payment_failed failedPayment) ->
  (forall r, In r (w_rows w) -> stripe_session_id r <> Some (pi_id failedPayment)) ->
  untouched w (snd (serve (webhook req) w)).
Proof.
  intros Hev Hk. unfold serve; cbn [snd]. set (w0 := set_res None w).
  change (untouched w0 (snd (webhook req w0))).
  destruct (w_stripe w0 && w_webhook_secret w0) eqn:Hc.
  - apply andb_prop in Hc as [Hs Hw].
    rewrite (webhook_verified req _ w0 Hs Hw Hev).
    rewrite bind_logger. set (w1 := set_log _ w0).
    destruct (handle_payment_failed_absent failedPayment w1 Hk) as [Hu Hv].
    cbn [dispatch].
    erewrite bind_val by (rewrite surjective_run, Hv; reflexivity).
    eapply frame_trans; [| apply untouched_send].
    exact Hu.
  - now apply untouched_unconfigured.
Qed.

(** ** What the reads return *)

Lemma pop_faults w : w_faults (pop w) = tl (w_faults w).
Proof. unfold pop. destruct (w_faults w) eqn:Hf; simpl; [exact Hf | reflexivity]. Qed.

Lemma pop_reads w : reads_only w (pop w).
Proof.
  unfold pop. destruct (w_faults w) eqn:Hf; constructor; simpl;
    try reflexivity; try (intros; assumption); try (intros; discriminate).
  rewrite Hf. discriminate.
Qed.

Lemma fault_run w : Supabase.fault w = (Val (hd false (w_faults w)), pop w).
Proof. unfold Supabase.fault, pop. destruct (w_faults w); reflexivity. Qed.

Lemma select_single_run p w :
  Supabase.select_single p w
  = (Val (if hd false (w_faults w) then inl Supabase.fetch_failed
          else Supabase.single (filter p (w_rows w))), pop w).
Proof.
  unfold Supabase.select_single. unfold bind at 1. rewrite fault_run.
  destruct (hd false (w_faults w)); [reflexivity |].
  unfold bind, Supabase.rows, ret. now rewrite (ro_rows _ _ (pop_reads w)).
Qed.

Lemma select_order_desc_run p w :
  Supabase.select_order_desc p w
  = (Val (if hd false (w_faults w) then inl Supabase.fetch_failed
          else inr (Supabase.order_desc (filter p (w_rows w)))), pop w).
Proof.
  unfold Supabase.select_order_desc. unfold bind at 1. rewrite fault_run.
  destruct (hd false (w_faults w)); [reflexivity |].
  unfold bind, Supabase.rows, ret. now rewrite (ro_rows _ _ (pop_reads w)).
Qed.

Lemma require_connected_run w :
  SupabaseAdapter.require_connected w
  = (if w_connected w then Val tt else Throw SupabaseAdapter.not_connected, w).
Proof.
  unfold SupabaseAdapter.require_connected, SupabaseAdapter.isConnected, bind, ret, throw.
  destruct (w_connected w); reflexivity.
Qed.

Lemma db_findOrderByStripeSessionId_run k w :
  SupabaseAdapter.findOrderByStripeSessionId k w
  = if w_connected w
    then (Val (option_map mapSupabaseOrderToOrder
                 (answer (w_faults w) (row_by_session k (w_rows w)))), pop w)
    else (Throw SupabaseAdapter.not_connected, w).
Proof.
  unfold SupabaseAdapter.findOrderByStripeSessionId.
  unfold bind at 1. rewrite require_connected_run.
  destruct (w_connected w); [| reflexivity].
  unfold bind. rewrite select_single_run.
  unfold answer, row_by_session, Supabase.single, ret.
  destruct (hd false (w_faults w)); [reflexivity |].
  destruct (filter _ _) as [| r [| r' l]]; reflexivity.
Qed.

Lemma db_getOrderById_run k w :
  SupabaseAdapter.getOrderById k w
  = if w_connected w
    then (Val (option_map mapSupabaseOrderToOrder (resolve k (w_faults w) (w_rows w))),
          match answer (w_faults w) (row_by_id k (w_rows w)) with
          | Some _ => pop w
          | None => pop (pop w)
          end)
    else (Throw SupabaseAdapter.not_connected, w).
Proof.
  unfold SupabaseAdapter.getOrderById.
  unfold bind at 1. rewrite require_connected_run.
  destruct (w_connected w) eqn:Hc; [| reflexivity].
  unfold bind. rewrite select_single_run.
  unfold resolve, answer, row_by_id, Supabase.single.
  assert (Hfind : SupabaseAdapter.findOrderByStripeSessionId k (pop w)
                  = (Val (option_map mapSupabaseOrderToOrder
                            (answer (tl (w_faults w)) (row_by_session k (w_rows w)))),
                     pop (pop w))).
  { rewrite db_findOrderByStripeSessionId_run.
    rewrite (ro_connected _ _ (pop_reads w)), Hc, pop_faults, (ro_rows _ _ (pop_reads w)).
    reflexivity. }
  destruct (hd false (w_faults w)); [exact Hfind |].
  destruct (filter (Supabase.has_id k) _) as [| r [| r' l]];
    first [ exact Hfind | reflexivity ].
Qed.

Lemma db_getOrdersByEmail_run `{JsRuntime} email w :
  SupabaseAdapter.getOrdersByEmail email w
  = if w_connected w
    then match to_string email with
         | inl err => (Throw err, w)
         | inr e =>
             (if hd false (w_faults w) then Throw Supabase.fetch_failed
              else Val (map mapSupabaseOrderToOrder
                          (Supabase.order_desc
                             (filter (fun row => opt_string_eqb (customer_email row) (Some e))
                                     (w_rows w)))),
              pop w)
         end
    else (Throw SupabaseAdapter.not_connected, w).
Proof.
  unfold SupabaseAdapter.getOrdersByEmail.
  unfold bind at 1. rewrite require_connected_run.
  destruct (w_connected w); [| reflexivity].
  unfold bind at 1. destruct (to_string email) as [err | e]; [reflexivity |].
  cbn [of_sum ret]. unfold bind. rewrite select_order_desc_run.
  destruct (hd false (w_faults w)); reflexivity.
Qed.

Lemma svc_getOrderById_fst `{JsRuntime} k w :
  fst (OrderService.getOrderById getDatabase k w)
  = Val (if w_connected w
         then option_map mapSupabaseOrderToOrder (resolve k (w_faults w) (w_rows w))
         else None).
Proof.
  unfold OrderService.getOrderById, try_catch; simpl.
  rewrite db_getOrderById_run. destruct (w_connected w); reflexivity.
Qed.

Lemma svc_findOrderByStripeSessionId_fst `{JsRuntime} k w :
  fst (OrderService.findOrderByStripeSessionId getDatabase k w)
  = Val (if w_connected w
         then option_map mapSupabaseOrderToOrder
                (answer (w_faults w) (row_by_session k (w_rows w)))
         else None).
Proof.
  unfold OrderService.findOrderByStripeSessionId, try_catch; simpl.
  rewrite db_findOrderByStripeSessionId_run. destruct (w_connected w); reflexivity.
Qed.

Lemma svc_getOrderById_same_store `{JsRuntime} k w w' :
  same_store w w' ->
  fst (OrderService.getOrderById getDatabase k w')
  = fst (OrderService.getOrderById getDatabase k w).
Proof. intros (Hc & Hf & Hr). rewrite !svc_getOrderById_fst, Hc, Hf, Hr. reflexivity. Qed.
Lemma opt_string_eqb_eq a b : opt_string_eqb a b = true <-> a = b.
Proof.
  destruct a as [x |], b as [y |]; simpl; split; intro E; try discriminate; try reflexivity.
  - apply String.eqb_eq in E. now subst.
  - injection E as ->. apply String.eqb_refl.
Qed.

Lemma opt_string_eqb_neq a b : a <> b -> opt_string_eqb a b = false.
Proof.
  intro Hn. destruct (opt_string_eqb a b) eqn:E; [| reflexivity].
  apply opt_string_eqb_eq in E. contradiction.
Qed.

Lemma completed_by_metadata_already_paid `{JsRuntime} session k o w :
  w_res w = None ->
  fst (OrderService.getOrderById getDatabase k w) = Val (Some o) ->
  o_status o = paid ->
  o_stripeSessionId o <> Some (s_id session) ->
  let w' := snd (OrderService.getOrderById getDatabase k w) in
  completed_by_metadata session k w
  = (Return,
     set_res (Some (mkResponse 200 (Received (Some "Order already paid")
                                             (Some "Duplicate payment attempt detected"))))
       (set_log (w_log w' ++
                 [(warn, "Order is already paid. Duplicate payment attempt detected. Skipping update.")])
                w')).
Proof.
  intros Hres Hget Hpaid Hsess w'.
  pose proof (reads_svc_getOrderById k w) as Hr. fold w' in Hr.
  unfold completed_by_metadata.
  erewrite bind_val by (rewrite surjective_run, Hget; reflexivity). fold w'. cbv beta iota.
  rewrite Hpaid, (opt_string_eqb_neq _ _ Hsess). cbn [andb Status_eqb when].
  unfold bind, ret, logger, send, return_. cbn [w_res set_log].
  rewrite (ro_res _ _ Hr), Hres. reflexivity.
Qed.

(** ** C5 *)

(** C5 (duplicate-payment anomaly).  A [checkout.session.completed] event
    whose order id resolves to an order that is [paid] under another
    session id than the one the event carries: no row of the orders table
    changes and nothing is sent to the store, the duplicate-payment warning
    is logged, and the event is acknowledged with 200. *)
Theorem duplicate_payment_not_applied `{JsRuntime}
  (req : WebhookRequest) (session : Session) (k : string) (o : Order) (w : World) :
  w_stripe w = true -> w_webhook_secret w = true ->
  constructEvent req = inr (checkout_session_completed session) ->
  s_metadata_orderId session = Some k -> k <> "" ->
  fst (OrderService.getOrderById getDatabase k w) = Val (Some o) ->
  o_status o = paid ->
  o_stripeSessionId o <> Some (s_id session) ->
  untouched w (snd (serve (webhook req) w))
  /\ fst (serve (webhook req) w)
     = Some (mkResponse 200 (Received (Some "Order already paid")
                                      (Some "Duplicate payment attempt detected")))
  /\ In (warn, "Order is already paid. Duplicate payment attempt detected. Skipping update.")
        (w_log (snd (serve (webhook req) w))).
Proof.
  intros Hs Hk Hev Hm Hne Hres Hpaid Hsess.
  unfold serve; cbn [fst snd]. set (w0 := set_res None w).
  rewrite (webhook_verified req _ w0 Hs Hk Hev).
  rewrite bind_logger. cbn [dispatch]. unfold handle_completed.
  rewrite bind_assoc, bind_logger. set (w1 := set_log _ _).
  rewrite Hm. apply String.eqb_neq in Hne. rewrite Hne. cbn [negb].
  set (w2 := set_log (w_log w1 ++ [(debug, "Looking for order ID")]) w1).
  assert (Hw2 : fst (OrderService.getOrderById getDatabase k w2) = Val (Some o)).
  { rewrite <- Hres. apply svc_getOrderById_same_store. repeat split. }
  pose proof (reads_svc_getOrderById k w2) as Hr.
  erewrite bind_returned.
  2:{ erewrite try_catch_returned; [reflexivity |].
      rewrite bind_logger. fold w2.
      apply (completed_by_metadata_already_paid session k o w2 eq_refl Hw2 Hpaid Hsess). }
  cbn [snd w_res w_log set_res set_log]. repeat split.
  - cbn [w_rows set_res set_log]. now rewrite (ro_rows _ _ Hr).
  - cbn [w_trace set_res set_log]. now rewrite (ro_trace _ _ Hr).
  - apply in_or_app. right. left. reflexivity.
Qed.

(** ** What the writes do *)

Lemma update_run k s f w :
  Supabase.update k s f w
  = match update_result k s (w_faults w) (w_rows w) with
    | inr r => (Val (inr (f r)), written k f (status (f r)) (pop w))
    | inl msg => (Val (inl msg), pop w)
    end.
Proof.
  unfold Supabase.update, update_result. unfold bind at 1. rewrite fault_run.
  destruct (hd false (w_faults w)); [reflexivity |].
  unfold bind at 1. unfold Supabase.rows. rewrite (ro_rows _ _ (pop_reads w)).
  destruct (Supabase.session_taken k s (w_rows w)); [reflexivity |].
  unfold Supabase.single.
  destruct (filter (Supabase.has_id k) (w_rows w)) as [| r [| r' l]]; try reflexivity.
  unfold bind, Supabase.commit, ret, written.
  rewrite (ro_rows _ _ (pop_reads w)), (ro_trace _ _ (pop_reads w)). reflexivity.
Qed.

Lemma after_getOrderById_reads k w : reads_only w (after_getOrderById k w).
Proof.
  unfold after_getOrderById. destruct (answer _ _).
  - apply pop_reads.
  - eapply frame_trans; apply pop_reads.
Qed.

Lemma db_updateOrderStatus_run k st ad w :
  SupabaseAdapter.updateOrderStatus k st ad w
  = if w_connected w then
      let wa := after_getOrderById k w in
      let f := SupabaseAdapter.update_row st (w_clock w) ad in
      let write :=
        match update_result k (SupabaseAdapter.updateData_session ad)
                (w_faults wa) (w_rows w) with
        | inr r => (Val (mapSupabaseOrderToOrder (f r)), written k f st (pop wa))
        | inl msg =>
            (Throw ("Failed to update order: " ++ msg),
             set_log (w_log (pop wa) ++ [(error, "Supabase update error for order")])
                     (pop wa))
        end in
      match resolve k (w_faults w) (w_rows w) with
      | Some r0 =>
          if skips st (Some r0)
          then (Val (mapSupabaseOrderToOrder r0),
                set_log (w_log wa ++ [(warn, "Order already in paid status. Skipping update.")])
                        wa)
          else write
      | None => write
      end
    else (Throw SupabaseAdapter.not_connected, w).
Proof.
  unfold SupabaseAdapter.updateOrderStatus.
  unfold bind at 1. rewrite require_connected_run.
  destruct (w_connected w) eqn:Hc; [| reflexivity].
  unfold bind at 1. rewrite db_getOrderById_run, Hc.
  fold (after_getOrderById k w). set (wa := after_getOrderById k w).
  pose proof (after_getOrderById_reads k w) as Hr. fold wa in Hr.
  cbv zeta.
  assert (Hwrite :
    (t <- now;;
     r <- Supabase.update k (SupabaseAdapter.updateData_session ad)
            (SupabaseAdapter.update_row st t ad);;
     match r with
     | inl msg =>
         logger error "Supabase update error for order";;
         throw ("Failed to update order: " ++ msg)
     | inr data => ret (mapSupabaseOrderToOrder data)
     end) wa
    = match update_result k (SupabaseAdapter.updateData_session ad)
              (w_faults wa) (w_rows w) with
      | inr r =>
          (Val (mapSupabaseOrderToOrder (SupabaseAdapter.update_row st (w_clock w) ad r)),
           written k (SupabaseAdapter.update_row st (w_clock w) ad) st (pop wa))
      | inl msg =>
          (Throw ("Failed to update order: " ++ msg),
           set_log (w_log (pop wa) ++ [(error, "Supabase update error for order")])
                   (pop wa))
      end).
  { rewrite bind_now. unfold bind at 1. rewrite update_run.
    rewrite (ro_clock _ _ Hr), (ro_rows _ _ Hr).
    destruct (update_result _ _ _ _) as [msg | r]; reflexivity. }
  destruct (resolve k (w_faults w) (w_rows w)) as [r0 |]; cbn [option_map]; [| exact Hwrite].
  unfold skips. cbn [mapSupabaseOrderToOrder o_status].
  destruct (Status_eqb (status r0) st && Status_eqb st paid); [reflexivity | exact Hwrite].
Qed.

Ltac projs :=
  cbn [w_rows w_trace w_log w_res w_connected w_faults w_clock w_ids w_stripe
       w_webhook_secret w_stripe_create w_stripe_sessions w_tasks
       set_rows set_faults set_clock set_ids set_log set_trace set_stripe_create
       set_stripe_sessions set_res set_tasks written fst snd] in *.

Lemma svc_updateOrderStatus_run `{JsRuntime} k st ad w :
  let w' := snd (OrderService.updateOrderStatus getDatabase k st ad w) in
  let f := SupabaseAdapter.update_row st (w_clock w) ad in
  store_only w w'
  /\ match update_goes_through k st ad w with
     | Some r =>
         fst (OrderService.updateOrderStatus getDatabase k st ad w)
         = Val (mapSupabaseOrderToOrder (f r))
         /\ w_rows w' = Supabase.update_rows k f (w_rows w)
         /\ w_trace w' = (w_trace w ++ [DbUpdate k st])%list
     | None => untouched w w'
     end.
Proof.
  cbv zeta. split; [apply store_svc_updateOrderStatus |].
  unfold OrderService.updateOrderStatus, update_goes_through, try_catch, bind; simpl.
  rewrite db_updateOrderStatus_run.
  destruct (w_connected w); [| split; reflexivity].
  cbv zeta.
  pose proof (after_getOrderById_reads k w) as Hr.
  pose proof (pop_reads (after_getOrderById k w)) as Hp.
  assert (Hu : forall l, untouched w (set_log l (pop (after_getOrderById k w)))).
  { intro l. split; projs;
      [rewrite (ro_rows _ _ Hp); apply (ro_rows _ _ Hr)
      | rewrite (ro_trace _ _ Hp); apply (ro_trace _ _ Hr)]. }
  assert (Hw : forall l,
             let f := SupabaseAdapter.update_row st (w_clock w) ad in
             w_rows (set_log l (written k f st (pop (after_getOrderById k w))))
             = Supabase.update_rows k f (w_rows w)
             /\ w_trace (set_log l (written k f st (pop (after_getOrderById k w))))
                = (w_trace w ++ [DbUpdate k st])%list).
  { intros l. projs.
    rewrite (ro_rows _ _ Hp), (ro_rows _ _ Hr), (ro_trace _ _ Hp), (ro_trace _ _ Hr).
    split; reflexivity. }
  destruct (resolve k (w_faults w) (w_rows w)) as [r0 |].
  - destruct (skips st (Some r0)).
    + split; projs; [apply (ro_rows _ _ Hr) | apply (ro_trace _ _ Hr)].
    + destruct (update_result _ _ _ _) as [msg | r]; cbn [fst snd logger throw ret].
      * apply Hu.
      * split; [reflexivity | apply Hw].
  - cbn [skips]. destruct (update_result _ _ _ _) as [msg | r]; cbn [fst snd logger throw ret].
    + apply Hu.
    + split; [reflexivity | apply Hw].
Qed.

(** ** Delivering a payment-completed event twice *)

Lemma update_row_id st t ad r : id (SupabaseAdapter.update_row st t ad r) = id r.
Proof. reflexivity. Qed.

Lemma update_row_status st t ad r : status (SupabaseAdapter.update_row st t ad r) = st.
Proof. reflexivity. Qed.

Lemma has_id_eq k r : Supabase.has_id k r = true <-> id r = k.
Proof. unfold Supabase.has_id. apply String.eqb_eq. Qed.

Lemma filter_update_rows (p : Row -> bool) k f rs :
  (forall r, p (f r) = p r) ->
  filter p (Supabase.update_rows k f rs)
  = map (fun r => if Supabase.has_id k r then f r else r) (filter p rs).
Proof.
  intro Hp. unfold Supabase.update_rows.
  induction rs as [| a rs IH]; simpl; [reflexivity |].
  assert (E : p (if Supabase.has_id k a then f a else a) = p a)
    by (destruct (Supabase.has_id k a); auto).
  rewrite E. destruct (p a); simpl; now rewrite IH.
Qed.

Lemma row_by_id_in k rs r : row_by_id k rs = Some r -> In r rs /\ id r = k.
Proof.
  unfold row_by_id. destruct (filter _ rs) as [| x [| y l]] eqn:E; try discriminate.
  intros [= ->]. assert (Hin : In r (filter (Supabase.has_id k) rs)) by (rewrite E; now left).
  apply filter_In in Hin as [Hin Hid]. split; [exact Hin | now apply has_id_eq].
Qed.

Lemma row_by_id_update_rows k f rs r :
  (forall x, id (f x) = id x) ->
  row_by_id k rs = Some r ->
  row_by_id k (Supabase.update_rows k f rs) = Some (f r).
Proof.
  intros Hf Hr. pose proof (row_by_id_in _ _ _ Hr) as [_ Hid].
  unfold row_by_id in *.
  rewrite filter_update_rows by (intro x; unfold Supabase.has_id; now rewrite Hf).
  destruct (filter _ rs) as [| x [| y l]]; try discriminate.
  injection Hr as ->. simpl.
  apply has_id_eq in Hid. now rewrite Hid.
Qed.

Lemma row_by_session_update_rows s k f rs r :
  (forall x, stripe_session_id (f x) = stripe_session_id x) ->
  row_by_session s rs = Some r -> id r = k ->
  row_by_session s (Supabase.update_rows k f rs) = Some (f r).
Proof.
  intros Hf Hr Hid. unfold row_by_session in *.
  rewrite filter_update_rows by (intro x; unfold Supabase.has_session; now rewrite Hf).
  destruct (filter _ rs) as [| x [| y l]]; try discriminate.
  injection Hr as ->. simpl.
  apply has_id_eq in Hid. now rewrite Hid.
Qed.

Lemma update_result_inr k s faults rs r :
  update_result k s faults rs = inr r -> row_by_id k rs = Some r.
Proof.
  unfold update_result, row_by_id, Supabase.single.
  destruct (hd false faults); [discriminate |].
  destruct (Supabase.session_taken k s rs); [discriminate |].
  destruct (filter _ rs) as [| x [| y l]]; try discriminate. now intros [= ->].
Qed.

(** A delivery to a store that already has the order as paid: by order id. *)
Lemma completed_by_metadata_paid `{JsRuntime} session k o w :
  w_res w = None ->
  fst (OrderService.getOrderById getDatabase k w) = Val (Some o) ->
  o_status o = paid ->
  fst (completed_by_metadata session k w) = Return
  /\ untouched w (snd (completed_by_metadata session k w))
  /\ exists a b, w_res (snd (completed_by_metadata session k w))
                 = Some (mkResponse 200 (Received a b)).
Proof.
  intros Hres Hget Hpaid.
  pose proof (reads_svc_getOrderById k w) as Hr.
  unfold completed_by_metadata.
  erewrite bind_val by (rewrite surjective_run, Hget; reflexivity).
  set (w' := snd _) in *. cbv beta iota.
  rewrite Hpaid. cbn [Status_eqb].
  destruct (opt_string_eqb (o_stripeSessionId o) (Some (s_id session)));
    cbn [andb when];
    unfold bind, ret, logger, send, return_; projs;
    rewrite (ro_res _ _ Hr), Hres; projs;
    (split; [reflexivity |]);
    (split; [split; [apply (ro_rows _ _ Hr) | apply (ro_trace _ _ Hr)] |]);
    eexists; eexists; reflexivity.
Qed.

#[export] Instance same_or_Frame P : Frame (same_or P).
Proof.
  split; unfold same_or.
  - now left.
  - intros a b c [Hab | Hb] [Hbc | Hc]; auto.
    + left; congruence.
    + right. now rewrite Hbc.
Qed.

#[export] Instance same_or_IgnoresReads P : IgnoresReads (same_or P).
Proof. intros w w' Hr. left. apply (ro_rows _ _ Hr). Qed.

#[export] Instance stays_quiet_Frame P : Frame (stays_quiet P).
Proof.
  split; unfold stays_quiet.
  - intros w Hq. split; [apply frame_refl | exact Hq].
  - intros a b c Hab Hbc Hq. destruct (Hab Hq) as [U1 Q1]. destruct (Hbc Q1) as [U2 Q2].
    split; [eapply frame_trans; eassumption | exact Q2].
Qed.

Lemma quiet_store_untouched P w w' :
  store_only w w' -> untouched w w' -> quiet_store P w -> quiet_store P w'.
Proof.
  intros Hs [Hr _] [Hf Hq]. split; [apply (so_faults _ _ Hs Hf) |].
  rewrite (so_connected _ _ Hs), Hr. exact Hq.
Qed.

#[export] Instance stays_quiet_IgnoresReads P : IgnoresReads (stays_quiet P).
Proof.
  intros w w' Hr Hq.
  assert (Hu : untouched w w') by (split; [apply (ro_rows _ _ Hr) | apply (ro_trace _ _ Hr)]).
  split; [exact Hu |].
  destruct Hq as [Hf Hq]. split; [apply (ro_faults _ _ Hr Hf) |].
  rewrite (ro_connected _ _ Hr), (ro_rows _ _ Hr). exact Hq.
Qed.

Lemma same_or_send P c b : stable (same_or P) (send c b).
Proof. unfold send. prim; left; reflexivity. Qed.

Lemma stays_quiet_send P c b : stable (stays_quiet P) (send c b).
Proof.
  intros w Hq. unfold send. destruct (w_res w); simpl; (split; [split; reflexivity | exact Hq]).
Qed.

#[export] Hint Resolve same_or_send stays_quiet_send : stable.

(** A write of [paid] that goes through leaves the order settled. *)
Lemma svc_update_paid_same_or `{JsRuntime} k ad :
  stable (same_or (settled_by_id k)) (OrderService.updateOrderStatus getDatabase k paid ad).
Proof.
  intro w. destruct (svc_updateOrderStatus_run k paid ad w) as [_ Hrun].
  unfold update_goes_through in Hrun.
  destruct (w_connected w); [| left; apply Hrun].
  destruct (skips _ _); [left; apply Hrun |].
  destruct (update_result _ _ _ _) as [msg | r] eqn:Hu; [left; apply Hrun |].
  destruct Hrun as (_ & Hrows & _). right. rewrite Hrows.
  exists (SupabaseAdapter.update_row paid (w_clock w) ad r). split; [| reflexivity].
  apply row_by_id_update_rows; [reflexivity |]. eapply update_result_inr; eassumption.
Qed.

(** On a quiet store whose order [k] is paid, [paid] is not written again. *)
Lemma svc_update_paid_stays_quiet `{JsRuntime} k ad :
  stable (stays_quiet (settled_by_id k))
         (OrderService.updateOrderStatus getDatabase k paid ad).
Proof.
  intros w Hq. destruct (svc_updateOrderStatus_run k paid ad w) as [Hs Hrun].
  assert (Hnone : update_goes_through k paid ad w = None).
  { unfold update_goes_through. destruct Hq as [Hf [Hc | (r & Hr & Hp)]].
    - now rewrite Hc.
    - destruct (w_connected w); [| reflexivity].
      unfold resolve, answer. rewrite Hf. cbn [hd]. rewrite Hr.
      unfold skips. rewrite Hp. reflexivity. }
  rewrite Hnone in Hrun. split; [exact Hrun |].
  eapply quiet_store_untouched; eassumption.
Qed.

#[export] Hint Resolve svc_update_paid_same_or svc_update_paid_stays_quiet : stable.

Lemma metadata_same_or `{JsRuntime} session k :
  stable (same_or (settled_by_id k)) (completed_by_metadata session k).
Proof. unfold completed_by_metadata. stable_tac. Qed.

Lemma metadata_stays_quiet `{JsRuntime} session k :
  stable (stays_quiet (settled_by_id k)) (completed_by_metadata session k).
Proof. unfold completed_by_metadata. stable_tac. Qed.

Lemma row_by_id_unique k rs r r' :
  row_by_id k rs = Some r -> In r' rs -> id r' = k -> r' = r.
Proof.
  unfold row_by_id. intros Hr Hin Hid.
  assert (Hf : In r' (filter (Supabase.has_id k) rs))
    by (apply filter_In; split; [exact Hin | now apply has_id_eq]).
  destruct (filter _ rs) as [| x [| y l]]; try discriminate.
  injection Hr as ->. destruct Hf as [-> | []]. reflexivity.
Qed.

Lemma row_by_session_in s rs r : row_by_session s rs = Some r -> In r rs.
Proof.
  unfold row_by_session. destruct (filter _ rs) as [| x [| y l]] eqn:E; try discriminate.
  intros [= ->]. assert (Hin : In r (filter (Supabase.has_session s) rs)) by (rewrite E; now left).
  now apply filter_In in Hin.
Qed.

Lemma svc_update_fallback_same_or `{JsRuntime} session t r w :
  row_by_session (s_id session) (w_rows w) = Some r ->
  same_or (settled_by_session (s_id session)) w
    (snd (OrderService.updateOrderStatus getDatabase (id r) paid
            (paid_data_fallback session t) w)).
Proof.
  intro Hsess.
  destruct (svc_updateOrderStatus_run (id r) paid (paid_data_fallback session t) w)
    as [_ Hrun].
  unfold update_goes_through in Hrun.
  destruct (w_connected w); [| left; apply Hrun].
  destruct (skips _ _); [left; apply Hrun |].
  destruct (update_result _ _ _ _) as [msg | r2] eqn:Hu; [left; apply Hrun |].
  destruct Hrun as (_ & Hrows & _). right. rewrite Hrows.
  apply update_result_inr in Hu.
  assert (r = r2)
    by (eapply row_by_id_unique; [exact Hu | eapply row_by_session_in; eassumption | reflexivity]).
  subst r2.
  set (f := SupabaseAdapter.update_row paid (w_clock w) (paid_data_fallback session t)).
  exists (f r). repeat split.
  - apply row_by_session_update_rows; [reflexivity | exact Hsess | reflexivity].
  - change (id (f r)) with (id r). apply row_by_id_update_rows; [reflexivity | exact Hu].
Qed.

Lemma svc_update_fallback_stays_quiet `{JsRuntime} session t r w :
  row_by_session (s_id session) (w_rows w) = Some r ->
  stays_quiet (settled_by_session (s_id session)) w
    (snd (OrderService.updateOrderStatus getDatabase (id r) paid
            (paid_data_fallback session t) w)).
Proof.
  intros Hsess Hq.
  destruct (svc_updateOrderStatus_run (id r) paid (paid_data_fallback session t) w)
    as [Hs Hrun].
  assert (Hnone : update_goes_through (id r) paid (paid_data_fallback session t) w = None).
  { unfold update_goes_through. destruct Hq as [Hf [Hc | (r' & Hr' & Hid & Hp)]].
    - now rewrite Hc.
    - destruct (w_connected w); [| reflexivity].
      rewrite Hsess in Hr'. injection Hr' as <-.
      unfold resolve, answer. rewrite Hf. cbn [hd]. rewrite Hid.
      unfold skips. rewrite Hp. reflexivity. }
  rewrite Hnone in Hrun. split; [exact Hrun |].
  eapply quiet_store_untouched; eassumption.
Qed.

Lemma answer_some {A} faults (x : option A) a : answer faults x = Some a -> x = Some a.
Proof. unfold answer. destruct (hd false faults); [discriminate | auto]. Qed.

(** The fallback path, for a relation [R] that the write of [paid] into the
    order found by session id keeps. *)
Lemma completed_by_session_keeps `{JsRuntime} (R : World -> World -> Prop)
  `{!Frame R} `{!IgnoresReads R} session :
  (forall t r w, row_by_session (s_id session) (w_rows w) = Some r ->
                 R w (snd (OrderService.updateOrderStatus getDatabase (id r) paid
                             (paid_data_fallback session t) w))) ->
  stable R (completed_by_session session).
Proof.
  intros Hupd w. unfold completed_by_session.
  rewrite bind_logger. set (w1 := set_log _ w).
  assert (H1 : R w w1) by (apply ignores_reads; constructor; auto).
  pose proof (svc_findOrderByStripeSessionId_fst (s_id session) w1) as Hfst.
  pose proof (reads_svc_findOrderByStripeSessionId (s_id session) w1) as Hr.
  unfold bind at 1.
  destruct (OrderService.findOrderByStripeSessionId getDatabase (s_id session) w1)
    as [o w2]; cbn [fst snd] in *. subst o.
  assert (H2 : R w w2) by (eapply frame_trans; [exact H1 | now apply ignores_reads]).
  destruct (w_connected w1).
  - destruct (answer _ _) as [r |] eqn:Ha; cbn [option_map].
    + apply answer_some in Ha. rewrite <- (ro_rows _ _ Hr) in Ha.
      rewrite bind_logger, bind_now. set (w3 := set_log _ w2).
      assert (Ha3 : row_by_session (s_id session) (w_rows w3) = Some r) by exact Ha.
      specialize (Hupd (w_clock w3) r w3 Ha3).
      assert (H3 : R w w3)
        by (eapply frame_trans; [exact H2 | apply ignores_reads; constructor; auto]).
      unfold bind. cbn [mapSupabaseOrderToOrder o_id].
      destruct (OrderService.updateOrderStatus _ _ _ _ w3) as [[u | e |] w4];
        cbn [snd] in *.
      * eapply frame_trans; [exact H3 |]. eapply frame_trans; [exact Hupd |].
        apply ignores_reads; constructor; auto.
      * eapply frame_trans; eassumption.
      * eapply frame_trans; eassumption.
    + eapply frame_trans; [exact H2 | apply ignores_reads; constructor; auto].
  - eapply frame_trans; [exact H2 | apply ignores_reads; constructor; auto].
Qed.

Lemma session_same_or `{JsRuntime} session :
  stable (same_or (settled_by_session (s_id session))) (completed_by_session session).
Proof.
  apply completed_by_session_keeps; try typeclasses eauto.
  intros; now apply svc_update_fallback_same_or.
Qed.

Lemma session_stays_quiet `{JsRuntime} session :
  stable (stays_quiet (settled_by_session (s_id session))) (completed_by_session session).
Proof.
  apply completed_by_session_keeps; try typeclasses eauto.
  intros; now apply svc_update_fallback_stays_quiet.
Qed.

Lemma handle_completed_same_or `{JsRuntime} session :
  stable (same_or (settled session)) (handle_completed session).
Proof.
  unfold handle_completed, settled.
  destruct (s_metadata_orderId session) as [k |]; [destruct (String.eqb k "") |];
    cbn [negb]; stable_tac;
    first [ apply metadata_same_or | apply session_same_or ].
Qed.

Lemma handle_completed_stays_quiet `{JsRuntime} session :
  stable (stays_quiet (settled session)) (handle_completed session).
Proof.
  unfold handle_completed, settled.
  destruct (s_metadata_orderId session) as [k |]; [destruct (String.eqb k "") |];
    cbn [negb]; stable_tac;
    first [ apply metadata_stays_quiet | apply session_stays_quiet ].
Qed.

Lemma same_config_dispatch `{JsRuntime} ev : stable same_config (dispatch ev).
Proof.
  destruct ev; simpl;
    unfold handle_completed, completed_by_metadata, completed_by_session,
      handle_payment_failed, handle_async_payment_failed;
    stable_tac.
Qed.

Lemma same_config_webhook `{JsRuntime} req : stable same_config (webhook req).
Proof.
  intro w. unfold webhook.
  destruct (negb (w_stripe w && w_webhook_secret w)).
  - unfold bind, logger, send, return_; simpl. destruct (w_res w); split; reflexivity.
  - assert (Hs : stable same_config
                   (event <- try_catch (of_sum (constructEvent req))
                               (fun err =>
                                  logger error "Webhook signature verification failed" ;;
                                  send 400 (Text ("Webhook Error: " ++ err)) ;;
                                  return_) ;;
                    logger info "Received webhook event" ;;
                    dispatch event ;;
                    send 200 (Received None None))).
    { stable_tac. apply same_config_dispatch. }
    apply Hs.
Qed.

(** The rows and the response of a verified delivery of a completed event. *)
Lemma completed_delivery `{JsRuntime} req session w :
  w_stripe w = true -> w_webhook_secret w = true ->
  constructEvent req = inr (checkout_session_completed session) ->
  exists w1,
    w_rows w1 = w_rows w /\ w_trace w1 = w_trace w /\ w_faults w1 = w_faults w
    /\ w_connected w1 = w_connected w
    /\ untouched (snd (handle_completed session w1)) (snd (serve (webhook req) w)).
Proof.
  intros Hs Hk Hev. unfold serve; cbn [snd]. set (w0 := set_res None w).
  rewrite (webhook_verified req _ w0 Hs Hk Hev).
  rewrite bind_logger. set (w1 := set_log _ w0). cbn [dispatch].
  exists w1. repeat split.
  - unfold bind. destruct (handle_completed session w1) as [[[] | e |] w2]; cbn [snd];
      try reflexivity.
    unfold send. destruct (w_res w2); reflexivity.
  - unfold bind. destruct (handle_completed session w1) as [[[] | e |] w2]; cbn [snd];
      try reflexivity.
    unfold send. destruct (w_res w2); reflexivity.
Qed.

(** ** Pointwise composition *)

Lemma bind_rel {A B} (R : World -> World -> Prop) `{!Frame R} (m : M A) (k : A -> M B) w :
  R w (snd (m w)) ->
  (forall a, fst (m w) = Val a -> R (snd (m w)) (snd (k a (snd (m w))))) ->
  R w (snd (bind m k w)).
Proof.
  intros Hm Hk. unfold bind.
  destruct (m w) as [[a | e |] w1]; cbn [fst snd] in *; auto.
  eapply frame_trans; [exact Hm | now apply Hk].
Qed.

Lemma try_catch_rel {A} (R : World -> World -> Prop) `{!Frame R} (m : M A) h w :
  R w (snd (m w)) ->
  (forall e, fst (m w) = Throw e -> R (snd (m w)) (snd (h e (snd (m w))))) ->
  R w (snd (try_catch m h w)).
Proof.
  intros Hm Hh. unfold try_catch.
  destruct (m w) as [[a | e |] w1]; cbn [fst snd] in *; auto.
  eapply frame_trans; [exact Hm | now apply Hh].
Qed.

(** ** Inserting an order *)

Lemma insert_result_inr r faults rs r' :
  insert_result r faults rs = inr r' ->
  r' = r /\ hd false faults = false
  /\ Supabase.decimal_10_2 (total_amount r) = inr tt
  /\ existsb (Supabase.has_id (id r)) rs = false.
Proof.
  unfold insert_result. destruct (hd false faults); [discriminate |].
  destruct (Supabase.decimal_10_2 _) as [e | []]; [discriminate |].
  destruct (existsb _ _); [discriminate |]. intros [= <-]. repeat split.
Qed.

Lemma insert_run r w :
  Supabase.insert r w
  = match insert_result r (w_faults w) (w_rows w) with
    | inr r' => (Val (inr r'), inserted r' (pop w))
    | inl msg => (Val (inl msg), pop w)
    end.
Proof.
  unfold Supabase.insert, insert_result. unfold bind at 1. rewrite fault_run.
  destruct (hd false (w_faults w)); [reflexivity |].
  destruct (Supabase.decimal_10_2 _) as [e | u]; [reflexivity |].
  unfold bind at 1. unfold Supabase.rows. rewrite (ro_rows _ _ (pop_reads w)).
  destruct (existsb _ _); [reflexivity |].
  unfold bind, Supabase.commit, ret, inserted.
  rewrite (ro_rows _ _ (pop_reads w)), (ro_trace _ _ (pop_reads w)). reflexivity.
Qed.

Lemma db_createOrder_run `{JsRuntime} o w :
  SupabaseAdapter.createOrder o w
  = if w_connected w then
      match insert_result (SupabaseAdapter.new_row o) (w_faults w) (w_rows w) with
      | inr r => (Val (mapSupabaseOrderToOrder r), inserted r (pop w))
      | inl msg =>
          (Throw ("Failed to create order: " ++ msg),
           set_log (w_log (pop w) ++ [(error, "Supabase error creating order")]) (pop w))
      end
    else (Throw SupabaseAdapter.not_connected, w).
Proof.
  unfold SupabaseAdapter.createOrder. unfold bind at 1. rewrite require_connected_run.
  destruct (w_connected w); [| reflexivity].
  unfold bind at 1. rewrite insert_run.
  destruct (insert_result _ _ _); reflexivity.
Qed.

Lemma take_id_facts w :
  w_connected (take_id w) = w_connected w /\ w_faults (take_id w) = w_faults w
  /\ w_rows (take_id w) = w_rows w /\ w_clock (take_id w) = w_clock w
  /\ w_trace (take_id w) = w_trace w.
Proof. unfold take_id. destruct (w_ids w); repeat split. Qed.

Lemma svc_createOrder_run `{JsRuntime} orderData w :
  OrderService.createOrder getDatabase orderData w
  = let w1 := take_id w in
    if w_connected w then
      match insert_result (row_of orderData w) (w_faults w) (w_rows w) with
      | inr r =>
          (Val (mapSupabaseOrderToOrder r),
           set_log (w_log (pop w1) ++ [(info, "Order created successfully")])
                   (inserted r (pop w1)))
      | inl msg =>
          (Throw ("Failed to create order: " ++ ("Failed to create order: " ++ msg)),
           set_log ((w_log (pop w1) ++ [(error, "Supabase error creating order")])
                    ++ [(error, "Error creating order")])
                   (pop w1))
      end
    else (Throw ("Failed to create order: " ++ SupabaseAdapter.not_connected),
          set_log (w_log w1 ++ [(error, "Error creating order")]) w1).
Proof.
  cbv zeta. unfold OrderService.createOrder, OrderService.generateOrderId, row_of.
  unfold try_catch. unfold bind at 1.
  assert (Hgen : (match w_ids w with
                  | [] => (Val "ORD-", w)
                  | i :: rest => (Val i, set_ids rest w)
                  end) = (Val (hd "ORD-" (w_ids w)), take_id w))
    by (unfold take_id; destruct (w_ids w); reflexivity).
  rewrite Hgen. rewrite bind_now. unfold bind at 1.
  cbn [db_createOrder getDatabase SupabaseAdapter.adapter].
  rewrite db_createOrder_run.
  destruct (take_id_facts w) as (Hc & Hf & Hr & Ht & Htr). rewrite Hc, Hf, Hr, Ht.
  destruct (w_connected w); [| reflexivity].
  destruct (insert_result _ _ _) as [msg | r]; reflexivity.
Qed.

(** [createOrder] either throws and leaves the table alone, or returns the
    order of the row it appended, whose id was not in the table. *)
Lemma svc_createOrder_cases `{JsRuntime} orderData w :
  let r := row_of orderData w in
  (exists e w', OrderService.createOrder getDatabase orderData w = (Throw e, w')
                /\ untouched w w')
  \/ (exists w', OrderService.createOrder getDatabase orderData w
                 = (Val (mapSupabaseOrderToOrder r), w')
      /\ w_connected w = true
      /\ insert_result r (w_faults w) (w_rows w) = inr r
      /\ w_rows w' = (w_rows w ++ [r])%list
      /\ w_trace w' = (w_trace w ++ [DbInsert (id r) (status r)])%list).
Proof.
  cbv zeta. rewrite svc_createOrder_run. cbv zeta.
  destruct (take_id_facts w) as (Hc & Hf & Hr & Ht & Htr).
  pose proof (pop_reads (take_id w)) as Hp.
  destruct (w_connected w).
  - destruct (insert_result _ _ _) as [msg | r] eqn:Hi.
    + left. eexists. eexists. split; [reflexivity |].
      split; projs; [rewrite (ro_rows _ _ Hp) | rewrite (ro_trace _ _ Hp)]; assumption.
    + right.
      assert (r = row_of orderData w) by (now apply insert_result_inr in Hi).
      subst r. eexists. split; [reflexivity |]. unfold inserted; projs.
      rewrite (ro_rows _ _ Hp), (ro_trace _ _ Hp), Hr, Htr. repeat split.
  - left. eexists. eexists. split; [reflexivity |]. split; projs; assumption.
Qed.

(** ** Paid orders stay paid *)

Lemma find_app_some {A} (p : A -> bool) l l' x :
  find p l = Some x -> find p (l ++ l')%list = Some x.
Proof.
  induction l as [| a l IH]; simpl; [discriminate |].
  destruct (p a); auto.
Qed.

Lemma find_none_existsb {A} (p : A -> bool) l : existsb p l = false -> find p l = None.
Proof.
  induction l as [| a l IH]; simpl; [reflexivity |].
  destruct (p a); simpl; [discriminate | exact IH].
Qed.

Lemma status_of_app k rs l s :
  status_of k rs = Some s -> status_of k (rs ++ l)%list = Some s.
Proof.
  unfold status_of. destruct (find _ rs) as [r |] eqn:E; [| discriminate].
  intro Hs. now rewrite (find_app_some _ _ l _ E).
Qed.

Lemma status_of_new r rs :
  existsb (Supabase.has_id (id r)) rs = false ->
  status_of (id r) (rs ++ [r])%list = Some (status r).
Proof.
  intro Hn. unfold status_of.
  assert (E : find (Supabase.has_id (id r)) (rs ++ [r])%list = Some r).
  { induction rs as [| a rs IH]; simpl in *.
    - unfold Supabase.has_id. now rewrite String.eqb_refl.
    - destruct (Supabase.has_id (id r) a); [discriminate | now apply IH]. }
  now rewrite E.
Qed.

Lemma find_update_rows k k' f rs :
  (forall r, id (f r) = id r) ->
  find (Supabase.has_id k') (Supabase.update_rows k f rs)
  = option_map (fun r => if Supabase.has_id k r then f r else r)
      (find (Supabase.has_id k') rs).
Proof.
  intro Hf. unfold Supabase.update_rows.
  induction rs as [| a rs IH]; simpl; [reflexivity |].
  assert (E : Supabase.has_id k' (if Supabase.has_id k a then f a else a)
              = Supabase.has_id k' a).
  { destruct (Supabase.has_id k a); [| reflexivity].
    unfold Supabase.has_id. now rewrite Hf. }
  rewrite E. destruct (Supabase.has_id k' a); [reflexivity | exact IH].
Qed.

Lemma find_has_id k rs r : find (Supabase.has_id k) rs = Some r -> id r = k.
Proof. intro Hf. apply find_some in Hf as [_ Hid]. now apply has_id_eq. Qed.

(** Writing [paid] keeps every paid order paid. *)
Lemma keeps_paid_update_paid k f w :
  (forall r, id (f r) = id r) -> (forall r, status (f r) = paid) ->
  forall k', status_of k' (w_rows w) = Some paid ->
             status_of k' (Supabase.update_rows k f (w_rows w)) = Some paid.
Proof.
  intros Hid Hst k'. unfold status_of. rewrite find_update_rows by exact Hid.
  destruct (find _ (w_rows w)) as [r |]; [| discriminate]. simpl.
  destruct (Supabase.has_id k r); [now rewrite Hst | auto].
Qed.

(** Writing into order [k] leaves the status of every other order. *)
Lemma status_of_update_other k k' f rs :
  (forall r, id (f r) = id r) -> k' <> k ->
  status_of k' (Supabase.update_rows k f rs) = status_of k' rs.
Proof.
  intros Hid Hne. unfold status_of. rewrite find_update_rows by exact Hid.
  destruct (find _ rs) as [r |] eqn:E; [| reflexivity]. simpl.
  apply find_has_id in E.
  destruct (Supabase.has_id k r) eqn:Hk; [| reflexivity].
  apply has_id_eq in Hk. congruence.
Qed.

Lemma status_of_update_same k f rs st :
  (forall r, id (f r) = id r) -> (forall r, status (f r) = st) ->
  status_of k (Supabase.update_rows k f rs) = option_map (fun _ => st) (status_of k rs).
Proof.
  intros Hid Hst. unfold status_of. rewrite find_update_rows by exact Hid.
  destruct (find _ rs) as [r |] eqn:E; [| reflexivity]. simpl.
  apply find_has_id in E. apply has_id_eq in E. rewrite E. now rewrite Hst.
Qed.

Lemma keeps_paid_svc_update_paid `{JsRuntime} k ad :
  stable keeps_paid (OrderService.updateOrderStatus getDatabase k paid ad).
Proof.
  intro w. destruct (svc_updateOrderStatus_run k paid ad w) as [_ Hrun].
  destruct (update_goes_through k paid ad w) as [r |].
  - destruct Hrun as (_ & Hrows & _). intros k' Hk'. rewrite Hrows.
    now apply keeps_paid_update_paid.
  - apply rows_only. apply Hrun.
Qed.

Lemma keeps_paid_but_svc_update_failed `{JsRuntime} k ad :
  stable (keeps_paid_but k) (OrderService.updateOrderStatus getDatabase k failed ad).
Proof.
  intros w Hk. destruct (svc_updateOrderStatus_run k failed ad w) as [_ Hrun].
  destruct (update_goes_through k failed ad w) as [r |].
  - destruct Hrun as (_ & Hrows & _). split.
    + intros k' Hk'. rewrite Hrows.
      rewrite status_of_update_other; [exact Hk' | reflexivity |].
      intros ->. contradiction.
    + rewrite Hrows, (status_of_update_same k _ _ failed) by reflexivity.
      destruct (status_of k (w_rows w)); discriminate.
  - destruct Hrun as [Hr _]. split; [now apply rows_only | congruence].
Qed.

Lemma keeps_paid_svc_createOrder `{JsRuntime} orderData :
  stable keeps_paid (OrderService.createOrder getDatabase orderData).
Proof.
  intro w. destruct (svc_createOrder_cases orderData w)
    as [(e & w' & -> & Hu) | (w' & -> & _ & _ & Hrows & _)]; cbn [snd].
  - apply rows_only. apply Hu.
  - intros k Hk. rewrite Hrows. now apply status_of_app.
Qed.

#[export] Hint Resolve keeps_paid_svc_update_paid keeps_paid_but_svc_update_failed
  keeps_paid_svc_createOrder : stable.

Lemma keeps_paid_handle_completed `{JsRuntime} session :
  stable keeps_paid (handle_completed session).
Proof.
  unfold handle_completed, completed_by_metadata, completed_by_session. stable_tac.
Qed.

Lemma same_rows_spawn t : stable same_rows (spawn t).
Proof. prim. Qed.

#[export] Hint Resolve same_rows_spawn : stable.

Lemma same_rows_validate_items l : stable same_rows (validate_items l).
Proof. induction l as [| item rest IH]; simpl; stable_tac. Qed.

Lemma same_rows_reuse_session o : stable same_rows (reuse_session o).
Proof. unfold reuse_session. stable_tac. Qed.

#[export] Hint Resolve same_rows_validate_items same_rows_reuse_session : stable.

Lemma keeps_paid_but_create_session `{JsRuntime} order :
  stable (keeps_paid_but (o_id order)) (create_session order).
Proof. unfold create_session. stable_tac. Qed.

#[export] Hint Resolve keeps_paid_but_create_session : stable.

Ltac leaf :=
  match goal with
  | |- ?R ?w (snd (?m ?w)) =>
      let H := fresh in assert (H : stable R m) by stable_tac; exact (H w)
  end.

Lemma created_order_pending `{JsRuntime} orderData h w order :
  od_status orderData = Some pending ->
  fst (try_catch
         (logger info "Creating order in database" ;;
          o <- OrderService.createOrder getDatabase orderData ;;
          logger info "Order created successfully" ;;
          ret o) h w) = Val order ->
  (forall e w', fst (h e w') <> Val order) ->
  status_of (o_id order)
    (w_rows (snd (try_catch
                    (logger info "Creating order in database" ;;
                     o <- OrderService.createOrder getDatabase orderData ;;
                     logger info "Order created successfully" ;;
                     ret o) h w))) = Some pending.
Proof.
  intros Hst Hval Hh. revert Hval.
  unfold try_catch. rewrite bind_logger. set (w1 := set_log _ w).
  unfold bind at 1 3.
  destruct (svc_createOrder_cases orderData w1)
    as [(e & w' & -> & Hu) | (w' & -> & _ & Hi & Hrows & _)].
  - intro Hval. now elim (Hh e w').
  - unfold bind, logger, ret; projs. intros [= <-].
    rewrite Hrows. cbn [mapSupabaseOrderToOrder o_id].
    rewrite status_of_new.
    + unfold row_of, SupabaseAdapter.new_row; cbn [status n_status]. now rewrite Hst.
    + now apply insert_result_inr in Hi.
Qed.

Lemma same_rows_checks `{JsRuntime} reqbody : stable same_rows (checks reqbody).
Proof. unfold checks. stable_tac. Qed.

#[export] Hint Resolve same_rows_checks : stable.

Lemma keeps_paid_place_order `{JsRuntime} reqbody its total :
  stable keeps_paid (place_order reqbody its total).
Proof.
  intro w. unfold place_order. cbv zeta.
  apply bind_rel; [typeclasses eauto | leaf |].
  intros order Hval.
  match goal with
  | |- keeps_paid ?w1 (snd (?m ?w1)) =>
      assert (Hrest : stable (keeps_paid_but (o_id order)) m) by stable_tac;
      apply (Hrest w1)
  end.
  erewrite created_order_pending; [discriminate | reflexivity | exact Hval |].
  intros e w'. unfold bind, logger, send, return_; projs.
  destruct (w_res _); discriminate.
Qed.

#[export] Hint Resolve keeps_paid_place_order : stable.

Lemma keeps_paid_create_checkout_session `{JsRuntime} reqbody :
  stable keeps_paid (create_checkout_session reqbody).
Proof. unfold create_checkout_session. stable_tac. Qed.

Lemma keeps_paid_dispatch `{JsRuntime} ev :
  settles_only ev = true -> stable keeps_paid (dispatch ev).
Proof.
  destruct ev; simpl; intro Hg; try discriminate.
  - apply keeps_paid_handle_completed.
  - stable_tac.
  - stable_tac.
Qed.

Lemma keeps_paid_webhook `{JsRuntime} req :
  never_unpays (PostWebhook req) = true -> stable keeps_paid (webhook req).
Proof.
  simpl. intros Hg w. unfold webhook.
  destruct (negb (w_stripe w && w_webhook_secret w)); [leaf |].
  destruct (constructEvent req) as [msg | ev]; cbn [of_sum].
  - unfold bind, try_catch, throw, logger, send, return_; simpl.
    destruct (w_res w); intros k Hk; exact Hk.
  - apply bind_rel; [typeclasses eauto | leaf |]. intros ev' Hev.
    assert (ev' = ev) by (unfold try_catch, ret in Hev; simpl in Hev; congruence). subst ev'.
    apply bind_rel; [typeclasses eauto | leaf |]. intros _ _.
    apply bind_rel; [typeclasses eauto | now apply keeps_paid_dispatch |]. intros _ _.
    leaf.
Qed.

Lemma keeps_paid_step `{JsRuntime} op w :
  never_unpays op = true -> keeps_paid w (step op w).
Proof.
  destruct op as [reqbody | req | | dt]; intro Hg; try discriminate; cbn [step].
  - unfold serve; cbn [snd]. unfold post_create_checkout_session, checkStripeConfig.
    set (w0 := set_res None w).
    change (keeps_paid w0
              (snd (if negb (w_stripe w0)
                    then (send 500 (ErrorBody "Stripe is not configured"
                                      (Some "Please set STRIPE_SECRET_KEY environment variable")) ;;
                          return_) w0
                    else create_checkout_session reqbody w0))).
    destruct (negb (w_stripe w0)); [leaf | apply keeps_paid_create_checkout_session].
  - unfold serve; cbn [snd].
    apply (keeps_paid_webhook req Hg (set_res None w)).
  - intros k Hk. exact Hk.
Qed.

(** ** The checks of the checkout route *)

#[export] Instance checks_only_Frame : Frame checks_only.
Proof.
  split.
  - intro w. constructor; auto. exists []. split; [now rewrite app_nil_r | constructor].
  - intros a b c [? ? ? ? ? ? ? ? (l1 & E1 & F1)] [? ? ? ? ? ? ? ? (l2 & E2 & F2)].
    constructor; try congruence; auto.
    exists (l1 ++ l2)%list. split.
    + rewrite E2, E1. now rewrite app_assoc.
    + apply Forall_app; split; assumption.
Qed.

#[export] Instance checks_only_IgnoresReads : IgnoresReads checks_only.
Proof.
  intros w w' []. constructor; auto.
  exists []. split; [now rewrite app_nil_r | constructor].
Qed.

Lemma checks_only_send c b : stable checks_only (send c b).
Proof.
  intro w. unfold send.
  destruct (w_res w); constructor; simpl; auto;
    (exists []; split; [now rewrite app_nil_r | constructor]).
Qed.

Lemma checks_only_sessions_retrieve sid : stable checks_only (Stripe.sessions_retrieve sid).
Proof.
  intro w. unfold Stripe.sessions_retrieve, bind, effect.
  cbn [fst snd]. destruct (find _ _); constructor; simpl; auto;
    (exists [StripeSessionsRetrieve sid]; split; [reflexivity | repeat constructor]).
Qed.

#[export] Hint Resolve checks_only_send checks_only_sessions_retrieve : stable.

Lemma checks_only_validate_items l : stable checks_only (validate_items l).
Proof. induction l as [| item rest IH]; simpl; stable_tac. Qed.

#[export] Hint Resolve checks_only_validate_items : stable.

Lemma checks_only_checks `{JsRuntime} reqbody : stable checks_only (checks reqbody).
Proof. unfold checks, reuse_session. stable_tac. Qed.

Lemma responds_ret {A} (a : A) : responds_on_return (ret a).
Proof. intro w; reflexivity. Qed.

Lemma responds_bind {A B} (m : M A) (k : A -> M B) :
  responds_on_return m -> (forall a, responds_on_return (k a)) ->
  responds_on_return (bind m k).
Proof.
  intros Hm Hk w. unfold bind. specialize (Hm w).
  destruct (m w) as [[a | e |] w1]; cbn [fst snd] in *; auto.
  specialize (Hk a w1). destruct (k a w1) as [[b | e |] w2]; cbn [fst snd] in *;
    auto; congruence.
Qed.

Lemma responds_try_catch {A} (m : M A) h :
  responds_on_return m -> (forall e, responds_on_return (h e)) ->
  responds_on_return (try_catch m h).
Proof.
  intros Hm Hh w. unfold try_catch. specialize (Hm w).
  destruct (m w) as [[a | e |] w1]; cbn [fst snd] in *; auto.
  specialize (Hh e w1). destruct (h e w1) as [[b | e' |] w2]; cbn [fst snd] in *;
    auto; congruence.
Qed.

Lemma responds_quiet {A} (m : M A) : stable store_only m -> responds_on_return m.
Proof.
  intros Hs w. specialize (Hs w).
  destruct (m w) as [[a | e |] w1]; cbn [fst snd] in *; auto; apply (so_res _ _ Hs).
Qed.

Lemma responds_send_return {A} c b : responds_on_return (send c b ;; @return_ A).
Proof.
  intro w. unfold bind, send, return_.
  destruct (w_res w) eqn:E; simpl; auto.
Qed.

Lemma store_sessions_retrieve sid : stable store_only (Stripe.sessions_retrieve sid).
Proof.
  intro w. unfold Stripe.sessions_retrieve, bind, effect.
  cbn [fst snd]. destruct (find _ _); constructor; simpl; auto.
Qed.

#[export] Hint Resolve store_sessions_retrieve : stable.

Ltac responds_step :=
  first
    [ solve [ apply responds_quiet; stable_tac ]
    | match goal with
      | |- responds_on_return (ret _) => apply responds_ret
      | |- responds_on_return (send _ _ ;; return_) => apply responds_send_return
      | |- responds_on_return (bind _ _) => apply responds_bind; [ | intro ]
      | |- responds_on_return (try_catch _ _) => apply responds_try_catch; [ | intro ]
      | |- responds_on_return (when ?b _) => destruct b; cbn [when]
      | |- responds_on_return (if ?x then _ else _) => destruct x
      | |- responds_on_return (match ?x with _ => _ end) => destruct x
      end ].

Lemma responds_validate_items l : responds_on_return (validate_items l).
Proof. induction l as [| item rest IH]; simpl; repeat responds_step. exact IH. Qed.

Lemma responds_checks `{JsRuntime} reqbody : responds_on_return (checks reqbody).
Proof.
  unfold checks, reuse_session.
  repeat first [ apply responds_validate_items | responds_step ].
Qed.

(** ** The provider fails *)

Lemma store_generateOrderId : stable store_only OrderService.generateOrderId.
Proof. unfold OrderService.generateOrderId. prim. Qed.

#[export] Hint Resolve store_generateOrderId : stable.

Lemma store_svc_createOrder `{JsRuntime} od :
  stable store_only (OrderService.createOrder getDatabase od).
Proof. unfold OrderService.createOrder; simpl. stable_tac. Qed.

Lemma filter_fresh k rs : existsb (Supabase.has_id k) rs = false ->
  filter (Supabase.has_id k) rs = [].
Proof.
  induction rs as [| a rs IH]; simpl; [reflexivity |].
  destruct (Supabase.has_id k a); simpl; [discriminate | exact IH].
Qed.

Lemma update_rows_fresh k f rs r :
  existsb (Supabase.has_id k) rs = false -> id r = k ->
  Supabase.update_rows k f (rs ++ [r])%list = (rs ++ [f r])%list.
Proof.
  intros Hn Hid. unfold Supabase.update_rows. rewrite map_app. simpl.
  apply has_id_eq in Hid. rewrite Hid. f_equal.
  induction rs as [| a rs IH]; simpl in *; [reflexivity |].
  destruct (Supabase.has_id k a); [discriminate |]. now rewrite IH.
Qed.

Lemma row_by_id_fresh k rs r :
  existsb (Supabase.has_id k) rs = false -> id r = k ->
  row_by_id k (rs ++ [r])%list = Some r.
Proof.
  intros Hn Hid. unfold row_by_id. rewrite filter_app, (filter_fresh _ _ Hn). simpl.
  apply has_id_eq in Hid. now rewrite Hid.
Qed.

Lemma sessions_create_fails k w msg :
  next_create_error w = Some msg ->
  exists w', Stripe.sessions_create k w = (Throw msg, w')
             /\ w_rows w' = w_rows w /\ w_connected w' = w_connected w
             /\ w_faults w' = w_faults w /\ w_clock w' = w_clock w
             /\ w_res w' = w_res w /\ w_log w' = w_log w
             /\ w_trace w' = (w_trace w ++ [StripeSessionsCreate k])%list.
Proof.
  unfold next_create_error, Stripe.sessions_create. rewrite bind_effect.
  cbn [w_stripe_create set_trace].
  destruct (w_stripe_create w) as [| [m | s] rest]; intros [= <-];
    eexists; (split; [reflexivity |]); repeat split.
Qed.

(** The order goes in: what [createOrder] leaves behind. *)
Lemma svc_createOrder_inserted `{JsRuntime} orderData w :
  let r := row_of orderData w in
  w_connected w = true ->
  insert_result r (w_faults w) (w_rows w) = inr r ->
  exists w',
    OrderService.createOrder getDatabase orderData w = (Val (mapSupabaseOrderToOrder r), w')
    /\ store_only w w'
    /\ w_rows w' = (w_rows w ++ [r])%list
    /\ w_trace w' = (w_trace w ++ [DbInsert (id r) (status r)])%list
    /\ w_faults w' = tl (w_faults w).
Proof.
  intros r Hc Hi. pose proof (store_svc_createOrder orderData w) as Hs.
  rewrite svc_createOrder_run in *. cbv zeta in *. rewrite Hc in *. fold r in Hs |- *.
  rewrite Hi in *. eexists. split; [reflexivity |].
  destruct (take_id_facts w) as (_ & Hf & Hr & _ & Htr).
  pose proof (pop_reads (take_id w)) as Hp.
  split; [exact Hs |]. unfold inserted; projs.
  rewrite (ro_rows _ _ Hp), (ro_trace _ _ Hp), Hr, Htr, pop_faults, Hf. repeat split.
Qed.

Lemma update_flag_after k rs r w :
  w_rows w = (rs ++ [r])%list -> existsb (Supabase.has_id k) rs = false -> id r = k ->
  hd false (w_faults (after_getOrderById k w)) = update_flag (w_faults w).
Proof.
  intros Hrows Hfresh Hid. unfold after_getOrderById, answer, update_flag.
  rewrite Hrows, (row_by_id_fresh k rs r Hfresh Hid).
  destruct (hd false (w_faults w)); rewrite !pop_faults; reflexivity.
Qed.

(** [updateOrderStatus] throws when its update query comes back with an
    error. *)
Lemma svc_updateOrderStatus_throws `{JsRuntime} k st ad w msg :
  w_connected w = true ->
  skips st (resolve k (w_faults w) (w_rows w)) = false ->
  update_result k (SupabaseAdapter.updateData_session ad)
    (w_faults (after_getOrderById k w)) (w_rows w) = inl msg ->
  exists e w', OrderService.updateOrderStatus getDatabase k st ad w = (Throw e, w').
Proof.
  intros Hc Hskip Hu.
  unfold OrderService.updateOrderStatus, try_catch, bind; simpl.
  rewrite db_updateOrderStatus_run, Hc. cbv zeta. rewrite Hu.
  destruct (resolve k (w_faults w) (w_rows w)) as [r0 |]; [rewrite Hskip |];
    eexists; eexists; reflexivity.
Qed.

(** Writing a status other than [paid] into the order that was just
    appended: the write goes through unless the update query fails. *)
Lemma svc_update_last_row `{JsRuntime} st ad rs r w :
  w_connected w = true -> w_rows w = (rs ++ [r])%list ->
  existsb (Supabase.has_id (id r)) rs = false ->
  st <> paid -> SupabaseAdapter.updateData_session ad = None ->
  exists out w',
    OrderService.updateOrderStatus getDatabase (id r) st ad w = (out, w')
    /\ store_only w w'
    /\ if update_flag (w_faults w)
       then (exists e, out = Throw e) /\ untouched w w'
       else (exists o, out = Val o)
            /\ w_rows w' = (rs ++ [SupabaseAdapter.update_row st (w_clock w) ad r])%list
            /\ w_trace w' = (w_trace w ++ [DbUpdate (id r) st])%list.
Proof.
  intros Hc Hrows Hfresh Hst Had.
  assert (Hskip : forall x, skips st x = false).
  { intros [r0 |]; [| reflexivity]. unfold skips.
    destruct st; try reflexivity; [now rewrite andb_false_r | now elim Hst | now rewrite andb_false_r]. }
  assert (Hres : update_result (id r) (SupabaseAdapter.updateData_session ad)
                   (w_faults (after_getOrderById (id r) w)) (w_rows w)
                 = if update_flag (w_faults w) then inl Supabase.fetch_failed else inr r).
  { unfold update_result. rewrite (update_flag_after (id r) rs r w Hrows Hfresh eq_refl).
    destruct (update_flag (w_faults w)); [reflexivity |].
    rewrite Had. cbn [Supabase.session_taken].
    rewrite Hrows, filter_app, (filter_fresh _ _ Hfresh). cbn [filter app].
    assert (Hid : Supabase.has_id (id r) r = true) by (now apply has_id_eq).
    rewrite Hid. reflexivity. }
  destruct (svc_updateOrderStatus_run (id r) st ad w) as [Hs Hrun].
  unfold update_goes_through in Hrun. rewrite Hc, Hskip, Hres in Hrun.
  destruct (update_flag (w_faults w)) eqn:Hflag.
  - destruct (svc_updateOrderStatus_throws (id r) st ad w Supabase.fetch_failed Hc
                (Hskip _) Hres) as (e & w' & E).
    rewrite E in *. cbn [fst snd] in *. exists (Throw e), w'.
    split; [reflexivity |]. split; [exact Hs |]. split; [now exists e | exact Hrun].
  - destruct (OrderService.updateOrderStatus getDatabase (id r) st ad w) as [out w'].
    cbn [fst snd] in *. destruct Hrun as (Hv & Hr & Ht).
    exists out, w'. split; [reflexivity |]. split; [exact Hs |].
    split; [eexists; exact Hv |]. split; [| exact Ht].
    rewrite Hr, Hrows. apply update_rows_fresh; [exact Hfresh | reflexivity].
Qed.

(** The second half of the route when the provider throws. *)
Lemma place_order_provider_failure `{JsRuntime} reqbody its total w msg :
  let r := row_of (order_data reqbody its total) w in
  let r' := SupabaseAdapter.update_row failed (w_clock w) (failed_data msg None) r in
  w_connected w = true ->
  insert_result r (w_faults w) (w_rows w) = inr r ->
  prepared reqbody its ->
  next_create_error w = Some msg ->
  exists w',
    place_order reqbody its total w = (Throw msg, w')
    /\ w_res w' = w_res w
    /\ if update_flag (tl (w_faults w))
       then w_rows w' = (w_rows w ++ [r])%list
            /\ w_trace w'
               = (w_trace w ++ [DbInsert (id r) pending; StripeSessionsCreate (id r)])%list
            /\ In (error, "Error updating order status to failed") (w_log w')
       else w_rows w' = (w_rows w ++ [r'])%list
            /\ w_trace w'
               = (w_trace w ++ [DbInsert (id r) pending; StripeSessionsCreate (id r);
                                DbUpdate (id r) failed])%list.
Proof.
  intros r r' Hc Hi [Hurls Hmeta] Hnext.
  assert (Hfresh : existsb (Supabase.has_id (id r)) (w_rows w) = false)
    by (now apply insert_result_inr in Hi).
  set (od := order_data reqbody its total) in *.
  (* the order *)
  set (w1 := set_log (w_log w ++ [(info, "Creating order in database")]) w).
  destruct (svc_createOrder_inserted od w1 Hc Hi) as (w2 & E & Hs & Hrows & Htrace & Hf2).
  change (row_of od w1) with r in *.
  set (w3 := set_log (w_log w2 ++ [(info, "Order created successfully")]) w2).
  set (w4 := set_log (w_log w3 ++ [(debug, "Checkout URLs configured")]) w3).
  set (w5 := set_log (w_log (set_log (w_log w4 ++ [(info, "Creating Stripe checkout session")]) w4)
                      ++ [(debug, "Stripe line items")])
                     (set_log (w_log w4 ++ [(info, "Creating Stripe checkout session")]) w4)).
  (* the session *)
  assert (Hn5 : next_create_error w5 = Some msg).
  { unfold next_create_error in *. change (w_stripe_create w5) with (w_stripe_create w2).
    rewrite (so_stripe_create _ _ Hs). exact Hnext. }
  destruct (sessions_create_fails (id r) w5 msg Hn5)
    as (w6 & E6 & Hr6 & Hc6 & Hf6 & Hk6 & Hres6 & _ & Ht6).
  set (w7 := set_log (w_log w6 ++ [(error, "Stripe error creating checkout session")]) w6).
  (* the failed update *)
  assert (Hrows7 : w_rows w7 = (w_rows w ++ [r])%list)
    by (change (w_rows w7) with (w_rows w6); rewrite Hr6; exact Hrows).
  assert (Hc7 : w_connected w7 = true).
  { change (w_connected w7) with (w_connected w6). rewrite Hc6.
    change (w_connected w5) with (w_connected w2).
    rewrite (so_connected _ _ Hs). exact Hc. }
  assert (Hf7 : w_faults w7 = tl (w_faults w)).
  { change (w_faults w7) with (w_faults w6). rewrite Hf6. exact Hf2. }
  assert (Hk7 : w_clock w7 = w_clock w).
  { change (w_clock w7) with (w_clock w6). rewrite Hk6.
    change (w_clock w5) with (w_clock w2). rewrite (so_clock _ _ Hs). reflexivity. }
  assert (Ht7 : w_trace w7
                = (w_trace w ++ [DbInsert (id r) pending; StripeSessionsCreate (id r)])%list).
  { change (w_trace w7) with (w_trace w6). rewrite Ht6.
    change (w_trace w5) with (w_trace w2). rewrite Htrace.
    rewrite <- app_assoc. reflexivity. }
  destruct (svc_update_last_row failed (failed_data msg None) (w_rows w) r w7
              Hc7 Hrows7 Hfresh ltac:(discriminate) eq_refl)
    as (o8 & w8 & E8 & Hs8 & Hcase).
  rewrite Hf7, Hk7 in Hcase.
  assert (Hsession : forall w8,
             (try_catch
                (_ <- OrderService.updateOrderStatus getDatabase (id r) failed
                        (failed_data msg None) ;;
                 ret tt)
                (fun updateError =>
                   logger error "Error updating order status to failed")) w7 = (Val tt, w8) ->
             place_order reqbody its total w = (Throw msg, w8)).
  { intros w8' E8'. unfold place_order. cbv zeta. fold od.
    erewrite bind_val.
    2:{ erewrite try_catch_val; [reflexivity |].
        rewrite bind_logger. fold w1. erewrite bind_val by exact E.
        rewrite bind_logger. reflexivity. }
    fold w3. rewrite Hurls. cbn [of_sum]. rewrite bind_ret, bind_logger. fold w4.
    rewrite Hmeta. cbn [of_sum]. rewrite bind_ret.
    erewrite bind_thrown; [reflexivity |].
    unfold create_session. cbn [mapSupabaseOrderToOrder o_id].
    erewrite try_catch_thrown.
    2:{ rewrite bind_logger, bind_logger. fold w5.
        erewrite bind_thrown by exact E6. reflexivity. }
    rewrite bind_logger. fold w7.
    erewrite bind_val by exact E8'. reflexivity. }
  assert (Hres7 : w_res w7 = w_res w).
  { change (w_res w7) with (w_res w6). rewrite Hres6.
    change (w_res w5) with (w_res w2). rewrite (so_res _ _ Hs). reflexivity. }
  destruct (update_flag (tl (w_faults w))).
  - destruct Hcase as [[e ->] [Hru Htu]].
    eexists. split.
    { apply Hsession.
      erewrite try_catch_thrown by (erewrite bind_thrown by exact E8; reflexivity).
      reflexivity. }
    projs. split; [rewrite (so_res _ _ Hs8); exact Hres7 |].
    split; [rewrite Hru; exact Hrows7 |].
    split; [rewrite Htu; exact Ht7 |].
    apply in_or_app. right. left. reflexivity.
  - destruct Hcase as ([o ->] & Hr8 & Ht8).
    eexists. split.
    { apply Hsession.
      erewrite try_catch_val by (erewrite bind_val by exact E8; reflexivity).
      reflexivity. }
    split; [rewrite (so_res _ _ Hs8); exact Hres7 |].
    split; [exact Hr8 |].
    rewrite Ht8, Ht7. rewrite <- app_assoc. reflexivity.
Qed.

(** ** C6 *)

(** C6, as the code has it.  A checkout request passes validation and the
    duplicate-pending guard; the store takes the order (it is connected,
    the insert comes back, the generated id is new and the total fits the
    column); the line items, the URLs and the metadata are built without a
    [TypeError]; the provider's session-creation request throws [msg] (or
    times out).  Then the caller receives 500 with [msg], and the pending
    order was inserted before the request to the provider was issued.  When
    the update query of the store comes back, the order is then marked
    [failed] with [msg] as its error message (when [msg] is not empty);
    when it does not, the order stays [pending] and the failure of the
    update is logged.  Either way the order is in the table at the end. *)
Theorem provider_failure_marks_order_failed `{JsRuntime}
  (reqbody : CheckoutBody) (w w1 : World) (its : list JS.value) (total : float)
  (msg : string) :
  let r := row_of (order_data reqbody its total) w in
  let r' := SupabaseAdapter.update_row failed (w_clock w) (failed_data msg None) r in
  let res := serve (post_create_checkout_session reqbody) w in
  w_stripe w = true ->
  (* the request passes validation and misses the duplicate-pending guard *)
  checks reqbody (set_res None w) = (Val (its, total), w1) ->
  (* the store takes the order *)
  w_connected w = true ->
  insert_result r (w_faults w1) (w_rows w) = inr r ->
  (* the line items, the URLs and the metadata are built *)
  prepared reqbody its ->
  (* the provider throws *)
  next_create_error w = Some msg ->
  fst res
  = Some (mkResponse 500
            (ErrorBody "Failed to create checkout session"
               (Some (if String.eqb msg "" then "Unknown error occurred" else msg))))
  /\ status r = pending /\ status r' = failed
  /\ (msg <> "" -> error_message r' = Some msg)
  /\ exists retrieves,
       Forall is_retrieve retrieves
       /\ if update_flag (tl (w_faults w1))
          then w_rows (snd res) = (w_rows w ++ [r])%list
               /\ w_trace (snd res)
                  = (w_trace w ++ retrieves
                     ++ [DbInsert (id r) pending; StripeSessionsCreate (id r)])%list
               /\ In (error, "Error updating order status to failed") (w_log (snd res))
          else w_rows (snd res) = (w_rows w ++ [r'])%list
               /\ w_trace (snd res)
                  = (w_trace w ++ retrieves
                     ++ [DbInsert (id r) pending; StripeSessionsCreate (id r);
                         DbUpdate (id r) failed])%list.
Proof.
  intros r r' res Hs Echk Hc Hi Hprep Hnext.
  set (w0 := set_res None w) in *.
  pose proof (checks_only_checks reqbody w0) as Hco.
  pose proof (responds_checks reqbody w0) as Hres.
  rewrite Echk in Hco, Hres. cbn [fst snd] in *.
  destruct Hco as [Hc1 Hr1 Hk1 Hi1 Hsc1 _ _ _ (retrieves & Ht1 & Hret)].
  assert (Hrow : row_of (order_data reqbody its total) w1 = r).
  { unfold r, row_of. rewrite Hi1, Hk1. reflexivity. }
  destruct (place_order_provider_failure reqbody its total w1 msg)
    as (w2 & Eplace & Hres2 & Hcase).
  { rewrite Hc1. exact Hc. }
  { rewrite Hrow, Hr1. exact Hi. }
  { exact Hprep. }
  { unfold next_create_error in *. rewrite Hsc1. exact Hnext. }
  rewrite Hrow, Hk1, Hr1, Ht1 in Hcase.
  assert (Erun : post_create_checkout_session reqbody w0
                 = (Val tt,
                    set_res (Some (mkResponse 500
                                     (ErrorBody "Failed to create checkout session"
                                        (Some (if String.eqb msg "" then "Unknown error occurred"
                                               else msg)))))
                      (set_log (w_log w2 ++ [(error, "Error creating checkout session")]) w2))).
  { unfold post_create_checkout_session, checkStripeConfig.
    change (w_stripe w0) with (w_stripe w). rewrite Hs. cbn [negb].
    unfold create_checkout_session.
    erewrite try_catch_thrown.
    2:{ erewrite bind_val by exact Echk. cbn [fst snd]. exact Eplace. }
    rewrite bind_logger.
    assert (Hnone : w_res w2 = None) by (rewrite Hres2, Hres; reflexivity).
    unfold bind, headersSent, send; projs. rewrite Hnone. cbn [negb]. projs.
    rewrite Hnone. reflexivity. }
  unfold res, serve. fold w0. rewrite Erun. cbn [fst snd]. projs.
  split; [reflexivity |].
  split; [reflexivity |]. split; [reflexivity |].
  split.
  - intro Hne. unfold r', SupabaseAdapter.update_row, failed_data, SupabaseAdapter.if_truthy;
      cbn [error_message ad_error truthy_str].
    apply String.eqb_neq in Hne. rewrite Hne. reflexivity.
  - exists retrieves. split; [exact Hret |].
    change (w_rows w0) with (w_rows w) in Hcase.
    change (w_trace w0) with (w_trace w) in Hcase.
    change (w_clock w0) with (w_clock w) in Hcase. fold r' in Hcase.
    destruct (update_flag (tl (w_faults w1))).
    + destruct Hcase as (Hrows & Htrace & Hlog).
      split; [exact Hrows |]. split; [rewrite Htrace, <- app_assoc; reflexivity |].
      apply in_or_app. left. exact Hlog.
    + destruct Hcase as (Hrows & Htrace).
      split; [exact Hrows |]. rewrite Htrace, <- app_assoc. reflexivity.
Qed.
(** ** The duplicate-pending guard *)

Lemma In_insert_desc x r l : In x (Supabase.insert_desc r l) <-> x = r \/ In x l.
Proof.
  induction l as [| a l IH]; simpl.
  - intuition.
  - destruct (created_at a <=? created_at r); simpl; [intuition |].
    rewrite IH. intuition.
Qed.

Lemma In_order_desc x l : In x (Supabase.order_desc l) <-> In x l.
Proof.
  unfold Supabase.order_desc. induction l as [| a l IH]; simpl; [reflexivity |].
  rewrite In_insert_desc, IH. intuition.
Qed.

Lemma insert_desc_perm r l : Permutation (Supabase.insert_desc r l) (r :: l).
Proof.
  induction l as [| x l IH]; simpl; [apply Permutation_refl |].
  destruct (created_at x <=? created_at r); [apply Permutation_refl |].
  eapply Permutation_trans; [apply perm_skip, IH | apply perm_swap].
Qed.

Lemma order_desc_perm l : Permutation (Supabase.order_desc l) l.
Proof.
  induction l as [| r l IH]; simpl; [constructor |].
  eapply Permutation_trans; [apply insert_desc_perm | now apply perm_skip].
Qed.

Lemma insert_desc_sorted r l :
  StronglySorted (fun a b => created_at b <= created_at a) l ->
  StronglySorted (fun a b => created_at b <= created_at a) (Supabase.insert_desc r l).
Proof.
  induction 1 as [| x l Hs IH Hx]; simpl; [repeat constructor |].
  destruct (created_at x <=? created_at r) eqn:E.
  - apply Z.leb_le in E. constructor; [now constructor |].
    constructor; [exact E |].
    eapply Forall_impl; [| exact Hx]. intros y Hy. simpl in Hy. lia.
  - apply Z.leb_gt in E. constructor; [exact IH |].
    apply Forall_forall. intros y Hy.
    apply In_insert_desc in Hy as [-> | Hy]; [lia |].
    rewrite Forall_forall in Hx. now apply Hx.
Qed.

Lemma order_desc_sorted l :
  StronglySorted (fun a b => created_at b <= created_at a) (Supabase.order_desc l).
Proof.
  induction l as [| r l IH]; simpl; [constructor | now apply insert_desc_sorted].
Qed.

(** [find] picks [r] from a list sorted latest first that has it, when [r]
    passes the test and every other element fails it or is older. *)
Lemma find_recent_pending_latest `{JsRuntime} its t (l : list Row) r :
  StronglySorted (fun a b => created_at b <= created_at a) l ->
  In r l ->
  recent_pending its t (mapSupabaseOrderToOrder r) = inr true ->
  (forall r', In r' l ->
              r' = r
              \/ recent_pending its t (mapSupabaseOrderToOrder r') = inr false
              \/ created_at r' < created_at r) ->
  find_recent_pending its t (map mapSupabaseOrderToOrder l)
  = inr (Some (mapSupabaseOrderToOrder r)).
Proof.
  intros Hsorted Hin Hr Hothers.
  induction Hsorted as [| a l Hs IH Ha]; [destruct Hin |].
  simpl. destruct (Hothers a (or_introl eq_refl)) as [-> | [Hfalse | Holder]].
  - now rewrite Hr.
  - rewrite Hfalse. apply IH.
    + destruct Hin as [-> | Hin]; [| exact Hin]. rewrite Hr in Hfalse. discriminate.
    + intros r' Hr'. apply Hothers. now right.
  - destruct Hin as [-> | Hin]; [lia |].
    rewrite Forall_forall in Ha. specialize (Ha r Hin). simpl in Ha. lia.
Qed.

Lemma validate_items_ok l w :
  Forall (fun item => item_invalid item = inr false) l ->
  validate_items l w = (Val tt, w).
Proof.
  induction 1 as [| item rest Hitem _ IH]; simpl; [reflexivity |].
  rewrite Hitem. cbn [of_sum]. rewrite bind_ret. exact IH.
Qed.

Lemma svc_getOrdersByEmail_run `{JsRuntime} email e w :
  w_connected w = true -> hd false (w_faults w) = false ->
  to_string email = inr e ->
  OrderService.getOrdersByEmail getDatabase email w
  = (Val (map mapSupabaseOrderToOrder
            (Supabase.order_desc
               (filter (fun row => opt_string_eqb (customer_email row) (Some e)) (w_rows w)))),
     pop w).
Proof.
  intros Hc Hf He. unfold OrderService.getOrdersByEmail, try_catch; simpl.
  rewrite db_getOrdersByEmail_run, Hc, He, Hf. reflexivity.
Qed.

Lemma sessions_retrieve_run sid w cs :
  find (fun s => String.eqb (cs_id s) sid) (w_stripe_sessions w) = Some cs ->
  Stripe.sessions_retrieve sid w
  = (Val cs, set_trace (w_trace w ++ [StripeSessionsRetrieve sid]) w).
Proof.
  intro Hfind. unfold Stripe.sessions_retrieve. rewrite bind_effect.
  cbn [w_stripe_sessions set_trace]. now rewrite Hfind.
Qed.

(** ** C3 *)

(** C3, as the code has it.  A checkout request with a valid cart arrives
    while the store answers the listing of the orders stored under the
    request's customer email.  Order [r] is one of them and passes the test
    of the guard (status [pending], as many items, the same ids and
    quantities in the same order, created less than 5 minutes ago); every
    other order of that customer fails the test or was created before [r],
    so that [r] is the latest match.  It has a session id attached and the
    provider reports that session as open.  Then the request is answered
    with that session id and that order id, no order is created, and the
    provider is only asked to retrieve the session. *)
Theorem existing_open_session_reused `{JsRuntime}
  (reqbody : CheckoutBody) (w : World) (total : float) (e : string) (r : Row)
  (sid : string) (cs : CheckoutSession) :
  let its := elements (b_items reqbody) in
  let res := serve (post_create_checkout_session reqbody) w in
  w_stripe w = true ->
  (* the cart passes validation *)
  JS.isArray (b_items reqbody) = true -> its <> [] ->
  Forall (fun item => item_invalid item = inr false) its ->
  total_cents its 0%float = inr total -> (total <=? 0)%float = false ->
  (* the store answers the listing of the customer's orders *)
  w_connected w = true -> hd false (w_faults w) = false ->
  to_string (email_key reqbody) = inr e ->
  (* [r] is the latest order of this customer that passes the test of the guard *)
  In r (w_rows w) ->
  customer_email r = Some e ->
  recent_pending its (w_clock w) (mapSupabaseOrderToOrder r) = inr true ->
  (forall r', In r' (w_rows w) -> customer_email r' = Some e ->
              r' = r
              \/ recent_pending its (w_clock w) (mapSupabaseOrderToOrder r') = inr false
              \/ created_at r' < created_at r) ->
  (* it has a session attached, which the provider reports as open *)
  stripe_session_id r = Some sid -> sid <> "" ->
  find (fun s => String.eqb (cs_id s) sid) (w_stripe_sessions w) = Some cs ->
  cs_status cs = "open" ->
  fst res = Some (mkResponse 200 (SessionBody sid (id r) (cs_url cs)
                                    (Some "Using existing checkout session")))
  /\ w_rows (snd res) = w_rows w
  /\ w_trace (snd res) = (w_trace w ++ [StripeSessionsRetrieve sid])%list.
Proof.
  intros its res Hs Harr Hne Hvalid Htotal Hpos Hc Hf Hkey Hin Hemail Hr Hothers Hsid Hsne
    Hfind Hopen.
  set (w0 := set_res None w) in *.
  assert (Hid : cs_id cs = sid).
  { apply find_some in Hfind as [_ E]. now apply String.eqb_eq in E. }
  assert (Hlen : Nat.eqb (List.length its) 0 = false)
    by (destruct its; [now elim Hne | reflexivity]).
  assert (Htruthy : JS.truthy (b_items reqbody) = true)
    by (destruct (b_items reqbody); try discriminate; reflexivity).
  set (w3 := set_log
               (w_log (set_log (w_log (set_log (w_log w0 ++ [(info, "Creating checkout session")]) w0)
                                ++ [(debug, "Checkout session request body")])
                         (set_log (w_log w0 ++ [(info, "Creating checkout session")]) w0))
                ++ [(debug, "Parsed checkout data")])
               (set_log (w_log (set_log (w_log w0 ++ [(info, "Creating checkout session")]) w0)
                         ++ [(debug, "Checkout session request body")])
                  (set_log (w_log w0 ++ [(info, "Creating checkout session")]) w0))).
  pose proof (pop_reads w3) as Hp.
  set (orders := map mapSupabaseOrderToOrder
                   (Supabase.order_desc
                      (filter (fun row => opt_string_eqb (customer_email row) (Some e))
                              (w_rows w)))).
  assert (Hfound : find_recent_pending its (w_clock w) orders
                   = inr (Some (mapSupabaseOrderToOrder r))).
  { apply find_recent_pending_latest.
    - apply order_desc_sorted.
    - apply In_order_desc, filter_In. split; [exact Hin |]. rewrite Hemail.
      apply opt_string_eqb_eq. reflexivity.
    - exact Hr.
    - intros r' Hr'. apply In_order_desc, filter_In in Hr' as [Hin' He'].
      apply opt_string_eqb_eq in He'. now apply Hothers. }
  set (w4 := pop w3) in *.
  set (w5 := set_log (w_log (set_log (w_log w4 ++ [(warn, "Found existing pending order with session")]) w4)
                      ++ [(info, "Returning existing session to prevent duplicate payment")])
               (set_log (w_log w4 ++ [(warn, "Found existing pending order with session")]) w4)).
  assert (Echecks : checks reqbody w0
                    = (Return,
                       set_res (Some (mkResponse 200 (SessionBody sid (id r) (cs_url cs)
                                                        (Some "Using existing checkout session"))))
                         (set_trace (w_trace w5 ++ [StripeSessionsRetrieve sid]) w5))).
  { unfold checks. cbv zeta. fold its.
    rewrite !bind_logger. fold w3.
    rewrite Htruthy, Harr, Hlen. cbn [negb orb when]. rewrite bind_ret.
    erewrite bind_val by (apply validate_items_ok; exact Hvalid).
    rewrite Htotal. cbn [of_sum]. rewrite bind_ret.
    rewrite Hpos. cbn [when]. rewrite bind_ret.
    erewrite bind_val by (apply (svc_getOrdersByEmail_run _ e); [exact Hc | exact Hf | exact Hkey]).
    change (w_rows w3) with (w_rows w). fold orders. fold w4.
    rewrite bind_now. rewrite (ro_clock _ _ Hp). change (w_clock w3) with (w_clock w).
    rewrite Hfound. cbn [of_sum]. rewrite bind_ret.
    erewrite bind_returned; [reflexivity |].
    unfold reuse_session. cbn [mapSupabaseOrderToOrder o_stripeSessionId o_id].
    rewrite Hsid. apply String.eqb_neq in Hsne. rewrite Hsne. cbn [negb when].
    rewrite !bind_logger. fold w5.
    erewrite try_catch_returned; [reflexivity |].
    erewrite bind_val.
    2:{ apply sessions_retrieve_run. change (w_stripe_sessions w5) with (w_stripe_sessions w4).
        rewrite (ro_stripe_sessions _ _ Hp). exact Hfind. }
    rewrite Hopen. cbn [String.eqb Ascii.eqb Bool.eqb when].
    unfold bind, send, return_. projs.
    change (w_res w5) with (w_res w4). rewrite (ro_res _ _ Hp). cbn.
    rewrite Hid. reflexivity. }
  assert (Erun : post_create_checkout_session reqbody w0
                 = (Return,
                    set_res (Some (mkResponse 200 (SessionBody sid (id r) (cs_url cs)
                                                     (Some "Using existing checkout session"))))
                      (set_trace (w_trace w5 ++ [StripeSessionsRetrieve sid]) w5))).
  { unfold post_create_checkout_session, checkStripeConfig.
    change (w_stripe w0) with (w_stripe w). rewrite Hs. cbn [negb].
    unfold create_checkout_session.
    erewrite try_catch_returned; [reflexivity |].
    erewrite bind_returned; [reflexivity | exact Echecks]. }
  unfold res, serve. fold w0. rewrite Erun. cbn [fst snd]. projs.
  split; [reflexivity |]. split.
  - change (w_rows w5) with (w_rows w4). rewrite (ro_rows _ _ Hp). reflexivity.
  - change (w_trace w5) with (w_trace w4). rewrite (ro_trace _ _ Hp). reflexivity.
Qed.
(** What the test of the guard asks of an order. *)
Lemma recent_pending_true `{JsRuntime} its t o :
  recent_pending its t o = inr true <->
  o_status o = pending
  /\ List.length (o_items o) = List.length its
  /\ (exists a b, map_id_quantity (o_items o) = inr a /\ map_id_quantity its = inr b
                  /\ JS.eqb (JS.Array a) (JS.Array b) = true)
  /\ t - 5 * 60 * 1000 < o_createdAt o.
Proof.
  unfold recent_pending. split.
  - destruct (Status_eqb (o_status o) pending) eqn:Es; cbn [negb]; [| discriminate].
    destruct (Nat.eqb _ _) eqn:El; cbn [negb]; [| discriminate].
    destruct (map_id_quantity (o_items o)) as [e | a]; [discriminate |].
    destruct (map_id_quantity its) as [e | b]; [discriminate |].
    destruct (JS.eqb _ _) eqn:Ej; cbn [negb]; [| discriminate].
    intros [= Hlt]. repeat split.
    + now apply Status_eqb_eq.
    + now apply Nat.eqb_eq.
    + now exists a, b.
    + now apply Z.ltb_lt.
  - intros (Hs & Hl & (a & b & Ha & Hb & Hj) & Ht).
    apply Status_eqb_eq in Hs. rewrite Hs, Hl, Nat.eqb_refl, Ha, Hb, Hj. cbn [negb].
    f_equal. now apply Z.ltb_lt.
Qed.

(** ** C8 *)

(** C8 at an item that is [null].  For the body [{ "items": [null] }] (and
    any customer fields) the route answers 500, not 400: reading [item.id]
    throws a [TypeError], which the [catch] of the handler turns into
    "Failed to create checkout session".  No order is created and no
    provider request is made. *)
Theorem null_item_is_a_server_error `{JsRuntime}
  (customerEmail customerName locale : JS.value) (w : World) :
  w_stripe w = true ->
  let reqbody := mkCheckoutBody (JS.Array [JS.Null]) customerEmail customerName locale in
  let res := serve (post_create_checkout_session reqbody) w in
  fst res = Some (mkResponse 500
                    (ErrorBody "Failed to create checkout session"
                       (Some "Cannot read properties of null (reading 'id')")))
  /\ untouched w (snd res).
Proof.
  intros Hs reqbody res. unfold res, serve, post_create_checkout_session, checkStripeConfig.
  cbn [w_stripe set_res]. rewrite Hs. cbn [negb].
  repeat split.
Qed.

(** The requests the route rejects with 400: no usable items array, or an
    array whose items are all objects and which has an item failing the
    test of the loop, or whose total is not above zero. *)
Lemma validate_items_rejects l w :
  w_res w = None ->
  Forall (fun item => exists b, item_invalid item = inr b) l ->
  Exists (fun item => item_invalid item = inr true) l ->
  validate_items l w
  = (Return,
     set_res (Some (mkResponse 400
                      (ErrorBody "Each item must have id, name, price, and quantity" None))) w).
Proof.
  intros Hres Hall Hex. induction Hall as [| item rest [b Hb] Hall IH]; [inversion Hex |].
  simpl. rewrite Hb. cbn [of_sum]. rewrite bind_ret. destruct b.
  - unfold bind, send, return_. rewrite Hres. reflexivity.
  - apply IH. inversion Hex as [? ? Hx | ? ? Hx]; subst; [congruence | exact Hx].
Qed.

Lemma checks_rejects `{JsRuntime} (reqbody : CheckoutBody) (w : World) :
  w_res w = None ->
  let its := elements (b_items reqbody) in
  JS.isArray (b_items reqbody) = false
  \/ its = []
  \/ (Forall (fun item => exists b, item_invalid item = inr b) its
      /\ (Exists (fun item => item_invalid item = inr true) its
          \/ exists total, total_cents its 0%float = inr total /\ (total <=? 0)%float = true)) ->
  exists msg w',
    checks reqbody w
    = (Return, set_res (Some (mkResponse 400 (ErrorBody msg None))) w')
    /\ w_rows w' = w_rows w /\ w_trace w' = w_trace w.
Proof.
  intros Hres its Hbad.
  unfold checks. cbv zeta. fold its.
  rewrite !bind_logger. set (w3 := set_log _ _).
  assert (Hres3 : w_res w3 = None) by exact Hres.
  destruct (negb (JS.truthy (b_items reqbody)) || negb (JS.isArray (b_items reqbody))
            || Nat.eqb (List.length its) 0) eqn:Hfirst.
  { exists "Items array is required and cannot be empty", w3. split; [| split; reflexivity].
    cbn [when]. unfold bind, send, return_. rewrite Hres3. reflexivity. }
  cbn [when]. rewrite bind_ret.
  apply orb_false_elim in Hfirst as [Hfirst Hlen].
  apply orb_false_elim in Hfirst as [_ Harr]. apply negb_false_iff in Harr.
  destruct Hbad as [Hb | [Hb | [Hall Hb]]].
  - congruence.
  - rewrite Hb in Hlen. discriminate.
  - destruct (Exists_dec (fun item => item_invalid item = inr true) its) as [Hex | Hnex].
    { intro item. destruct (item_invalid item) as [e | []]; [right | left | right];
        congruence. }
    + eexists; exists w3. split; [| split; reflexivity].
      erewrite bind_returned; [reflexivity |].
      exact (validate_items_rejects its w3 Hres3 Hall Hex).
    + destruct Hb as [Hex | (total & Ht & Hle)]; [contradiction |].
      assert (Hok : Forall (fun item => item_invalid item = inr false) its).
      { apply Forall_forall. intros item Hin.
        rewrite Forall_forall in Hall. destruct (Hall item Hin) as [[] Hb]; [| exact Hb].
        elim Hnex. apply Exists_exists. now exists item. }
      eexists; exists w3. split; [| split; reflexivity].
      erewrite bind_val by exact (validate_items_ok its w3 Hok).
      rewrite Ht. cbn [of_sum]. rewrite bind_ret.
      rewrite Hle. cbn [when]. unfold bind, send, return_. rewrite Hres3. reflexivity.
Qed.

(** X29: the validation of the checkout route.  A request whose [items]
    is not an array or is empty, or whose items can all be read (none is
    [null]) and one of them lacks an id, a name, a numeric price or a
    quantity, or whose total is not above zero, is answered 400; no order is
    written and the provider is not contacted. *)
Lemma invalid_cart_rejected `{JsRuntime} (reqbody : CheckoutBody) (w : World) :
  w_stripe w = true ->
  let its := elements (b_items reqbody) in
  JS.isArray (b_items reqbody) = false
  \/ its = []
  \/ (Forall (fun item => exists b, item_invalid item = inr b) its
      /\ (Exists (fun item => item_invalid item = inr true) its
          \/ exists total, total_cents its 0%float = inr total /\ (total <=? 0)%float = true)) ->
  let res := serve (post_create_checkout_session reqbody) w in
  (exists msg, fst res = Some (mkResponse 400 (ErrorBody msg None)))
  /\ untouched w (snd res).
Proof.
  intros Hs its Hbad res.
  destruct (checks_rejects reqbody (set_res None w) eq_refl Hbad)
    as (msg & w' & Echecks & Hrows & Htrace).
  assert (Erun : post_create_checkout_session reqbody (set_res None w)
                 = (Return, set_res (Some (mkResponse 400 (ErrorBody msg None))) w')).
  { unfold post_create_checkout_session, checkStripeConfig.
    change (w_stripe (set_res None w)) with (w_stripe w). rewrite Hs. cbn [negb].
    unfold create_checkout_session.
    erewrite try_catch_returned; [reflexivity |].
    erewrite bind_returned; [reflexivity | exact Echecks]. }
  unfold res, serve. rewrite Erun. cbn [fst snd].
  split; [exists msg; reflexivity |].
  split; [exact Hrows | exact Htrace].
Qed.

(** ** C10 *)

(** C10 (the reads of the order service swallow errors).  Over any database
    adapter: when the adapter throws, [getOrderById],
    [findOrderByStripeSessionId] and [findPendingOrderByItems] return
    [null] and [getOrdersByEmail] returns [[]]; otherwise they return what
    the adapter returns.  So none of them ever throws, and a caller sees
    the same value for a failing store as for one that has no such order. *)
Theorem reads_swallow_store_errors (db : Adapter) (w : World) :
  (forall orderId,
      fst (OrderService.getOrderById db orderId w)
      = match fst (db_getOrderById db orderId w) with
        | Throw _ => Val None
        | o => o
        end)
  /\ (forall stripeSessionId,
         fst (OrderService.findOrderByStripeSessionId db stripeSessionId w)
         = match fst (db_findOrderByStripeSessionId db stripeSessionId w) with
           | Throw _ => Val None
           | o => o
           end)
  /\ (forall its customerEmail,
         fst (OrderService.findPendingOrderByItems db its customerEmail w)
         = match fst (db_findPendingOrderByItems db its customerEmail w) with
           | Throw _ => Val None
           | o => o
           end)
  /\ (forall email,
         fst (OrderService.getOrdersByEmail db email w)
         = match fst (db_getOrdersByEmail db email w) with
           | Throw _ => Val []
           | o => o
           end).
Proof.
  repeat split; intros;
    unfold OrderService.getOrderById, OrderService.findOrderByStripeSessionId,
      OrderService.findPendingOrderByItems, OrderService.getOrdersByEmail, try_catch;
    match goal with
    | |- context [let (_, _) := ?m in _] => destruct m as [[a | e |] w1]
    | |- context [match ?m with (_, _) => _ end] => destruct m as [[a | e |] w1]
    end; reflexivity.
Qed.

(** With the Supabase adapter: a store that is not connected and a
    connected store without orders give the same answers. *)
Lemma store_failure_looks_like_absence `{JsRuntime} (w w' : World) k e :
  w_connected w = false ->
  w_connected w' = true -> w_faults w' = [] -> w_rows w' = [] ->
  fst (OrderService.getOrderById getDatabase k w)
  = fst (OrderService.getOrderById getDatabase k w')
  /\ fst (OrderService.findOrderByStripeSessionId getDatabase k w)
     = fst (OrderService.findOrderByStripeSessionId getDatabase k w')
  /\ fst (OrderService.getOrdersByEmail getDatabase e w)
     = fst (OrderService.getOrdersByEmail getDatabase e w').
Proof.
  intros Hc Hc' Hf' Hr'.
  rewrite !svc_getOrderById_fst, !svc_findOrderByStripeSessionId_fst, Hc, Hc', Hf', Hr'.
  repeat split.
  unfold OrderService.getOrdersByEmail, try_catch; simpl.
  rewrite !db_getOrdersByEmail_run, Hc, Hc', Hf', Hr'.
  destruct (to_string e); reflexivity.
Qed.

(** ** C1 *)

#[export] Instance stays_paid_Frame k : Frame (stays_paid k).
Proof. split; unfold stays_paid; auto. Qed.

#[export] Instance stays_paid_RowsOnly k : RowsOnly (stays_paid k).
Proof. intros w w' Hr Hk. unfold same_rows in Hr. congruence. Qed.

#[export] Instance stays_paid_IgnoresReads k : IgnoresReads (stays_paid k).
Proof. intros w w' Hr. apply rows_only. apply (ro_rows _ _ Hr). Qed.

Lemma keeps_paid_stays_paid k w w' : keeps_paid w w' -> stays_paid k w w'.
Proof. intros Hk. exact (Hk k). Qed.

(** A write into another order. *)
Lemma stays_paid_svc_update_other `{JsRuntime} k k' st ad :
  k' <> k ->
  stable (stays_paid k) (OrderService.updateOrderStatus getDatabase k' st ad).
Proof.
  intros Hne w. destruct (svc_updateOrderStatus_run k' st ad w) as [_ Hrun].
  destruct (update_goes_through k' st ad w) as [r |].
  - destruct Hrun as (_ & Hrows & _). intro Hk. rewrite Hrows.
    rewrite status_of_update_other; [exact Hk | reflexivity | congruence].
  - apply rows_only. apply Hrun.
Qed.

Lemma stays_paid_attach_session `{JsRuntime} k t :
  t_orderId t <> k -> stable (stays_paid k) (attach_session t).
Proof.
  intro Hne. unfold attach_session.
  apply stable_try_catch; [| intro; stable_tac].
  apply stable_bind; [now apply stays_paid_svc_update_other | intro; stable_tac].
Qed.

Lemma stays_paid_async_payment_failed `{JsRuntime} k failedSession :
  opt_string_eqb (s_metadata_orderId failedSession) (Some k) = false ->
  stable (stays_paid k) (handle_async_payment_failed failedSession).
Proof.
  intro Hne. unfold handle_async_payment_failed.
  destruct (s_metadata_orderId failedSession) as [oid |]; [| stable_tac].
  assert (Hoid : oid <> k).
  { intros ->. simpl in Hne. now rewrite String.eqb_refl in Hne. }
  apply stable_bind; [stable_tac | intros _].
  apply stable_try_catch; [| intro; stable_tac].
  apply stable_when. apply stable_bind; [stable_tac | intro t].
  apply stable_bind; [now apply stays_paid_svc_update_other | intro; stable_tac].
Qed.

Lemma row_by_session_has s rs r :
  row_by_session s rs = Some r -> Supabase.has_session s r = true.
Proof.
  unfold row_by_session. destruct (filter _ rs) as [| x [| y l]] eqn:E; try discriminate.
  intros [= ->].
  assert (Hin : In r (filter (Supabase.has_session s) rs)) by (rewrite E; now left).
  now apply filter_In in Hin.
Qed.

Lemma stays_paid_payment_failed `{JsRuntime} k failedPayment w :
  existsb (fun r => Supabase.has_id k r && Supabase.has_session (pi_id failedPayment) r)
          (w_rows w) = false ->
  stays_paid k w (snd (handle_payment_failed failedPayment w)).
Proof.
  intro Hnone. unfold handle_payment_failed.
  rewrite bind_logger. set (w1 := set_log _ w).
  change (stays_paid k w1
            (snd (try_catch
                    (order <- OrderService.findOrderByStripeSessionId getDatabase
                                (pi_id failedPayment) ;;
                     match order with
                     | Some o =>
                         t <- now ;;
                         _ <- OrderService.updateOrderStatus getDatabase (o_id o) failed
                                (failed_data
                                   (match or_str (pi_last_payment_error failedPayment) None with
                                    | Some m => m
                                    | None => "Payment failed"
                                    end) (Some t)) ;;
                         logger info "Order marked as failed"
                     | None => ret tt
                     end)
                    (fun e => logger error "Error updating failed order status") w1))).
  apply try_catch_rel; [typeclasses eauto | | intros e _; leaf].
  apply bind_rel; [typeclasses eauto | leaf |].
  intros order Hval. rewrite svc_findOrderByStripeSessionId_fst in Hval.
  injection Hval as <-.
  pose proof (reads_svc_findOrderByStripeSessionId (pi_id failedPayment) w1) as Hr.
  cbn [w_connected w_faults w_rows set_log w1] in *.
  destruct (w_connected w); [| apply frame_refl].
  destruct (answer _ _) as [r |] eqn:Ha; cbn [option_map]; [| apply frame_refl].
  apply answer_some in Ha. change (w_rows w1) with (w_rows w) in Ha.
  assert (Hne : id r <> k).
  { intro Hid. apply has_id_eq in Hid.
    assert (Hex : existsb (fun r => Supabase.has_id k r
                                    && Supabase.has_session (pi_id failedPayment) r)
                          (w_rows w) = true).
    { apply existsb_exists. exists r. split; [exact (row_by_session_in _ _ _ Ha) |].
      now rewrite Hid, (row_by_session_has _ _ _ Ha). }
    congruence. }
  cbn [mapSupabaseOrderToOrder o_id].
  match goal with
  | |- stays_paid k ?w2 (snd (?m ?w2)) =>
      assert (Hrest : stable (stays_paid k) m); [| exact (Hrest w2)]
  end.
  apply stable_bind; [stable_tac | intro t].
  apply stable_bind; [now apply stays_paid_svc_update_other | intro; stable_tac].
Qed.

Lemma stays_paid_dispatch `{JsRuntime} k req ev w w1 :
  constructEvent req = inr ev ->
  reaches k (PostWebhook req) w = false ->
  w_rows w1 = w_rows w ->
  stays_paid k w1 (snd (dispatch ev w1)).
Proof.
  intros Hev Hreach Hrows. unfold reaches in Hreach. rewrite Hev in Hreach.
  destruct ev; cbn [dispatch].
  - apply keeps_paid_stays_paid. apply keeps_paid_handle_completed.
  - leaf.
  - apply stays_paid_payment_failed. now rewrite Hrows.
  - now apply stays_paid_async_payment_failed.
  - leaf.
Qed.

Lemma stays_paid_step `{JsRuntime} k op w :
  reaches k op w = false -> stays_paid k w (step op w).
Proof.
  destruct op as [reqbody | req | | dt]; intro Hreach; cbn [step].
  - apply keeps_paid_stays_paid. now apply (keeps_paid_step (PostCheckout reqbody)).
  - unfold serve; cbn [snd]. set (w0 := set_res None w).
    change (stays_paid k w0 (snd (webhook req w0))).
    destruct (w_stripe w0 && w_webhook_secret w0) eqn:Hc.
    + apply andb_prop in Hc as [Hs Hw].
      destruct (constructEvent req) as [msg | ev] eqn:Hev.
      * rewrite (webhook_rejected req msg w0 Hs Hw Hev). leaf.
      * rewrite (webhook_verified req ev w0 Hs Hw Hev).
        apply bind_rel; [typeclasses eauto | leaf |]. intros _ _.
        apply bind_rel; [typeclasses eauto | | intros; leaf].
        now apply (stays_paid_dispatch k req ev w).
    + apply rows_only. apply (untouched_unconfigured req w0 Hc).
  - cbn [reaches] in Hreach. destruct (w_tasks w) as [| t rest]; [apply frame_refl |].
    apply String.eqb_neq in Hreach.
    exact (stays_paid_attach_session k t Hreach (set_tasks rest w)).
  - intro Hk. exact Hk.
Qed.

(** C1, as the code has it.  Once order [k] is [paid] it stays [paid] under
    every sequence of checkout requests, webhook deliveries (verified or
    not, of any event), deferred session-attach updates and clock ticks in
    which no operation reaches order [k] with another status: no
    [checkout.session.async_payment_failed] event names [k] in its
    metadata, no [payment_intent.payment_failed] event carries the session
    id order [k] has at that moment, and the deferred update of a checkout
    is not for order [k].  (These three write their status into the order
    without looking at the one it has.) *)
Theorem paid_order_stays_paid `{JsRuntime} (k : string) (ops : list Op) (w : World) :
  status_of k (w_rows w) = Some paid ->
  spares k ops w = true ->
  status_of k (w_rows (run ops w)) = Some paid.
Proof.
  unfold run. revert w.
  induction ops as [| op ops IH]; intros w Hpaid Hspares; simpl in *; [exact Hpaid |].
  apply andb_prop in Hspares as [Hop Hops]. apply negb_true_iff in Hop.
  apply IH; [| exact Hops]. now apply stays_paid_step.
Qed.
(** ** C2 *)

(** C2, as the code has it.  A verified [checkout.session.completed]
    event, with its order id in the metadata or without, is delivered and
    changes the orders table: the order it is about is then [paid].  The
    identical event is delivered again, in any later state in which that
    order is still [paid] and to a store that answers the queries of the
    delivery.  The second delivery changes no row and sends nothing to the
    store, and both deliveries are acknowledged with 200. *)
Theorem completed_webhook_idempotent `{JsRuntime}
  (req : WebhookRequest) (session : Session) (w w2 : World) :
  let first := serve (webhook req) w in
  let second := serve (webhook req) w2 in
  w_stripe w = true -> w_webhook_secret w = true ->
  constructEvent req = inr (checkout_session_completed session) ->
  (* the first delivery is applied *)
  w_rows (snd first) <> w_rows w ->
  (* the state the second delivery meets *)
  w_stripe w2 = true -> w_webhook_secret w2 = true ->
  w_faults w2 = [] ->
  settled session (w_rows w2) ->
  settled session (w_rows (snd first))
  /\ untouched w2 (snd second)
  /\ (exists message warning,
        fst first = Some (mkResponse 200 (Received message warning)))
  /\ (exists message warning,
        fst second = Some (mkResponse 200 (Received message warning))).
Proof.
  intros first second Hs Hk Hev Hchanged Hs2 Hk2 Hf2 Hset2.
  split; [| split; [| split]].
  - (* the first delivery settled the order *)
    destruct (completed_delivery req session w Hs Hk Hev)
      as (w1 & Hr1 & _ & _ & _ & [Hu1 _]).
    fold first in Hu1.
    destruct (handle_completed_same_or session w1) as [Hsame | Hset].
    + elim Hchanged. congruence.
    + now rewrite Hu1.
  - (* the second finds it settled *)
    destruct (completed_delivery req session w2 Hs2 Hk2 Hev)
      as (w3 & Hr3 & Ht3 & Hf3 & Hc3 & Hu3).
    fold second in Hu3.
    assert (Hq : quiet_store (settled session) w3).
    { split; [rewrite Hf3; exact Hf2 |]. right. rewrite Hr3. exact Hset2. }
    destruct (handle_completed_stays_quiet session w3 Hq) as [[Hrows Htrace] _].
    destruct Hu3 as [Hu3r Hu3t].
    split.
    + rewrite Hu3r, Hrows, Hr3. reflexivity.
    + rewrite Hu3t, Htrace, Ht3. reflexivity.
  - exact (verified_request_acknowledged req _ w Hs Hk Hev).
  - exact (verified_request_acknowledged req _ w2 Hs2 Hk2 Hev).
Qed.
(** ** C4 *)

Lemma leaves_weaken (P Q : list LogEntry -> list Effect -> Prop) w w' :
  (forall l t, P l t -> Q l t) -> leaves P w w' -> leaves Q w w'.
Proof. intros HPQ (l & t & Hl & Ht & HP). exists l, t. auto. Qed.

Lemma leaves_appends P w w' : leaves P w w' -> appends w w'.
Proof. apply leaves_weaken. auto. Qed.

#[export] Instance appends_Frame : Frame appends.
Proof.
  split.
  - intro w. exists [], []. rewrite !app_nil_r. auto.
  - intros a b c (l1 & t1 & Hl1 & Ht1 & _) (l2 & t2 & Hl2 & Ht2 & _).
    exists (l1 ++ l2)%list, (t1 ++ t2)%list.
    rewrite Hl2, Hl1, Ht2, Ht1, !app_assoc. auto.
Qed.

Lemma leaves_before P `{!Monotone P} w w1 w2 :
  appends w w1 -> leaves P w1 w2 -> leaves P w w2.
Proof.
  intros (l1 & t1 & Hl1 & Ht1 & _) (l2 & t2 & Hl2 & Ht2 & HP).
  exists (l1 ++ l2 ++ [])%list, (t1 ++ t2 ++ [])%list.
  split; [rewrite Hl2, Hl1, app_nil_r, app_assoc; reflexivity |].
  split; [rewrite Ht2, Ht1, app_nil_r, app_assoc; reflexivity |].
  now apply monotone.
Qed.

Lemma leaves_after P `{!Monotone P} w w1 w2 :
  leaves P w w1 -> appends w1 w2 -> leaves P w w2.
Proof.
  intros (l1 & t1 & Hl1 & Ht1 & HP) (l2 & t2 & Hl2 & Ht2 & _).
  exists ([] ++ l1 ++ l2)%list, ([] ++ t1 ++ t2)%list.
  split; [rewrite Hl2, Hl1; simpl; now rewrite <- app_assoc |].
  split; [rewrite Ht2, Ht1; simpl; now rewrite <- app_assoc |].
  now apply monotone.
Qed.

#[export] Instance Monotone_True : Monotone (fun _ _ => True).
Proof. intros l t l0 l1 t0 t1 _. exact I. Qed.

Lemma In_middle {A} (x : A) l l0 l1 : In x l -> In x (l0 ++ l ++ l1)%list.
Proof. intro Hin. apply in_or_app. right. apply in_or_app. now left. Qed.

#[export] Instance Monotone_completed : Monotone completed_accounted.
Proof.
  intros l t l0 l1 t0 t1 [(k & Hk) | [Hp | [He | He]]].
  - left. exists k. now apply In_middle.
  - right. left. apply Exists_app. right. apply Exists_app. now left.
  - right. right. left. now apply In_middle.
  - right. right. right. now apply In_middle.
Qed.

#[export] Instance Monotone_failed k : Monotone (failed_accounted k).
Proof.
  intros l t l0 l1 t0 t1 [Hk | He]; [left | right]; now apply In_middle.
Qed.

#[export] Instance Monotone_applied_or_logged ev w : Monotone (applied_or_logged ev w).
Proof.
  intros l t l0 l1 t0 t1. destruct ev; cbn [applied_or_logged].
  - apply Monotone_completed.
  - apply In_middle.
  - destruct (found_by_session (pi_id failedPayment) w);
      [apply Monotone_failed | trivial].
  - destruct (s_metadata_orderId failedSession); [| trivial].
    intros HP Hne. apply Monotone_failed. now apply HP.
  - apply In_middle.
Qed.

(** The primitives only add to the log and to the trace. *)
Ltac appends_prim l t :=
  let w := fresh "w" in
  intro w; exists l, t; simpl; rewrite ?app_nil_r; auto.

Lemma appends_logger lv s : stable appends (logger lv s).
Proof. appends_prim [(lv, s)] (@nil Effect). Qed.

Lemma appends_now : stable appends now.
Proof. appends_prim (@nil LogEntry) (@nil Effect). Qed.

Lemma appends_fault : stable appends Supabase.fault.
Proof.
  intro w. exists [], []. unfold Supabase.fault.
  destruct (w_faults w); simpl; rewrite !app_nil_r; auto.
Qed.

Lemma appends_rows : stable appends Supabase.rows.
Proof. appends_prim (@nil LogEntry) (@nil Effect). Qed.

Lemma appends_isConnected : stable appends SupabaseAdapter.isConnected.
Proof. appends_prim (@nil LogEntry) (@nil Effect). Qed.

Lemma appends_commit rs e : stable appends (Supabase.commit rs e).
Proof. appends_prim (@nil LogEntry) [e]. Qed.

Lemma appends_send c b : stable appends (send c b).
Proof.
  intro w. exists [], []. unfold send.
  destruct (w_res w); simpl; rewrite !app_nil_r; auto.
Qed.

#[export] Hint Resolve appends_logger appends_now appends_fault appends_rows
  appends_isConnected appends_commit appends_send : stable.

Lemma appends_svc_getOrderById `{JsRuntime} k :
  stable appends (OrderService.getOrderById getDatabase k).
Proof.
  unfold OrderService.getOrderById; simpl.
  unfold SupabaseAdapter.getOrderById, SupabaseAdapter.findOrderByStripeSessionId,
    SupabaseAdapter.require_connected, Supabase.select_single.
  stable_tac.
Qed.

Lemma appends_svc_findOrderByStripeSessionId `{JsRuntime} sid :
  stable appends (OrderService.findOrderByStripeSessionId getDatabase sid).
Proof.
  unfold OrderService.findOrderByStripeSessionId; simpl.
  unfold SupabaseAdapter.findOrderByStripeSessionId,
    SupabaseAdapter.require_connected, Supabase.select_single.
  stable_tac.
Qed.

Lemma appends_svc_updateOrderStatus `{JsRuntime} k st ad :
  stable appends (OrderService.updateOrderStatus getDatabase k st ad).
Proof.
  unfold OrderService.updateOrderStatus; simpl.
  unfold SupabaseAdapter.updateOrderStatus, SupabaseAdapter.getOrderById,
    SupabaseAdapter.findOrderByStripeSessionId, SupabaseAdapter.require_connected,
    Supabase.select_single, Supabase.update.
  stable_tac.
Qed.

#[export] Hint Resolve appends_svc_getOrderById appends_svc_findOrderByStripeSessionId
  appends_svc_updateOrderStatus : stable.

(** ** Accounting rules *)

Section AccountsRules.

Context (PV PR : list LogEntry -> list Effect -> Prop) `{!Monotone PV} `{!Monotone PR}.

Lemma accounts_quiet {A} (m : M A) :
  stable appends m -> no_return m -> accounts (fun _ _ => True) PR m.
Proof.
  intros Hs Hn w. specialize (Hs w). specialize (Hn w).
  destruct (m w) as [[a | e |] w1]; cbn [fst snd] in *; [exact Hs | exact Hs | now elim Hn].
Qed.

Lemma accounts_bind {A B} PV1 (m : M A) (k : A -> M B) :
  accounts PV1 PR m -> (forall a, accounts PV PR (k a)) -> accounts PV PR (bind m k).
Proof.
  intros Hm Hk w. unfold bind. specialize (Hm w).
  destruct (m w) as [[a | e |] w1]; cbn [fst snd] in *; auto.
  apply leaves_appends in Hm. specialize (Hk a w1).
  destruct (k a w1) as [[b | e |] w2]; cbn [fst snd] in *.
  - now apply (leaves_before PV w w1).
  - eapply frame_trans; eassumption.
  - now apply (leaves_before PR w w1).
Qed.

Lemma accounts_then {A B} (m : M A) (k : A -> M B) :
  accounts PV PR m -> (forall a, stable appends (k a)) -> (forall a, no_return (k a)) ->
  accounts PV PR (bind m k).
Proof.
  intros Hm Hk Hn w. unfold bind. specialize (Hm w).
  destruct (m w) as [[a | e |] w1]; cbn [fst snd] in *; auto.
  specialize (Hk a w1). specialize (Hn a w1).
  destruct (k a w1) as [[b | e |] w2]; cbn [fst snd] in *.
  - now apply (leaves_after PV w w1).
  - apply leaves_appends in Hm. eapply frame_trans; eassumption.
  - now elim Hn.
Qed.

Lemma accounts_try_catch {A} (m : M A) (h : string -> M A) :
  accounts PV PR m -> (forall e, accounts PV PR (h e)) -> accounts PV PR (try_catch m h).
Proof.
  intros Hm Hh w. unfold try_catch. specialize (Hm w).
  destruct (m w) as [[a | e |] w1]; cbn [fst snd] in *; auto.
  specialize (Hh e w1).
  destruct (h e w1) as [[b | e' |] w2]; cbn [fst snd] in *.
  - now apply (leaves_before PV w w1).
  - eapply frame_trans; eassumption.
  - now apply (leaves_before PR w w1).
Qed.

Lemma accounts_ret {A} (a : A) : PV [] [] -> accounts PV PR (ret a).
Proof. intros HP w. exists [], []. simpl. rewrite !app_nil_r. auto. Qed.

Lemma accounts_logger lv s : PV [(lv, s)] [] -> accounts PV PR (logger lv s).
Proof. intros HP w. exists [(lv, s)], []. simpl. rewrite !app_nil_r. auto. Qed.

Lemma accounts_when (c : bool) (m : M unit) :
  accounts PV PR m -> PV [] [] -> accounts PV PR (when c m).
Proof. intros Hm HP. destruct c; simpl; [exact Hm | now apply accounts_ret]. Qed.

(** [logger ...; return res.json(...)] *)
Lemma accounts_logged_return {A} lv s c b :
  PR [(lv, s)] [] -> accounts PV PR (logger lv s ;; send c b ;; @return_ A).
Proof.
  intros HP w. unfold bind, logger, send, return_. cbn [w_res set_log].
  destruct (w_res w); cbn [fst snd]; exists [(lv, s)], []; simpl; rewrite !app_nil_r; auto.
Qed.

End AccountsRules.

Lemma accounts_weaken (PV PR PV' PR' : list LogEntry -> list Effect -> Prop) {A} (m : M A) :
  (forall l t, PV l t -> PV' l t) -> (forall l t, PR l t -> PR' l t) ->
  accounts PV PR m -> accounts PV' PR' m.
Proof.
  intros HV HR Hm w. specialize (Hm w).
  destruct (fst (m w)); [eapply leaves_weaken; [apply HV |] | | eapply leaves_weaken; [apply HR |]];
    exact Hm.
Qed.

Lemma pop_log w : w_log (pop w) = w_log w.
Proof. unfold pop. destruct (w_faults w); reflexivity. Qed.

Lemma after_getOrderById_log k w : w_log (after_getOrderById k w) = w_log w.
Proof. unfold after_getOrderById. destruct (answer _ _); now rewrite !pop_log. Qed.

(** [updateOrderStatus] returns after the write went through, or after
    skipping the write of [paid] into an order that is [paid]. *)
Lemma accounts_svc_updateOrderStatus `{JsRuntime} k st ad :
  accounts
    (fun l t => In (DbUpdate k st) t
                \/ (st = paid /\ In (warn, "Order already in paid status. Skipping update.") l))
    (fun _ _ => False)
    (OrderService.updateOrderStatus getDatabase k st ad).
Proof.
  intro w. pose proof (appends_svc_updateOrderStatus k st ad w) as Ha.
  pose proof (no_return_svc_updateOrderStatus k st ad w) as Hn.
  revert Ha Hn.
  unfold OrderService.updateOrderStatus, try_catch, bind; simpl.
  rewrite db_updateOrderStatus_run.
  destruct (w_connected w); [| intros Ha _; exact Ha].
  cbv zeta.
  pose proof (after_getOrderById_reads k w) as Hr.
  pose proof (pop_reads (after_getOrderById k w)) as Hp.
  assert (Hwritten : forall f,
             leaves (fun l t => In (DbUpdate k st) t
                        \/ (st = paid
                            /\ In (warn, "Order already in paid status. Skipping update.") l))
               w (set_log (w_log (written k f st (pop (after_getOrderById k w)))
                           ++ [(info, "Order updated successfully")])
                    (written k f st (pop (after_getOrderById k w))))).
  { intro f. exists [(info, "Order updated successfully")], [DbUpdate k st]. projs.
    rewrite pop_log, after_getOrderById_log, (ro_trace _ _ Hp), (ro_trace _ _ Hr).
    split; [reflexivity |]. split; [reflexivity |]. left. now left. }
  destruct (resolve k (w_faults w) (w_rows w)) as [r0 |].
  - destruct (skips st (Some r0)) eqn:Hskip.
    + intros _ _. cbn [fst snd logger ret].
      exists [(warn, "Order already in paid status. Skipping update.");
              (info, "Order updated successfully")], [].
      projs. rewrite after_getOrderById_log, (ro_trace _ _ Hr), app_nil_r, <- app_assoc.
      split; [reflexivity |]. split; [reflexivity |]. right.
      unfold skips in Hskip. apply andb_prop in Hskip as [_ Hst].
      apply Status_eqb_eq in Hst. split; [exact Hst | now left].
    + destruct (update_result _ _ _ _) as [msg | r]; cbn [fst snd logger throw ret].
      * intros Ha _. exact Ha.
      * intros _ _. apply Hwritten.
  - destruct (update_result _ _ _ _) as [msg | r]; cbn [fst snd logger throw ret].
    + intros Ha _. exact Ha.
    + intros _ _. apply Hwritten.
Qed.

Ltac quiet := apply accounts_quiet; [stable_tac | no_return_tac].

Lemma no_return_send c b : no_return (send c b).
Proof. intro w. unfold send. destruct (w_res w); discriminate. Qed.

#[export] Hint Resolve no_return_send : no_return.

Lemma accounts_paid_update `{JsRuntime} k ad (m : Order -> M unit) :
  (forall o, stable appends (m o)) -> (forall o, no_return (m o)) ->
  accounts completed_accounted completed_accounted
    (o <- OrderService.updateOrderStatus getDatabase k paid ad ;; m o).
Proof.
  intros Hs Hn. apply accounts_then; try typeclasses eauto; [| exact Hs | exact Hn].
  eapply accounts_weaken; [| | apply accounts_svc_updateOrderStatus].
  - intros l t [Hin | [_ Hin]]; [left; now exists k |].
    right. left. apply Exists_exists. eexists. split; [exact Hin |]. right. right. reflexivity.
  - intros l t [].
Qed.

Lemma accounts_completed_by_metadata `{JsRuntime} session k :
  accounts completed_accounted completed_accounted (completed_by_metadata session k).
Proof.
  unfold completed_by_metadata.
  eapply accounts_bind; try typeclasses eauto; [quiet | intro existing].
  eapply accounts_bind with (PV1 := fun _ _ => True); try typeclasses eauto.
  - destruct existing as [o |]; [| now apply accounts_ret].
    eapply accounts_bind with (PV1 := fun _ _ => True); try typeclasses eauto;
      [| intros _];
      (apply accounts_when; [| exact I]); apply accounts_logged_return;
      right; left; constructor; [left | right; left]; reflexivity.
  - intros _.
    eapply accounts_bind; try typeclasses eauto; [quiet | intros _].
    eapply accounts_bind; try typeclasses eauto; [quiet | intro t].
    apply accounts_paid_update; intro; [stable_tac | no_return_tac].
Qed.

Lemma accounts_completed_by_session `{JsRuntime} session :
  accounts completed_accounted completed_accounted (completed_by_session session).
Proof.
  unfold completed_by_session.
  eapply accounts_bind; try typeclasses eauto; [quiet | intros _].
  eapply accounts_bind; try typeclasses eauto; [quiet | intro order].
  destruct order as [o |].
  - eapply accounts_bind; try typeclasses eauto; [quiet | intros _].
    eapply accounts_bind; try typeclasses eauto; [quiet | intro t].
    apply accounts_paid_update; intro; [stable_tac | no_return_tac].
  - apply accounts_logger. right. right. right. now left.
Qed.

Lemma accounts_handle_completed `{JsRuntime} session :
  accounts completed_accounted completed_accounted (handle_completed session).
Proof.
  unfold handle_completed.
  eapply accounts_bind; try typeclasses eauto; [quiet | intros _].
  apply accounts_try_catch; try typeclasses eauto.
  - eapply accounts_bind; try typeclasses eauto; [quiet | intros _].
    destruct (s_metadata_orderId session) as [k |]; [destruct (negb (String.eqb k "")) |];
      first [apply accounts_completed_by_metadata | apply accounts_completed_by_session].
  - intro e. apply accounts_logger. right. right. left. now left.
Qed.

Lemma accounts_failed_update `{JsRuntime} k ad :
  accounts (failed_accounted k) (failed_accounted k)
    (t <- now ;;
     _ <- OrderService.updateOrderStatus getDatabase k failed (ad t) ;;
     logger info "Order marked as failed").
Proof.
  eapply accounts_bind; try typeclasses eauto; [quiet | intro t].
  apply accounts_then; try typeclasses eauto; [| intro; stable_tac | intro; no_return_tac].
  eapply accounts_weaken; [| | apply accounts_svc_updateOrderStatus].
  - intros l t' [Hin | [Hst _]]; [now left | discriminate].
  - intros l t' [].
Qed.

Lemma accounts_handle_async_payment_failed `{JsRuntime} failedSession w :
  accounts (applied_or_logged (checkout_session_async_payment_failed failedSession) w)
           (applied_or_logged (checkout_session_async_payment_failed failedSession) w)
           (handle_async_payment_failed failedSession).
Proof.
  unfold handle_async_payment_failed.
  destruct (s_metadata_orderId failedSession) as [k |] eqn:Hm.
  - destruct (String.eqb k "") eqn:Hk.
    + apply String.eqb_eq in Hk.
      eapply accounts_weaken with (PV := fun _ _ => True) (PR := fun _ _ => True);
        [intros l t _; cbn [applied_or_logged]; rewrite Hm; intro Hne; contradiction
        |intros l t _; cbn [applied_or_logged]; rewrite Hm; intro Hne; contradiction |].
      cbn [negb when]. apply accounts_quiet; [stable_tac | no_return_tac].
    + eapply accounts_weaken with (PV := failed_accounted k) (PR := failed_accounted k);
        [intros l t HP; cbn [applied_or_logged]; rewrite Hm; intros _; exact HP
        |intros l t HP; cbn [applied_or_logged]; rewrite Hm; intros _; exact HP |].
      eapply accounts_bind; try typeclasses eauto; [quiet | intros _].
      apply accounts_try_catch; try typeclasses eauto.
      * cbn [negb when].
        apply (accounts_failed_update k (fun t => failed_data "Payment failed" (Some t))).
      * intro e. apply accounts_logger. right. now left.
  - eapply accounts_weaken with (PV := fun _ _ => True) (PR := fun _ _ => True);
      [intros l t _; cbn [applied_or_logged]; now rewrite Hm
      |intros l t _; cbn [applied_or_logged]; now rewrite Hm |].
    apply accounts_quiet; [stable_tac | no_return_tac].
Qed.

Lemma appends_handle_payment_failed `{JsRuntime} failedPayment :
  stable appends (handle_payment_failed failedPayment).
Proof. unfold handle_payment_failed. stable_tac. Qed.

Lemma handle_payment_failed_accounted `{JsRuntime} failedPayment w :
  leaves (applied_or_logged (payment_intent_payment_failed failedPayment) w) w
    (snd (handle_payment_failed failedPayment w)).
Proof.
  apply (leaves_weaken
           (fun l t => match found_by_session (pi_id failedPayment) w with
                       | Some r => failed_accounted (id r) l t
                       | None => True
                       end)); [intros l t HP; exact HP |].
  destruct (found_by_session (pi_id failedPayment) w) as [r |] eqn:Hfound;
    [| apply appends_handle_payment_failed].
  unfold handle_payment_failed. rewrite bind_logger. set (w1 := set_log _ w).
  assert (H1 : appends w w1).
  { exists [(warn, "PaymentIntent failed")], []. simpl. rewrite app_nil_r. auto. }
  pose proof (svc_findOrderByStripeSessionId_fst (pi_id failedPayment) w1) as Hfst.
  assert (Hval : (if w_connected w1
                  then option_map mapSupabaseOrderToOrder
                         (answer (w_faults w1)
                            (row_by_session (pi_id failedPayment) (w_rows w1)))
                  else None) = Some (mapSupabaseOrderToOrder r)).
  { unfold found_by_session in Hfound.
    change (w_connected w1) with (w_connected w). change (w_faults w1) with (w_faults w).
    change (w_rows w1) with (w_rows w).
    destruct (w_connected w); [| discriminate]. now rewrite Hfound. }
  rewrite Hval in Hfst. clear Hval.
  pose proof (appends_svc_findOrderByStripeSessionId (pi_id failedPayment) w1) as H2.
  unfold try_catch. unfold bind at 1.
  destruct (OrderService.findOrderByStripeSessionId getDatabase (pi_id failedPayment) w1)
    as [out w2]. cbn [fst snd] in *. subst out. cbn [option_map mapSupabaseOrderToOrder o_id].
  assert (H12 : appends w w2) by (eapply frame_trans; eassumption).
  pose proof (accounts_failed_update (id r)
                (fun t => failed_data
                            (match or_str (pi_last_payment_error failedPayment) None with
                             | Some m => m
                             | None => "Payment failed"
                             end) (Some t)) w2) as Hrest.
  cbv beta in Hrest.
  match type of Hrest with
  | match fst (?m ?w) with _ => _ end => destruct (m w) as [[[] | e |] w3]
  end; cbn [fst snd] in *.
  - now apply (leaves_before _ w w2).
  - apply (leaves_before _ w w3); [eapply frame_trans; eassumption |].
    exists [(error, "Error updating failed order status")], []. simpl. rewrite app_nil_r.
    split; [reflexivity |]. split; [reflexivity |]. right. now left.
  - now apply (leaves_before _ w w2).
Qed.

(** Whatever the event and the store, the handler leaves its account. *)
Lemma dispatch_accounted `{JsRuntime} ev w w1 :
  w_connected w1 = w_connected w -> w_faults w1 = w_faults w -> w_rows w1 = w_rows w ->
  leaves (applied_or_logged ev w) w1 (snd (dispatch ev w1)).
Proof.
  intros Hc Hf Hr.
  assert (Hsame : forall l t, applied_or_logged ev w1 l t -> applied_or_logged ev w l t).
  { intros l t. destruct ev; cbn [applied_or_logged]; auto.
    unfold found_by_session. now rewrite Hc, Hf, Hr. }
  apply (leaves_weaken _ _ _ _ Hsame). clear Hsame.
  pose proof (no_throw_dispatch ev w1) as Hnt.
  destruct ev; cbn [dispatch] in *.
  - pose proof (accounts_handle_completed session w1) as Ha.
    destruct (handle_completed session w1) as [[[] | e |] w2]; cbn [fst snd] in *;
      [exact Ha | now elim (Hnt e) | exact Ha].
  - exists [(info, "PaymentIntent succeeded")], []. simpl. rewrite app_nil_r.
    split; [reflexivity |]. split; [reflexivity |]. now left.
  - apply handle_payment_failed_accounted.
  - pose proof (accounts_handle_async_payment_failed failedSession w1 w1) as Ha.
    destruct (handle_async_payment_failed failedSession w1) as [[[] | e |] w2];
      cbn [fst snd] in *; [exact Ha | now elim (Hnt e) | exact Ha].
  - exists [(debug, "Unhandled event type")], []. simpl. rewrite app_nil_r.
    split; [reflexivity |]. split; [reflexivity |]. now left.
Qed.

(** C4, as the code has it.  With Stripe and the webhook secret configured:
    a request whose signature verification fails is answered with 400,
    leaves the orders table and the trace of effects as they were, and is
    logged as an error; a request whose signature verifies is answered
    with 200 and a [{received: true, ...}] body, whatever the event, the
    contents of the store, its connection state and the failures of its
    queries, and the log and the trace account for the event: a completed
    payment is written, or found paid already, or an error entry tells that
    the update failed or that no order was found; a failed asynchronous
    payment that names an order is written or its failure is logged as an
    error; so is a failed payment intent when the lookup by session id
    finds an order (when it finds none, nothing tells); an unhandled event
    is logged. *)
Theorem webhook_acknowledgment `{JsRuntime} (req : WebhookRequest) (w : World) :
  let res := serve (webhook req) w in
  w_stripe w = true -> w_webhook_secret w = true ->
  match constructEvent req with
  | inl msg =>
      fst res = Some (mkResponse 400 (Text ("Webhook Error: " ++ msg)))
      /\ w_rows (snd res) = w_rows w
      /\ w_trace (snd res) = w_trace w
      /\ w_log (snd res)
         = (w_log w ++ [(error, "Webhook signature verification failed")])%list
  | inr ev =>
      (exists message warning,
          fst res = Some (mkResponse 200 (Received message warning)))
      /\ leaves (applied_or_logged ev w) w (snd res)
  end.
Proof.
  intros res Hs Hk.
  destruct (constructEvent req) as [msg | ev] eqn:Hev.
  - destruct (rejected_request req msg w Hs Hk Hev) as (Hres & Hrows & Htrace).
    repeat split; try assumption.
    unfold res, serve; cbn [fst snd].
    rewrite (webhook_rejected req msg) by (simpl; assumption). reflexivity.
  - split; [now apply (verified_request_acknowledged req ev) |].
    unfold res, serve; cbn [snd]. set (w0 := set_res None w).
    rewrite (webhook_verified req ev w0 Hs Hk Hev).
    rewrite bind_logger. set (w1 := set_log _ w0).
    assert (H1 : appends w w1).
    { exists [(info, "Received webhook event")], []. simpl. rewrite app_nil_r. auto. }
    pose proof (dispatch_accounted ev w w1 eq_refl eq_refl eq_refl) as Hd.
    unfold bind.
    destruct (dispatch ev w1) as [[[] | e |] w2]; cbn [fst snd] in *;
      try (now apply (leaves_before _ w w1)).
    apply (leaves_after _ w w2); [now apply (leaves_before _ w w1) |].
    apply appends_send.
Qed.
(** ** C7 *)

#[export] Instance same_orders_Frame : Frame same_orders.
Proof. split; unfold same_orders; [reflexivity | congruence]. Qed.

#[export] Instance same_orders_RowsOnly : RowsOnly same_orders.
Proof. intros w w' Hr. unfold same_orders, same_rows in *. now rewrite Hr. Qed.

#[export] Instance same_orders_IgnoresReads : IgnoresReads same_orders.
Proof. intros w w' Hr. apply rows_only. apply (ro_rows _ _ Hr). Qed.

Lemma core_update_row st t ad r : core (SupabaseAdapter.update_row st t ad r) = core r.
Proof. reflexivity. Qed.

Lemma map_core_update_rows k st t ad rs :
  map core (Supabase.update_rows k (SupabaseAdapter.update_row st t ad) rs) = map core rs.
Proof.
  unfold Supabase.update_rows. rewrite map_map. apply map_ext.
  intro r. destruct (Supabase.has_id k r); reflexivity.
Qed.

Lemma same_orders_svc_updateOrderStatus `{JsRuntime} k st ad :
  stable same_orders (OrderService.updateOrderStatus getDatabase k st ad).
Proof.
  intro w. destruct (svc_updateOrderStatus_run k st ad w) as [_ Hrun].
  destruct (update_goes_through k st ad w) as [r |].
  - destruct Hrun as (_ & Hrows & _). unfold same_orders.
    now rewrite Hrows, map_core_update_rows.
  - apply rows_only. apply Hrun.
Qed.

#[export] Hint Resolve same_orders_svc_updateOrderStatus : stable.



(** From [m w = (out, w')] to a goal about [snd (m w)]. *)
Ltac landed :=
  let Hrun := fresh "Hrun" in
  intro Hrun; apply (f_equal snd) in Hrun; cbn [snd] in Hrun; subst.

Lemma same_orders_create_session `{JsRuntime} order :
  stable same_orders (create_session order).
Proof. unfold create_session. stable_tac. Qed.

#[export] Hint Resolve same_orders_create_session : stable.



#[export] Instance pays_Frame x : Frame (pays x).
Proof.
  split; unfold pays.
  - intros w r Hr. now left.
  - intros a b c Hab Hbc r Hr. destruct (Hbc r Hr) as [Hb | Hp]; [now apply Hab | now right].
Qed.

#[export] Instance pays_RowsOnly x : RowsOnly (pays x).
Proof. intros w w' Hr r Hin. left. unfold same_rows in Hr. now rewrite <- Hr. Qed.

#[export] Instance pays_IgnoresReads x : IgnoresReads (pays x).
Proof. intros w w' Hr. apply rows_only. apply (ro_rows _ _ Hr). Qed.



(** * The example, run *)

(** The stores of the example are what the handlers compute. *)
Lemma sample_pending_world_run :
  sample_pending_world
  = run [PostCheckout sample_checkout; RunTask; Tick 1000] sample_world.
Proof. vm_compute. reflexivity. Qed.

Lemma sample_paid_world_run :
  sample_paid_world
  = run [PostCheckout sample_checkout; RunTask; Tick 1000;
         PostWebhook (verified (checkout_session_completed sample_completed))]
      sample_world.
Proof. vm_compute. reflexivity. Qed.

Lemma sample_checked_world_run :
  checks sample_checkout (set_res None sample_outage_world)
  = (Val (elements sample_cart, 9998%float), sample_checked_world).
Proof. vm_compute. reflexivity. Qed.

(** ** C1 *)

(** A paid order is taken out of [paid] by each of the three writes that
    do not look at its status: the failed asynchronous payment that names
    it, the failed payment intent that carries its session id, and the
    deferred update of its own checkout when the payment came first. *)
Lemma paid_order_marked_failed :
  (let ev := checkout_session_async_payment_failed sample_completed in
   status_of "ORD-1" (w_rows sample_paid_world) = Some paid
   /\ status_of "ORD-1" (w_rows (run [PostWebhook (verified ev)] sample_paid_world))
      = Some failed)
  /\ (let ev := payment_intent_payment_failed sample_declined_intent in
      status_of "ORD-1" (w_rows (run [PostWebhook (verified ev)] sample_paid_world))
      = Some failed)
  /\ (status_of "ORD-1" (w_rows sample_early_paid_world) = Some paid
      /\ status_of "ORD-1" (w_rows (run [RunTask] sample_early_paid_world)) = Some pending).
Proof. vm_compute. repeat split. Qed.

Lemma paid_order_stays_paid_witness :
  let ops := [PostCheckout sample_checkout; RunTask;
              PostWebhook (verified (payment_intent_payment_failed sample_failed_intent));
              PostWebhook (verified (checkout_session_async_payment_failed
                                       sample_completed_unknown));
              Tick 5] in
  spares "ORD-1" ops sample_paid_world = true
  /\ status_of "ORD-1" (w_rows (run ops sample_paid_world)) = Some paid.
Proof.
  intro ops.
  assert (Hspares : spares "ORD-1" ops sample_paid_world = true) by (vm_compute; reflexivity).
  split; [exact Hspares |].
  apply (paid_order_stays_paid "ORD-1" ops sample_paid_world); [reflexivity | exact Hspares].
Defined.

(** ** C2 *)

(** The identical event is applied a second time when the lookups of the
    second delivery fail, and when the deferred update of the checkout
    runs between the two deliveries. *)
Lemma second_delivery_applied_again :
  let req := verified (checkout_session_completed sample_completed) in
  (let first := serve (webhook req) sample_pending_world in
   let second := serve (webhook req)
                   (set_clock 5000 (set_faults [true; false; true] (snd first))) in
   fst first = Some (mkResponse 200 (Received None None))
   /\ map paid_at (w_rows (snd first)) = [Some 2000]
   /\ fst second = Some (mkResponse 200 (Received None None))
   /\ new_effects (snd first) (snd second) = [DbUpdate "ORD-1" paid]
   /\ map paid_at (w_rows (snd second)) = [Some 5000])
  /\ (let between := run [RunTask] sample_early_paid_world in
      let after := run [PostWebhook req] between in
      map summary (w_rows sample_early_paid_world) = [("ORD-1", paid, Some "cs_1")]
      /\ map summary (w_rows between) = [("ORD-1", pending, Some "cs_1")]
      /\ map summary (w_rows after) = [("ORD-1", paid, Some "cs_1")]
      /\ w_trace after
         = [DbInsert "ORD-1" pending; StripeSessionsCreate "ORD-1";
            DbUpdate "ORD-1" paid; DbUpdate "ORD-1" pending; DbUpdate "ORD-1" paid]).
Proof. vm_compute. repeat split. Qed.

Lemma completed_webhook_idempotent_witness :
  let req := verified (checkout_session_completed sample_completed) in
  let first := serve (webhook req) sample_pending_world in
  let second := serve (webhook req) (set_clock 3000 sample_paid_world) in
  w_rows (snd first) <> w_rows sample_pending_world
  /\ settled sample_completed (w_rows sample_paid_world)
  /\ untouched (set_clock 3000 sample_paid_world) (snd second).
Proof.
  intros req first second.
  assert (Hchanged : w_rows (snd first) <> w_rows sample_pending_world)
    by (vm_compute; discriminate).
  assert (Hsettled : settled sample_completed (w_rows sample_paid_world))
    by (eexists; split; reflexivity).
  split; [exact Hchanged |]. split; [exact Hsettled |].
  apply (completed_webhook_idempotent req sample_completed sample_pending_world
           (set_clock 3000 sample_paid_world));
    [reflexivity | reflexivity | reflexivity | exact Hchanged
    | reflexivity | reflexivity | reflexivity | exact Hsettled].
Defined.

(** ** C4 *)

(** A failed payment intent whose order is missing, or whose lookup the
    store does not answer, is acknowledged and leaves nothing in the log
    but the two entries every such event leaves. *)
Lemma failed_payment_lookup_miss_not_logged :
  (let req := verified (payment_intent_payment_failed sample_failed_intent) in
   let res := serve (webhook req) sample_pending_world in
   map stripe_session_id (w_rows sample_pending_world) = [Some "cs_1"]
   /\ fst res = Some (mkResponse 200 (Received None None))
   /\ w_log (snd res)
      = (w_log sample_pending_world
         ++ [(info, "Received webhook event"); (warn, "PaymentIntent failed")])%list)
  /\ (let req := verified (payment_intent_payment_failed sample_declined_intent) in
      let w := set_faults [true] sample_pending_world in
      let res := serve (webhook req) w in
      fst res = Some (mkResponse 200 (Received None None))
      /\ map summary (w_rows (snd res)) = [("ORD-1", pending, Some "cs_1")]
      /\ w_log (snd res)
         = (w_log w ++ [(info, "Received webhook event"); (warn, "PaymentIntent failed")])%list).
Proof. vm_compute. repeat split. Qed.

Lemma webhook_acknowledgment_witness :
  let req := verified (checkout_session_completed sample_completed_unknown) in
  let res := serve (webhook req) sample_pending_world in
  (exists message warning,
      fst res = Some (mkResponse 200 (Received message warning)))
  /\ leaves completed_accounted sample_pending_world (snd res).
Proof.
  intros req res.
  apply (webhook_acknowledgment req sample_pending_world); reflexivity.
Defined.

(** ** C5 *)

Lemma duplicate_payment_not_applied_witness :
  let req := verified (checkout_session_completed sample_completed_again) in
  untouched sample_paid_world (snd (serve (webhook req) sample_paid_world))
  /\ fst (serve (webhook req) sample_paid_world)
     = Some (mkResponse 200 (Received (Some "Order already paid")
                               (Some "Duplicate payment attempt detected"))).
Proof.
  intro req.
  assert (Hfound : exists o,
             fst (OrderService.getOrderById getDatabase "ORD-1" sample_paid_world)
             = Val (Some o)
             /\ o_status o = paid /\ o_stripeSessionId o <> Some "cs_2").
  { eexists. split; [vm_compute; reflexivity |]. split; [reflexivity | discriminate]. }
  destruct Hfound as (o & Hget & Hpaid & Hother).
  destruct (duplicate_payment_not_applied req sample_completed_again "ORD-1" o
              sample_paid_world) as (Hsame & Hack & _);
    [reflexivity | reflexivity | reflexivity | reflexivity | discriminate
    | exact Hget | exact Hpaid | exact Hother |].
  split; assumption.
Defined.

(** ** C9 *)

Lemma payment_failed_without_matching_session_witness :
  let req := verified (payment_intent_payment_failed sample_failed_intent) in
  untouched sample_pending_world (snd (serve (webhook req) sample_pending_world)).
Proof.
  intro req.
  apply (payment_failed_without_matching_session req sample_failed_intent
           sample_pending_world); [reflexivity |].
  intros r [<- | []]. discriminate.
Defined.

(** ** C8 *)

Lemma null_item_is_a_server_error_witness :
  fst (serve (post_create_checkout_session
                (mkCheckoutBody (JS.Array [JS.Null]) JS.Undefined JS.Undefined JS.Undefined))
         sample_world)
  = Some (mkResponse 500
            (ErrorBody "Failed to create checkout session"
               (Some "Cannot read properties of null (reading 'id')"))).
Proof.
  apply (null_item_is_a_server_error JS.Undefined JS.Undefined JS.Undefined sample_world).
  reflexivity.
Defined.

(** ** C6 *)

(** The provider fails and the order is not [failed] at the end: the update
    that would mark it does not come back.  A request that passes the
    validation leaves no order at all: its total does not fit the column.
    And a request that passes the validation leaves its order [pending]
    without the provider being asked: its customer name is a number, and
    the metadata of the session cannot be built. *)
Lemma order_left_pending_or_missing :
  (let res := serve (post_create_checkout_session sample_checkout)
                sample_lost_update_world in
   fst res = Some (mkResponse 500
                     (ErrorBody "Failed to create checkout session" (Some Stripe.timed_out)))
   /\ map summary (w_rows (snd res)) = [("ORD-1", pending, None)]
   /\ w_trace (snd res) = [DbInsert "ORD-1" pending; StripeSessionsCreate "ORD-1"])
  /\ (let res := serve (post_create_checkout_session sample_huge_checkout)
                   sample_outage_world in
      total_cents (elements (b_items sample_huge_checkout)) 0%float = inr infinity
      /\ (exists msg, fst res = Some (mkResponse 500
                                        (ErrorBody "Failed to create order" (Some msg))))
      /\ w_rows (snd res) = [] /\ w_trace (snd res) = [])
  /\ (let res := serve (post_create_checkout_session sample_numeric_name_checkout)
                   sample_outage_world in
      fst res = Some (mkResponse 500
                        (ErrorBody "Failed to create checkout session"
                           (Some "customerName.substring is not a function")))
      /\ map summary (w_rows (snd res)) = [("ORD-1", pending, None)]
      /\ w_trace (snd res) = [DbInsert "ORD-1" pending]).
Proof.
  split; [vm_compute; repeat split |].
  split; [| vm_compute; repeat split].
  split; [vm_compute; reflexivity |]. split; [eexists; vm_compute; reflexivity |].
  vm_compute. split; reflexivity.
Qed.

Lemma provider_failure_marks_order_failed_witness :
  let res := serve (post_create_checkout_session sample_checkout) sample_outage_world in
  fst res = Some (mkResponse 500
                    (ErrorBody "Failed to create checkout session" (Some Stripe.timed_out)))
  /\ map summary (w_rows (snd res)) = [("ORD-1", failed, None)].
Proof.
  intro res.
  destruct (provider_failure_marks_order_failed sample_checkout sample_outage_world
              sample_checked_world (elements sample_cart) 9998%float Stripe.timed_out)
    as (Hres & _);
    [reflexivity | exact sample_checked_world_run | reflexivity | reflexivity
    | split; reflexivity | reflexivity |].
  split; [exact Hres |].
  vm_compute. reflexivity.
Defined.

(** ** C3 *)

(** The same two items in the other order, for the same customer, one
    second after a checkout whose order has an open session attached: the
    guard does not match and a second order and session are created. *)
Lemma permuted_cart_creates_second_order :
  let first := run [PostCheckout sample_checkout_ab; RunTask; Tick 1000] sample_world in
  let second := run [PostCheckout sample_checkout_ba] first in
  w_res first = Some (mkResponse 200 (SessionBody "cs_1" "ORD-1" (Some "https://pay/1") None))
  /\ map summary (w_rows first) = [("ORD-1", pending, Some "cs_1")]
  /\ map cs_status (w_stripe_sessions first) = ["open"]
  /\ w_res second
     = Some (mkResponse 200 (SessionBody "cs_2" "ORD-2" (Some "https://pay/2") None))
  /\ map summary (w_rows second) = [("ORD-1", pending, Some "cs_1"); ("ORD-2", pending, None)].
Proof. vm_compute. repeat split. Qed.

Lemma existing_open_session_reused_witness :
  let res := serve (post_create_checkout_session sample_checkout) sample_pending_world in
  fst res = Some (mkResponse 200 (SessionBody "cs_1" "ORD-1" (Some "https://pay/1")
                                    (Some "Using existing checkout session")))
  /\ w_rows (snd res) = w_rows sample_pending_world.
Proof.
  intro res.
  assert (Hrow : exists r, w_rows sample_pending_world = [r]
                           /\ summary r = ("ORD-1", pending, Some "cs_1")
                           /\ customer_email r = Some "ada@example.com"
                           /\ recent_pending (elements sample_cart) 2000
                                (mapSupabaseOrderToOrder r) = inr true).
  { eexists. split; [vm_compute; reflexivity |]. repeat split. }
  destruct Hrow as (r & Hrows & Hsum & Hemail & Hrecent).
  assert (Hid : id r = "ORD-1") by (injection Hsum; auto).
  assert (Hsid : stripe_session_id r = Some "cs_1") by (injection Hsum; auto).
  destruct (existing_open_session_reused sample_checkout sample_pending_world
              9998%float "ada@example.com" r "cs_1"
              (mkCheckoutSession "cs_1" (Some "https://pay/1") None "open"))
    as (Hres & Hsame & _).
  - reflexivity.
  - reflexivity.
  - discriminate.
  - repeat constructor.
  - reflexivity.
  - reflexivity.
  - reflexivity.
  - reflexivity.
  - reflexivity.
  - rewrite Hrows. left. reflexivity.
  - exact Hemail.
  - exact Hrecent.
  - intros r' Hin _. rewrite Hrows in Hin. destruct Hin as [<- | []]. left. reflexivity.
  - exact Hsid.
  - discriminate.
  - reflexivity.
  - reflexivity.
  - split; [| exact Hsame]. unfold res. rewrite Hres, Hid. reflexivity.
Defined.

(** ** C7 *)

(** In binary64 arithmetic the cart of the example totals 9998 cents, the
    order is created with [totalAmount] 99.98, and the completed payment of
    9998 cents records [amountPaid] 99.98. *)
Lemma sample_total :
  total_cents (elements sample_cart) 0%float = inr 9998%float
  /\ map total_amount (w_rows sample_pending_world) = [99.98%float]
  /\ map amount_paid (w_rows sample_paid_world) = [Some 99.98%float].
Proof. vm_compute. repeat split. Qed.

(** The route adds up cents and divides by 100, which in binary64 is not
    the sum of the prices times the quantities: for three items at 0.07 the
    two differ in the last place. *)
Lemma cents_total_differs_from_plain_sum :
  let its := [sample_item "c1" 0.07 3] in
  total_cents its 0%float = inr (0.07 * 3 * 100)%float
  /\ ((0.07 * 3 * 100) / 100 =? 0.07 * 3)%float = false.
Proof. vm_compute. split; reflexivity. Qed.



(** * Further properties *)

(** ** Orders are never deleted *)

#[export] Instance grows_Frame : Frame grows.
Proof.
  split.
  - intro w. exists []. now rewrite app_nil_r.
  - intros a b c [l1 H1] [l2 H2]. exists (l1 ++ l2)%list.
    now rewrite H2, H1, app_assoc.
Qed.

#[export] Instance grows_RowsOnly : RowsOnly grows.
Proof. intros w w' Hr. exists []. unfold same_rows in Hr. now rewrite Hr, app_nil_r. Qed.

#[export] Instance grows_IgnoresReads : IgnoresReads grows.
Proof. intros w w' Hr. apply rows_only. apply (ro_rows _ _ Hr). Qed.

Lemma grows_svc_updateOrderStatus `{JsRuntime} k st ad :
  stable grows (OrderService.updateOrderStatus getDatabase k st ad).
Proof.
  intro w. destruct (svc_updateOrderStatus_run k st ad w) as [_ Hrun].
  destruct (update_goes_through k st ad w) as [r |].
  - destruct Hrun as (_ & Hrows & _). exists [].
    now rewrite Hrows, map_core_update_rows, app_nil_r.
  - apply rows_only. apply Hrun.
Qed.

Lemma grows_svc_createOrder `{JsRuntime} orderData :
  stable grows (OrderService.createOrder getDatabase orderData).
Proof.
  intro w. destruct (svc_createOrder_cases orderData w)
    as [(e & w' & -> & Hu) | (w' & -> & _ & _ & Hrows & _)]; cbn [snd].
  - apply rows_only. apply Hu.
  - eexists. rewrite Hrows, map_app. reflexivity.
Qed.

#[export] Hint Resolve grows_svc_updateOrderStatus grows_svc_createOrder : stable.

Lemma grows_step `{JsRuntime} op w : grows w (step op w).
Proof.
  destruct op as [reqbody | req | | dt]; cbn [step].
  - unfold serve; cbn [snd]. apply (frame_trans _ (set_res None w)); [apply rows_only; reflexivity |].
    assert (Hs : stable grows (post_create_checkout_session reqbody)).
    { unfold post_create_checkout_session. intro w0. unfold checkStripeConfig.
      destruct (negb (w_stripe w0)); [leaf |].
      revert w0. change (stable grows (create_checkout_session reqbody)).
      unfold create_checkout_session, checks, place_order, create_session, reuse_session.
      stable_tac. }
    apply Hs.
  - unfold serve; cbn [snd]. apply (frame_trans _ (set_res None w)); [apply rows_only; reflexivity |].
    assert (Hs : stable grows (webhook req)).
    { intro w0. unfold webhook.
      destruct (negb (w_stripe w0 && w_webhook_secret w0)); [leaf |].
      revert w0.
      match goal with |- forall w0, grows w0 (snd (?m w0)) => change (stable grows m) end.
      unfold dispatch, handle_completed, completed_by_metadata, completed_by_session,
        handle_payment_failed, handle_async_payment_failed.
      stable_tac. }
    apply Hs.
  - destruct (w_tasks w) as [| t rest]; [apply frame_refl |].
    apply (frame_trans _ (set_tasks rest w)); [apply rows_only; reflexivity |].
    assert (Hs : stable grows (attach_session t)) by (unfold attach_session; stable_tac).
    apply Hs.
  - apply rows_only. reflexivity.
Qed.

(** X1: no sequence of requests, deferred updates and clock ticks deletes
    an order, reorders the table, or changes the id, the items, the total
    amount, the creation time or the locale of an order. *)
Theorem orders_are_never_deleted `{JsRuntime} (ops : list Op) (w : World) :
  grows w (run ops w).
Proof.
  unfold run. revert w.
  induction ops as [| op ops IH]; intro w; simpl.
  - apply frame_refl.
  - eapply frame_trans; [apply grows_step | apply IH].
Qed.

(** ** The webhook creates no order *)

Lemma same_orders_webhook `{JsRuntime} req : stable same_orders (webhook req).
Proof.
  intro w0. unfold webhook.
  destruct (negb (w_stripe w0 && w_webhook_secret w0)); [leaf |].
  revert w0.
  match goal with |- forall w0, same_orders w0 (snd (?m w0)) => change (stable same_orders m) end.
  unfold dispatch, handle_completed, completed_by_metadata, completed_by_session,
    handle_payment_failed, handle_async_payment_failed.
  stable_tac.
Qed.

Lemma same_orders_attach_session `{JsRuntime} t : stable same_orders (attach_session t).
Proof. unfold attach_session. stable_tac. Qed.

(** X2: the webhook, whatever the request and the state of the store, and
    the deferred update of the checkout route neither create nor delete an
    order, and leave the id, items, total amount, creation time and locale
    of every order as they are. *)
Theorem webhook_creates_no_order `{JsRuntime} (req : WebhookRequest) (w : World) :
  same_orders w (step (PostWebhook req) w) /\ same_orders w (step RunTask w).
Proof.
  split; cbn [step].
  - unfold serve; cbn [snd].
    apply (frame_trans _ (set_res None w)); [apply rows_only; reflexivity |].
    apply same_orders_webhook.
  - destruct (w_tasks w) as [| t rest]; [apply frame_refl |].
    apply (frame_trans _ (set_tasks rest w)); [apply rows_only; reflexivity |].
    apply same_orders_attach_session.
Qed.

(** ** Order ids stay unique *)

#[export] Instance keeps_unique_ids_Frame : Frame keeps_unique_ids.
Proof. split; unfold keeps_unique_ids; auto. Qed.

#[export] Instance keeps_unique_ids_RowsOnly : RowsOnly keeps_unique_ids.
Proof. intros w w' Hr Hu. unfold same_rows in Hr. now rewrite Hr. Qed.

#[export] Instance keeps_unique_ids_IgnoresReads : IgnoresReads keeps_unique_ids.
Proof. intros w w' Hr. apply rows_only. apply (ro_rows _ _ Hr). Qed.

Lemma map_id_core rs : map id rs = map (fun c => fst (fst (fst (fst c)))) (map core rs).
Proof. rewrite map_map. reflexivity. Qed.

Lemma same_orders_ids w w' : same_orders w w' -> map id (w_rows w') = map id (w_rows w).
Proof. intro Hs. rewrite !map_id_core. now rewrite Hs. Qed.

Lemma keeps_unique_ids_svc_updateOrderStatus `{JsRuntime} k st ad :
  stable keeps_unique_ids (OrderService.updateOrderStatus getDatabase k st ad).
Proof.
  intros w Hu. unfold unique_ids.
  rewrite (same_orders_ids _ _ (same_orders_svc_updateOrderStatus k st ad w)). exact Hu.
Qed.

Lemma existsb_has_id_In k rs :
  existsb (Supabase.has_id k) rs = false -> ~ In k (map id rs).
Proof.
  intros He Hin. apply in_map_iff in Hin as (r & Hr & Hin).
  assert (Ht : existsb (Supabase.has_id k) rs = true).
  { apply existsb_exists. exists r. split; [exact Hin |].
    unfold Supabase.has_id. rewrite Hr. apply String.eqb_refl. }
  congruence.
Qed.

Lemma insert_result_fresh r faults rs r' :
  insert_result r faults rs = inr r' ->
  r' = r /\ existsb (Supabase.has_id (id r)) rs = false.
Proof. intro Hi. apply insert_result_inr in Hi as (-> & _ & _ & Hfresh). now split. Qed.

Lemma keeps_unique_ids_svc_createOrder `{JsRuntime} orderData :
  stable keeps_unique_ids (OrderService.createOrder getDatabase orderData).
Proof.
  intro w. destruct (svc_createOrder_cases orderData w)
    as [(e & w' & -> & Hu) | (w' & -> & _ & Hi & Hrows & _)]; cbn [snd].
  - apply rows_only. apply Hu.
  - intro Hu. unfold unique_ids. rewrite Hrows, map_app. simpl.
    apply insert_result_fresh in Hi as [_ Hfresh].
    apply NoDup_app; [exact Hu | repeat constructor; intros [] |].
    intros x Hx [<- | []]. now apply (existsb_has_id_In _ _ Hfresh).
Qed.

#[export] Hint Resolve keeps_unique_ids_svc_updateOrderStatus
  keeps_unique_ids_svc_createOrder : stable.

Lemma keeps_unique_ids_step `{JsRuntime} op w : keeps_unique_ids w (step op w).
Proof.
  destruct op as [reqbody | req | | dt]; cbn [step].
  - unfold serve; cbn [snd].
    apply (frame_trans _ (set_res None w)); [apply rows_only; reflexivity |].
    assert (Hs : stable keeps_unique_ids (post_create_checkout_session reqbody)).
    { unfold post_create_checkout_session. intro w0. unfold checkStripeConfig.
      destruct (negb (w_stripe w0)); [leaf |].
      revert w0. change (stable keeps_unique_ids (create_checkout_session reqbody)).
      unfold create_checkout_session, checks, place_order, create_session, reuse_session.
      stable_tac. }
    apply Hs.
  - intro Hu. unfold unique_ids, serve; cbn [snd].
    now rewrite (same_orders_ids _ _ (same_orders_webhook req (set_res None w))).
  - destruct (w_tasks w) as [| t rest]; [apply frame_refl |].
    intro Hu. unfold unique_ids.
    now rewrite (same_orders_ids _ _ (same_orders_attach_session t (set_tasks rest w))).
  - apply rows_only. reflexivity.
Qed.

(** X3: when no two orders share an id, no sequence of requests, deferred
    updates and clock ticks makes two orders share one. *)
Theorem order_ids_stay_unique `{JsRuntime} (ops : list Op) (w : World) :
  unique_ids (w_rows w) -> unique_ids (w_rows (run ops w)).
Proof.
  unfold run. revert w.
  induction ops as [| op ops IH]; intros w Hu; simpl.
  - exact Hu.
  - apply IH. now apply keeps_unique_ids_step.
Qed.

(** ** A checkout request leaves the other orders alone *)

#[export] Instance only_last_Frame k : Frame (only_last k).
Proof.
  split; unfold only_last.
  - intros w before r Hw Hk _. now exists r.
  - intros a b c Hab Hbc before r Ha Hk Hfresh.
    destruct (Hab before r Ha Hk Hfresh) as (r1 & Hb & Hk1).
    exact (Hbc before r1 Hb Hk1 Hfresh).
Qed.

#[export] Instance only_last_RowsOnly k : RowsOnly (only_last k).
Proof.
  intros w w' Hr before r Hw Hk _. exists r. unfold same_rows in Hr.
  split; [now rewrite Hr | exact Hk].
Qed.

#[export] Instance only_last_IgnoresReads k : IgnoresReads (only_last k).
Proof. intros w w' Hr. apply rows_only. apply (ro_rows _ _ Hr). Qed.

Lemma only_last_svc_updateOrderStatus `{JsRuntime} k st ad :
  stable (only_last k) (OrderService.updateOrderStatus getDatabase k st ad).
Proof.
  intro w. destruct (svc_updateOrderStatus_run k st ad w) as [_ Hrun].
  destruct (update_goes_through k st ad w) as [r0 |].
  - destruct Hrun as (_ & Hrows & _). intros before r Hw Hk Hfresh.
    exists (SupabaseAdapter.update_row st (w_clock w) ad r).
    split; [| exact Hk].
    rewrite Hrows, Hw. now apply update_rows_fresh.
  - apply rows_only. apply Hrun.
Qed.

#[export] Hint Resolve only_last_svc_updateOrderStatus : stable.

Lemma only_last_create_session `{JsRuntime} order :
  stable (only_last (o_id order)) (create_session order).
Proof. unfold create_session. stable_tac. Qed.

#[export] Hint Resolve only_last_create_session : stable.

(** What [place_order] does to the table: nothing, or one order more. *)
Lemma place_order_adds_at_most_one `{JsRuntime} reqbody its total w out w' :
  place_order reqbody its total w = (out, w') ->
  w_rows w' = w_rows w
  \/ exists r, w_rows w' = (w_rows w ++ [r])%list
               /\ id r = hd "ORD-" (w_ids w)
               /\ existsb (Supabase.has_id (id r)) (w_rows w) = false.
Proof.
  unfold place_order. cbv zeta.
  set (orderData := {| od_items := its;
                       od_customerEmail := b_customerEmail reqbody;
                       od_customerName := b_customerName reqbody;
                       od_locale := _; od_totalAmount := _; od_status := _ |}).
  unfold try_catch at 1. unfold bind at 1. rewrite bind_logger. set (w1 := set_log _ w).
  unfold bind at 1.
  destruct (svc_createOrder_cases orderData w1)
    as [(e & wa & -> & Hu) | (wa & -> & _ & Hi & Hrows & _)].
  - unfold bind, logger, send, return_; projs.
    destruct (w_res wa); intros [= _ <-]; left; projs; apply Hu.
  - apply insert_result_fresh in Hi as [_ Hfresh].
    rewrite bind_logger. unfold ret at 1. cbv beta iota.
    set (order := mapSupabaseOrderToOrder (row_of orderData w1)).
    set (wb := set_log _ wa).
    change (w_rows w1) with (w_rows w) in Hrows, Hfresh.
    assert (Hhd : id (row_of orderData w1) = hd "ORD-" (w_ids w)) by reflexivity.
    match goal with
    | |- ?m wb = _ -> _ =>
        assert (Hrest : stable (only_last (o_id order)) m) by stable_tac;
        specialize (Hrest wb (w_rows w) (row_of orderData w1))
    end.
    intro Hrun. rewrite Hrun in Hrest. cbn [snd] in Hrest.
    destruct Hrest as (r' & Hr' & Hid); [exact Hrows | reflexivity | exact Hfresh |].
    right. exists r'. split; [exact Hr' |].
    rewrite Hid. split; [exact Hhd | exact Hfresh].
Qed.

Lemma route_adds_at_most_one `{JsRuntime} reqbody w0 out w' :
  post_create_checkout_session reqbody w0 = (out, w') ->
  w_rows w' = w_rows w0
  \/ exists r, w_rows w' = (w_rows w0 ++ [r])%list
               /\ id r = hd "ORD-" (w_ids w0)
               /\ existsb (Supabase.has_id (id r)) (w_rows w0) = false.
Proof.
  unfold post_create_checkout_session, checkStripeConfig.
  destruct (negb (w_stripe w0)).
  { unfold bind, send, return_. destruct (w_res w0); landed; left; reflexivity. }
  unfold create_checkout_session, try_catch. unfold bind at 1.
  pose proof (same_rows_checks reqbody w0) as Hrows.
  pose proof (co_ids _ _ (checks_only_checks reqbody w0)) as Hids.
  destruct (checks reqbody w0) as [[[its total] | e |] w1]; cbn [fst snd] in *.
  - unfold same_rows in Hrows. rewrite <- Hrows, <- Hids.
    destruct (place_order reqbody its total w1) as [[[] | e |] w2] eqn:Hp;
      pose proof (place_order_adds_at_most_one _ _ _ _ _ _ Hp) as Hcases.
    + landed. exact Hcases.
    + match goal with
      | |- ?h w2 = _ -> _ =>
          assert (Hh : stable same_rows h) by stable_tac; specialize (Hh w2)
      end.
      landed. unfold same_rows in Hh. rewrite Hh. exact Hcases.
    + landed. exact Hcases.
  - match goal with
    | |- ?h w1 = _ -> _ =>
        assert (Hh : stable same_rows h) by stable_tac; specialize (Hh w1)
    end.
    landed. left. unfold same_rows in Hh, Hrows. now rewrite Hh.
  - landed. left. exact Hrows.
Qed.

(** X4: a checkout request, whatever its body and the state of the store
    and of the provider, leaves every order of the table as it is; it adds
    nothing, or one order at the end, under the generated id, which no
    order had. *)
Theorem checkout_adds_at_most_one_order `{JsRuntime} (reqbody : CheckoutBody) (w : World) :
  let w' := step (PostCheckout reqbody) w in
  w_rows w' = w_rows w
  \/ exists r, w_rows w' = (w_rows w ++ [r])%list
               /\ id r = hd "ORD-" (w_ids w)
               /\ existsb (Supabase.has_id (id r)) (w_rows w) = false.
Proof.
  cbv zeta. cbn [step]. unfold serve; cbn [snd].
  exact (route_adds_at_most_one reqbody (set_res None w) _ _ (surjective_run _ _)).
Qed.

(** ** Updates on a healthy store *)

Lemma healthy_reads w w' : reads_only w w' -> healthy w -> healthy w'.
Proof.
  intros Hr [Hc Hf]. split; [rewrite (ro_connected _ _ Hr); exact Hc | now apply (ro_faults _ _ Hr)].
Qed.

Lemma healthy_log l w : healthy w -> healthy (set_log l w).
Proof. intro Hh. exact Hh. Qed.

Lemma row_by_id_filter k rs r :
  row_by_id k rs = Some r -> filter (Supabase.has_id k) rs = [r].
Proof.
  unfold row_by_id. destruct (filter _ rs) as [| x [| y l]]; try discriminate.
  now intros [= ->].
Qed.

Lemma row_by_session_filter k rs r :
  row_by_session k rs = Some r -> filter (Supabase.has_session k) rs = [r].
Proof.
  unfold row_by_session. destruct (filter _ rs) as [| x [| y l]]; try discriminate.
  now intros [= ->].
Qed.

(** On a healthy store, an update of an order that is there, is not
    skipped and does not take the session id of another order goes
    through. *)
Lemma update_goes_through_healthy k st ad w r :
  healthy w ->
  row_by_id k (w_rows w) = Some r ->
  skips st (Some r) = false ->
  Supabase.session_taken k (SupabaseAdapter.updateData_session ad) (w_rows w) = false ->
  update_goes_through k st ad w = Some r.
Proof.
  intros [Hc Hf] Hr Hskip Htaken. unfold update_goes_through.
  rewrite Hc. unfold resolve, answer. rewrite Hf. cbn [hd]. rewrite Hr, Hskip.
  unfold update_result, after_getOrderById, answer. rewrite Hf. cbn [hd]. rewrite Hr.
  unfold pop. rewrite Hf. rewrite Hf. cbn [hd]. rewrite Htaken.
  rewrite (row_by_id_filter _ _ _ Hr). reflexivity.
Qed.

(** The same, as a run of the service. *)
Lemma svc_update_healthy `{JsRuntime} k st ad w r :
  healthy w ->
  row_by_id k (w_rows w) = Some r ->
  skips st (Some r) = false ->
  Supabase.session_taken k (SupabaseAdapter.updateData_session ad) (w_rows w) = false ->
  let f := SupabaseAdapter.update_row st (w_clock w) ad in
  exists w',
    OrderService.updateOrderStatus getDatabase k st ad w = (Val (mapSupabaseOrderToOrder (f r)), w')
    /\ store_only w w'
    /\ w_rows w' = Supabase.update_rows k f (w_rows w)
    /\ w_trace w' = (w_trace w ++ [DbUpdate k st])%list.
Proof.
  intros Hh Hr Hskip Htaken f.
  destruct (svc_updateOrderStatus_run k st ad w) as [Hstore Hrun].
  rewrite (update_goes_through_healthy k st ad w r Hh Hr Hskip Htaken) in Hrun.
  destruct Hrun as (Hfst & Hrows & Htrace).
  exists (snd (OrderService.updateOrderStatus getDatabase k st ad w)).
  split; [rewrite surjective_run at 1; now rewrite Hfst |].
  split; [exact Hstore | split; assumption].
Qed.

(** An update of an order that is not there writes nothing. *)
Lemma svc_update_missing `{JsRuntime} k st ad w :
  row_by_id k (w_rows w) = None ->
  untouched w (snd (OrderService.updateOrderStatus getDatabase k st ad w)).
Proof.
  intro Hr. destruct (svc_updateOrderStatus_run k st ad w) as [_ Hrun].
  destruct (update_goes_through k st ad w) as [r |] eqn:Hu; [| exact Hrun].
  unfold update_goes_through in Hu.
  destruct (w_connected w); [| discriminate].
  destruct (skips _ _); [discriminate |].
  destruct (update_result _ _ _ _) as [msg | r'] eqn:Hres; [discriminate |].
  apply update_result_inr in Hres. congruence.
Qed.

(** ** What the webhook writes *)

(** A verified request whose handler runs to its end is answered with
    [{ received: true }]. *)
Lemma webhook_answers `{JsRuntime} req ev w w2 :
  w_stripe w = true -> w_webhook_secret w = true ->
  constructEvent req = inr ev ->
  dispatch ev (set_log (w_log w ++ [(info, "Received webhook event")]) (set_res None w))
  = (Val tt, w2) ->
  w_res w2 = None ->
  serve (webhook req) w
  = (Some (mkResponse 200 (Received None None)),
     set_res (Some (mkResponse 200 (Received None None))) w2).
Proof.
  intros Hs Hk Hev Hd Hres. unfold serve.
  rewrite (webhook_verified req ev) by (simpl; assumption).
  rewrite bind_logger. erewrite bind_val by exact Hd.
  unfold send. rewrite Hres. reflexivity.
Qed.

Lemma healthy_svc_getOrderById `{JsRuntime} k w r :
  healthy w -> row_by_id k (w_rows w) = Some r ->
  exists w', OrderService.getOrderById getDatabase k w = (Val (Some (mapSupabaseOrderToOrder r)), w')
             /\ reads_only w w'.
Proof.
  intros [Hc Hf] Hr. exists (snd (OrderService.getOrderById getDatabase k w)).
  split; [| apply reads_svc_getOrderById].
  rewrite surjective_run at 1. rewrite svc_getOrderById_fst, Hc.
  unfold resolve, answer. rewrite Hf. cbn [hd]. now rewrite Hr.
Qed.

Lemma healthy_svc_findOrderByStripeSessionId `{JsRuntime} k w r :
  healthy w -> row_by_session k (w_rows w) = Some r ->
  exists w', OrderService.findOrderByStripeSessionId getDatabase k w
             = (Val (Some (mapSupabaseOrderToOrder r)), w')
             /\ reads_only w w'.
Proof.
  intros [Hc Hf] Hr. exists (snd (OrderService.findOrderByStripeSessionId getDatabase k w)).
  split; [| apply reads_svc_findOrderByStripeSessionId].
  rewrite surjective_run at 1. rewrite svc_findOrderByStripeSessionId_fst, Hc.
  unfold answer. rewrite Hf. cbn [hd]. now rewrite Hr.
Qed.

Lemma skips_not_paid st r : status r <> paid -> skips st (Some r) = false.
Proof.
  intro Hn. unfold skips. destruct (status r), st; try reflexivity. now elim Hn.
Qed.

Lemma skips_failed r : skips failed (Some r) = false.
Proof. unfold skips. now rewrite andb_false_r. Qed.

Lemma skips_pending r : skips pending (Some r) = false.
Proof. unfold skips. now rewrite andb_false_r. Qed.

Lemma handle_completed_by_id `{JsRuntime} session k r w :
  healthy w ->
  s_metadata_orderId session = Some k -> k <> "" ->
  row_by_id k (w_rows w) = Some r -> status r <> paid ->
  Supabase.session_taken k
    (SupabaseAdapter.updateData_session (paid_data session (w_clock w))) (w_rows w) = false ->
  exists w',
    handle_completed session w = (Val tt, w')
    /\ w_res w' = w_res w
    /\ w_rows w'
       = Supabase.update_rows k
           (SupabaseAdapter.update_row paid (w_clock w) (paid_data session (w_clock w)))
           (w_rows w)
    /\ w_trace w' = (w_trace w ++ [DbUpdate k paid])%list.
Proof.
  intros Hh Hmeta Hk Hr Hst Htaken.
  unfold handle_completed. rewrite bind_logger. set (w1 := set_log _ w).
  unfold try_catch. rewrite bind_logger. set (w2 := set_log _ w1).
  rewrite Hmeta. apply String.eqb_neq in Hk. rewrite Hk. cbn [negb].
  unfold completed_by_metadata.
  destruct (healthy_svc_getOrderById k w2 r Hh Hr) as (w3 & Hget & Hreads).
  unfold bind at 1. unfold bind at 1. rewrite Hget.
  cbn [mapSupabaseOrderToOrder o_status o_stripeSessionId].
  assert (Hnp : Status_eqb (status r) paid = false).
  { destruct (Status_eqb (status r) paid) eqn:E; [| reflexivity].
    apply Status_eqb_eq in E. contradiction. }
  rewrite Hnp, andb_false_r. cbn [when]. rewrite bind_ret. unfold ret at 1. cbv beta iota.
  rewrite bind_logger. set (w4 := set_log _ w3). rewrite bind_now.
  assert (Hh4 : healthy w4) by exact (healthy_reads w2 w3 Hreads Hh).
  assert (Hrows4 : w_rows w4 = w_rows w) by apply (ro_rows _ _ Hreads).
  assert (Hclock4 : w_clock w4 = w_clock w) by apply (ro_clock _ _ Hreads).
  assert (Htrace4 : w_trace w4 = w_trace w) by apply (ro_trace _ _ Hreads).
  assert (Hres4 : w_res w4 = w_res w) by apply (ro_res _ _ Hreads).
  rewrite Hclock4.
  destruct (svc_update_healthy k paid (paid_data session (w_clock w)) w4 r)
    as (w5 & Hupd & Hstore & Hrows5 & Htrace5);
    [exact Hh4 | now rewrite Hrows4 | now apply skips_not_paid | now rewrite Hrows4 |].
  unfold bind at 1. rewrite Hupd. rewrite Hclock4 in Hrows5.
  eexists. split; [reflexivity |]. projs.
  split; [rewrite (so_res _ _ Hstore); exact Hres4 |].
  split; [rewrite Hrows5, Hrows4; reflexivity | rewrite Htrace5, Htrace4; reflexivity].
Qed.

Lemma session_free_taken sid k rs :
  session_free sid k rs -> Supabase.session_taken k (Some sid) rs = false.
Proof.
  intro Hfree. unfold Supabase.session_taken.
  destruct (existsb _ rs) eqn:E; [| reflexivity].
  apply existsb_exists in E as (r & Hin & Hr).
  apply andb_true_iff in Hr as [Hid Hs].
  unfold Supabase.has_session, opt_string_eqb in Hs.
  destruct (stripe_session_id r) as [s |] eqn:Hsid; [| discriminate].
  apply String.eqb_eq in Hs. subst s.
  specialize (Hfree r Hin Hsid). unfold Supabase.has_id in Hid.
  rewrite Hfree, String.eqb_refl in Hid. discriminate.
Qed.

Lemma session_taken_updateData sid k ad rs :
  ad_stripeSessionId ad = Some sid -> session_free sid k rs ->
  Supabase.session_taken k (SupabaseAdapter.updateData_session ad) rs = false.
Proof.
  intros Had Hfree. unfold SupabaseAdapter.updateData_session. rewrite Had.
  destruct (truthy_str (Some sid)); [now apply session_free_taken | reflexivity].
Qed.

(** X5: a verified [checkout.session.completed] event that names, in its
    metadata, an order of a healthy store that is not paid yet (pending or
    failed), and whose session id no other order carries: the order is
    rewritten with status [paid], the amount of the event divided by 100,
    the time of the request and the session id of the event; the other
    orders are as they were; the answer is 200 [{ received: true }]. *)
Theorem completed_marks_order_paid `{JsRuntime}
  (req : WebhookRequest) (session : Session) (k : string) (r : Row) (w : World) :
  w_stripe w = true -> w_webhook_secret w = true ->
  constructEvent req = inr (checkout_session_completed session) ->
  healthy w ->
  s_metadata_orderId session = Some k -> k <> "" ->
  row_by_id k (w_rows w) = Some r -> status r <> paid ->
  session_free (s_id session) k (w_rows w) ->
  let t := w_clock w in
  let r' := SupabaseAdapter.update_row paid t (paid_data session t) r in
  let res := serve (webhook req) w in
  fst res = Some (mkResponse 200 (Received None None))
  /\ w_rows (snd res)
     = Supabase.update_rows k (SupabaseAdapter.update_row paid t (paid_data session t)) (w_rows w)
  /\ row_by_id k (w_rows (snd res)) = Some r'
  /\ status r' = paid
  /\ amount_paid r'
     = Some (match s_amount_total session with Some a => a | None => 0 end / 100)%float
  /\ paid_at r' = Some t
  /\ (s_id session <> "" -> stripe_session_id r' = Some (s_id session))
  /\ w_trace (snd res) = (w_trace w ++ [DbUpdate k paid])%list.
Proof.
  intros Hs Hk Hev Hh Hmeta Hne Hr Hst Hfree t r' res.
  set (w1 := set_log (w_log w ++ [(info, "Received webhook event")]) (set_res None w)).
  destruct (handle_completed_by_id session k r w1 Hh Hmeta Hne Hr Hst)
    as (w2 & Hrun & Hres & Hrows & Htrace).
  { apply (session_taken_updateData (s_id session)); [reflexivity | exact Hfree]. }
  unfold res. rewrite (webhook_answers req _ w w2 Hs Hk Hev Hrun Hres). cbn [fst snd]. projs.
  split; [reflexivity |].
  split; [exact Hrows |].
  split; [rewrite Hrows; now apply row_by_id_update_rows |].
  split; [reflexivity |]. split; [reflexivity |]. split; [reflexivity |].
  split; [| exact Htrace].
  intro Hsid. unfold r', SupabaseAdapter.update_row, SupabaseAdapter.if_truthy;
    cbn [stripe_session_id paid_data ad_stripeSessionId truthy_str].
  apply String.eqb_neq in Hsid. now rewrite Hsid.
Qed.

Lemma handle_completed_by_session `{JsRuntime} session r w :
  healthy w ->
  truthy_str (s_metadata_orderId session) = false ->
  row_by_session (s_id session) (w_rows w) = Some r ->
  row_by_id (id r) (w_rows w) = Some r -> status r <> paid ->
  exists w',
    handle_completed session w = (Val tt, w')
    /\ w_res w' = w_res w
    /\ w_rows w'
       = Supabase.update_rows (id r)
           (SupabaseAdapter.update_row paid (w_clock w) (paid_data_fallback session (w_clock w)))
           (w_rows w)
    /\ w_trace w' = (w_trace w ++ [DbUpdate (id r) paid])%list.
Proof.
  intros Hh Hmeta Hsess Hr Hst.
  unfold handle_completed. rewrite bind_logger. set (w1 := set_log _ w).
  unfold try_catch. rewrite bind_logger. set (w2 := set_log _ w1).
  assert (Hpath : match s_metadata_orderId session with
                  | Some orderId =>
                      if negb (String.eqb orderId "")
                      then completed_by_metadata session orderId
                      else completed_by_session session
                  | None => completed_by_session session
                  end = completed_by_session session).
  { unfold truthy_str in Hmeta. destruct (s_metadata_orderId session) as [o |]; [| reflexivity].
    now rewrite Hmeta. }
  rewrite Hpath. unfold completed_by_session.
  rewrite bind_logger. set (w3 := set_log _ w2).
  destruct (healthy_svc_findOrderByStripeSessionId (s_id session) w3 r Hh Hsess)
    as (w4 & Hfind & Hreads).
  unfold bind at 1. rewrite Hfind. cbn [mapSupabaseOrderToOrder o_id].
  rewrite bind_logger. set (w5 := set_log _ w4). rewrite bind_now.
  assert (Hh5 : healthy w5) by exact (healthy_reads w3 w4 Hreads Hh).
  assert (Hrows5 : w_rows w5 = w_rows w) by apply (ro_rows _ _ Hreads).
  assert (Hclock5 : w_clock w5 = w_clock w) by apply (ro_clock _ _ Hreads).
  assert (Htrace5 : w_trace w5 = w_trace w) by apply (ro_trace _ _ Hreads).
  assert (Hres5 : w_res w5 = w_res w) by apply (ro_res _ _ Hreads).
  rewrite Hclock5.
  destruct (svc_update_healthy (id r) paid (paid_data_fallback session (w_clock w)) w5 r)
    as (w6 & Hupd & Hstore & Hrows6 & Htrace6);
    [exact Hh5 | now rewrite Hrows5 | now apply skips_not_paid | reflexivity |].
  unfold bind at 1. rewrite Hupd. rewrite Hclock5 in Hrows6.
  eexists. split; [reflexivity |]. projs.
  split; [rewrite (so_res _ _ Hstore); exact Hres5 |].
  split; [rewrite Hrows6, Hrows5; reflexivity | rewrite Htrace6, Htrace5; reflexivity].
Qed.

(** X6: a verified [checkout.session.completed] event without an order id
    in its metadata, on a healthy store where exactly one order carries the
    session id of the event and that order is not paid yet: the order gets
    status [paid], the amount of the event divided by 100 and the time of
    the request, and keeps its customer, its shipping address
    and its session id; the answer is 200 [{ received: true }]. *)
Theorem completed_marks_order_paid_by_session `{JsRuntime}
  (req : WebhookRequest) (session : Session) (r : Row) (w : World) :
  w_stripe w = true -> w_webhook_secret w = true ->
  constructEvent req = inr (checkout_session_completed session) ->
  healthy w ->
  truthy_str (s_metadata_orderId session) = false ->
  row_by_session (s_id session) (w_rows w) = Some r ->
  row_by_id (id r) (w_rows w) = Some r -> status r <> paid ->
  let t := w_clock w in
  let r' := SupabaseAdapter.update_row paid t (paid_data_fallback session t) r in
  let res := serve (webhook req) w in
  fst res = Some (mkResponse 200 (Received None None))
  /\ w_rows (snd res)
     = Supabase.update_rows (id r)
         (SupabaseAdapter.update_row paid t (paid_data_fallback session t)) (w_rows w)
  /\ row_by_id (id r) (w_rows (snd res)) = Some r'
  /\ status r' = paid
  /\ amount_paid r'
     = Some (match s_amount_total session with Some a => a | None => 0 end / 100)%float
  /\ paid_at r' = Some t
  /\ (customer_email r', customer_name r', customer_phone r') 
     = (customer_email r, customer_name r, customer_phone r)
  /\ (shipping_name r', shipping_line1 r', shipping_city r', shipping_country r')
     = (shipping_name r, shipping_line1 r, shipping_city r, shipping_country r)
  /\ stripe_session_id r' = stripe_session_id r
  /\ w_trace (snd res) = (w_trace w ++ [DbUpdate (id r) paid])%list.
Proof.
  intros Hs Hk Hev Hh Hmeta Hsess Hr Hst t r' res.
  set (w1 := set_log (w_log w ++ [(info, "Received webhook event")]) (set_res None w)).
  destruct (handle_completed_by_session session r w1 Hh Hmeta Hsess Hr Hst)
    as (w2 & Hrun & Hres & Hrows & Htrace).
  unfold res. rewrite (webhook_answers req _ w w2 Hs Hk Hev Hrun Hres). cbn [fst snd]. projs.
  split; [reflexivity |].
  split; [exact Hrows |].
  split; [rewrite Hrows; now apply row_by_id_update_rows |].
  repeat (split; [reflexivity |]). exact Htrace.
Qed.

(** ** Events about orders the table does not have *)

#[export] Instance absent_untouched_Frame k : Frame (absent_untouched k).
Proof.
  split; unfold absent_untouched.
  - intros w _. apply frame_refl.
  - intros a b c Hab Hbc Ha. specialize (Hab Ha).
    eapply frame_trans; [exact Hab |]. apply Hbc.
    destruct Hab as [Hrows _]. now rewrite Hrows.
Qed.

#[export] Instance absent_untouched_IgnoresReads k : IgnoresReads (absent_untouched k).
Proof. intros w w' Hr _. now apply ignores_reads. Qed.

Lemma absent_untouched_send k c b : stable (absent_untouched k) (send c b).
Proof. intros w _. apply untouched_send. Qed.

Lemma absent_untouched_svc_update `{JsRuntime} k st ad :
  stable (absent_untouched k) (OrderService.updateOrderStatus getDatabase k st ad).
Proof. intros w Hk. now apply svc_update_missing. Qed.

#[export] Hint Resolve absent_untouched_send absent_untouched_svc_update : stable.

Lemma completed_by_metadata_absent `{JsRuntime} session k :
  stable (absent_untouched k) (completed_by_metadata session k).
Proof. unfold completed_by_metadata. stable_tac. Qed.

Lemma untouched_logger l s : stable untouched (logger l s).
Proof. apply stable_reads. apply reads_logger. Qed.

Lemma completed_by_session_absent `{JsRuntime} session w :
  row_by_session (s_id session) (w_rows w) = None ->
  untouched w (snd (completed_by_session session w)).
Proof.
  intro Hnone. unfold completed_by_session. rewrite bind_logger. set (w1 := set_log _ w).
  assert (Hfst : fst (OrderService.findOrderByStripeSessionId getDatabase (s_id session) w1)
                 = Val None).
  { rewrite svc_findOrderByStripeSessionId_fst.
    change (w_rows w1) with (w_rows w). rewrite Hnone. unfold answer.
    destruct (w_connected w1); [| reflexivity]. destruct (hd false _); reflexivity. }
  pose proof (reads_svc_findOrderByStripeSessionId (s_id session) w1) as Hreads.
  erewrite bind_val by (rewrite surjective_run, Hfst; reflexivity).
  unfold logger; projs.
  split; [apply (ro_rows _ _ Hreads) | apply (ro_trace _ _ Hreads)].
Qed.

Lemma handle_completed_absent `{JsRuntime} session w :
  order_of_event session (w_rows w) = None ->
  untouched w (snd (handle_completed session w)).
Proof.
  intro Hnone. unfold handle_completed. rewrite bind_logger. set (w1 := set_log _ w).
  apply (frame_trans w w1); [split; reflexivity |].
  apply try_catch_rel; [typeclasses eauto | | intros e _; leaf].
  rewrite bind_logger. set (w2 := set_log _ w1).
  apply (frame_trans w1 w2); [split; reflexivity |].
  unfold order_of_event in Hnone.
  destruct (s_metadata_orderId session) as [k |].
  - destruct (String.eqb k ""); cbn [negb].
    + now apply completed_by_session_absent.
    + now apply (completed_by_metadata_absent session k w2).
  - now apply completed_by_session_absent.
Qed.

(** X7: a verified [checkout.session.completed] event whose order the
    table does not have (no order with the id of the metadata, or, without
    an id, no order with the session id of the event) is acknowledged with
    200 and dropped: no order is written, whatever the state of the
    store. *)
Theorem completed_for_unknown_order_is_dropped `{JsRuntime}
  (req : WebhookRequest) (session : Session) (w : World) :
  w_stripe w = true -> w_webhook_secret w = true ->
  constructEvent req = inr (checkout_session_completed session) ->
  order_of_event session (w_rows w) = None ->
  (exists message warning,
      fst (serve (webhook req) w) = Some (mkResponse 200 (Received message warning)))
  /\ untouched w (snd (serve (webhook req) w)).
Proof.
  intros Hs Hk Hev Hnone.
  split; [exact (verified_request_acknowledged req _ w Hs Hk Hev) |].
  destruct (completed_delivery req session w Hs Hk Hev)
    as (w1 & Hrows & Htrace & _ & _ & Hu).
  eapply frame_trans; [| exact Hu].
  apply (frame_trans w w1); [split; assumption |].
  apply handle_completed_absent. now rewrite Hrows.
Qed.

(** ** Failed payments *)

Lemma handle_async_payment_failed_run `{JsRuntime} failedSession k r w :
  healthy w ->
  s_metadata_orderId failedSession = Some k -> k <> "" ->
  row_by_id k (w_rows w) = Some r ->
  let f := SupabaseAdapter.update_row failed (w_clock w)
             (failed_data "Payment failed" (Some (w_clock w))) in
  exists w',
    handle_async_payment_failed failedSession w = (Val tt, w')
    /\ w_res w' = w_res w
    /\ w_rows w' = Supabase.update_rows k f (w_rows w)
    /\ w_trace w' = (w_trace w ++ [DbUpdate k failed])%list.
Proof.
  intros Hh Hmeta Hk Hr f.
  unfold handle_async_payment_failed. rewrite bind_logger. set (w1 := set_log _ w).
  unfold try_catch. cbv zeta. rewrite Hmeta.
  apply String.eqb_neq in Hk. rewrite Hk. cbn [negb when]. rewrite bind_now.
  destruct (svc_update_healthy k failed (failed_data "Payment failed" (Some (w_clock w))) w1 r)
    as (w2 & Hupd & Hstore & Hrows & Htrace);
    [exact Hh | exact Hr | apply skips_failed | reflexivity |].
  change (w_clock w1) with (w_clock w).
  unfold bind at 1. rewrite Hupd.
  eexists. split; [reflexivity |]. projs.
  split; [exact (so_res _ _ Hstore) |]. split; [exact Hrows | exact Htrace].
Qed.

(** X8: a verified [checkout.session.async_payment_failed] event that
    names an order of a healthy store in its metadata marks that order
    [failed], with error message "Payment failed" and the time of the
    request, whatever status the order had (paid included); the answer is
    200 [{ received: true }]. *)
Theorem async_payment_failed_marks_order_failed `{JsRuntime}
  (req : WebhookRequest) (failedSession : Session) (k : string) (r : Row) (w : World) :
  w_stripe w = true -> w_webhook_secret w = true ->
  constructEvent req = inr (checkout_session_async_payment_failed failedSession) ->
  healthy w ->
  s_metadata_orderId failedSession = Some k -> k <> "" ->
  row_by_id k (w_rows w) = Some r ->
  let t := w_clock w in
  let f := SupabaseAdapter.update_row failed t (failed_data "Payment failed" (Some t)) in
  let res := serve (webhook req) w in
  fst res = Some (mkResponse 200 (Received None None))
  /\ w_rows (snd res) = Supabase.update_rows k f (w_rows w)
  /\ row_by_id k (w_rows (snd res)) = Some (f r)
  /\ status (f r) = failed
  /\ error_message (f r) = Some "Payment failed"
  /\ failed_at (f r) = Some t
  /\ (amount_paid (f r), paid_at (f r), stripe_session_id (f r))
     = (amount_paid r, paid_at r, stripe_session_id r)
  /\ w_trace (snd res) = (w_trace w ++ [DbUpdate k failed])%list.
Proof.
  intros Hs Hk Hev Hh Hmeta Hne Hr t f res.
  set (w1 := set_log (w_log w ++ [(info, "Received webhook event")]) (set_res None w)).
  destruct (handle_async_payment_failed_run failedSession k r w1 Hh Hmeta Hne Hr)
    as (w2 & Hrun & Hres & Hrows & Htrace).
  unfold res. rewrite (webhook_answers req _ w w2 Hs Hk Hev Hrun Hres). cbn [fst snd]. projs.
  split; [reflexivity |].
  split; [exact Hrows |].
  split; [rewrite Hrows; now apply row_by_id_update_rows |].
  repeat (split; [reflexivity |]). exact Htrace.
Qed.

Lemma handle_payment_failed_run `{JsRuntime} failedPayment r w :
  healthy w ->
  row_by_session (pi_id failedPayment) (w_rows w) = Some r ->
  row_by_id (id r) (w_rows w) = Some r ->
  let msg := match or_str (pi_last_payment_error failedPayment) None with
             | Some m => m
             | None => "Payment failed"
             end in
  let f := SupabaseAdapter.update_row failed (w_clock w) (failed_data msg (Some (w_clock w))) in
  exists w',
    handle_payment_failed failedPayment w = (Val tt, w')
    /\ w_res w' = w_res w
    /\ w_rows w' = Supabase.update_rows (id r) f (w_rows w)
    /\ w_trace w' = (w_trace w ++ [DbUpdate (id r) failed])%list.
Proof.
  intros Hh Hsess Hr msg f.
  unfold handle_payment_failed. rewrite bind_logger. set (w1 := set_log _ w).
  unfold try_catch.
  destruct (healthy_svc_findOrderByStripeSessionId (pi_id failedPayment) w1 r Hh Hsess)
    as (w2 & Hfind & Hreads).
  unfold bind at 1. rewrite Hfind. cbn [mapSupabaseOrderToOrder o_id]. rewrite bind_now.
  assert (Hh2 : healthy w2) by exact (healthy_reads w1 w2 Hreads Hh).
  assert (Hrows2 : w_rows w2 = w_rows w) by apply (ro_rows _ _ Hreads).
  assert (Hclock2 : w_clock w2 = w_clock w) by apply (ro_clock _ _ Hreads).
  assert (Htrace2 : w_trace w2 = w_trace w) by apply (ro_trace _ _ Hreads).
  assert (Hres2 : w_res w2 = w_res w) by apply (ro_res _ _ Hreads).
  rewrite Hclock2. fold msg.
  destruct (svc_update_healthy (id r) failed (failed_data msg (Some (w_clock w))) w2 r)
    as (w3 & Hupd & Hstore & Hrows3 & Htrace3);
    [exact Hh2 | now rewrite Hrows2 | apply skips_failed | reflexivity |].
  unfold bind at 1. rewrite Hupd. rewrite Hclock2 in Hrows3.
  eexists. split; [reflexivity |]. projs.
  split; [rewrite (so_res _ _ Hstore); exact Hres2 |].
  split; [rewrite Hrows3, Hrows2; reflexivity | rewrite Htrace3, Htrace2; reflexivity].
Qed.

(** X9: a verified [payment_intent.payment_failed] event whose payment
    intent id is the [stripe_session_id] of exactly one order of a healthy
    store marks that order [failed], with the message of the intent's last
    payment error (or "Payment failed" without one) and the time of the
    request, whatever status the order had; the answer is 200
    [{ received: true }]. *)
Theorem payment_failed_marks_order_failed `{JsRuntime}
  (req : WebhookRequest) (failedPayment : PaymentIntent) (r : Row) (w : World) :
  w_stripe w = true -> w_webhook_secret w = true ->
  constructEvent req = inr (payment_intent_payment_failed failedPayment) ->
  healthy w ->
  row_by_session (pi_id failedPayment) (w_rows w) = Some r ->
  row_by_id (id r) (w_rows w) = Some r ->
  let t := w_clock w in
  let msg := match pi_last_payment_error failedPayment with
             | Some m => if String.eqb m "" then "Payment failed" else m
             | None => "Payment failed"
             end in
  let f := SupabaseAdapter.update_row failed t (failed_data msg (Some t)) in
  let res := serve (webhook req) w in
  fst res = Some (mkResponse 200 (Received None None))
  /\ w_rows (snd res) = Supabase.update_rows (id r) f (w_rows w)
  /\ row_by_id (id r) (w_rows (snd res)) = Some (f r)
  /\ status (f r) = failed
  /\ error_message (f r) = Some msg
  /\ failed_at (f r) = Some t
  /\ w_trace (snd res) = (w_trace w ++ [DbUpdate (id r) failed])%list.
Proof.
  intros Hs Hk Hev Hh Hsess Hr t msg f res.
  set (w1 := set_log (w_log w ++ [(info, "Received webhook event")]) (set_res None w)).
  destruct (handle_payment_failed_run failedPayment r w1 Hh Hsess Hr)
    as (w2 & Hrun & Hres & Hrows & Htrace).
  assert (Hmsg : match or_str (pi_last_payment_error failedPayment) None with
                 | Some m => m
                 | None => "Payment failed"
                 end = msg).
  { unfold msg, or_str, truthy_str. destruct (pi_last_payment_error failedPayment) as [m |];
      [| reflexivity]. destruct (String.eqb m ""); reflexivity. }
  rewrite Hmsg in Hrows. change (w_clock w1) with t in Hrows. fold f in Hrows.
  unfold res. rewrite (webhook_answers req _ w w2 Hs Hk Hev Hrun Hres). cbn [fst snd]. projs.
  split; [reflexivity |].
  split; [exact Hrows |].
  split; [rewrite Hrows; now apply row_by_id_update_rows |].
  split; [reflexivity |].
  split.
  { unfold f, SupabaseAdapter.update_row, failed_data, SupabaseAdapter.if_truthy;
      cbn [error_message ad_error truthy_str].
    assert (Hne : String.eqb msg "" = false).
    { unfold msg. destruct (pi_last_payment_error failedPayment) as [m |]; [| reflexivity].
      destruct (String.eqb m "") eqn:E; [reflexivity | exact E]. }
    now rewrite Hne. }
  split; [reflexivity | exact Htrace].
Qed.

(** ** Events that are only logged *)

(** X10: a verified [payment_intent.succeeded] event, or one of a type the
    handler does not know, is answered with 200 [{ received: true }] and
    changes nothing but the log: the table, the provider, the clock and
    the pending work are as before. *)
Theorem logged_only_events `{JsRuntime} (req : WebhookRequest) (w : World) :
  w_stripe w = true -> w_webhook_secret w = true ->
  (exists paymentIntent, constructEvent req = inr (payment_intent_succeeded paymentIntent))
  \/ (exists type, constructEvent req = inr (unhandled_event type)) ->
  let res := serve (webhook req) w in
  fst res = Some (mkResponse 200 (Received None None))
  /\ reads_only (set_res (fst res) w) (snd res).
Proof.
  intros Hs Hk Hev res.
  assert (Hrun : exists ev l s,
             constructEvent req = inr ev
             /\ dispatch ev = logger l s).
  { destruct Hev as [[p Hev] | [ty Hev]]; eexists; eexists; eexists; split;
      try exact Hev; reflexivity. }
  destruct Hrun as (ev & l & s & Hev' & Hd).
  set (w1 := set_log (w_log w ++ [(info, "Received webhook event")]) (set_res None w)).
  assert (Hdis : dispatch ev w1 = (Val tt, set_log (w_log w1 ++ [(l, s)]) w1))
    by (rewrite Hd; reflexivity).
  unfold res. rewrite (webhook_answers req ev w _ Hs Hk Hev' Hdis eq_refl).
  cbn [fst snd]. split; [reflexivity |]. constructor; try reflexivity.
  intro Hf. exact Hf.
Qed.

(** ** The duplicate-pending guard, when it does not fire *)

Lemma svc_getOrdersByEmail_total `{JsRuntime} email w :
  exists w', OrderService.getOrdersByEmail getDatabase email w = (Val (orders_for email w), w')
             /\ reads_only w w'
             /\ w_faults w' = after_lookup email w.
Proof.
  exists (snd (OrderService.getOrdersByEmail getDatabase email w)).
  split; [| split; [apply reads_svc_getOrdersByEmail |]].
  - rewrite surjective_run at 1. f_equal.
    unfold OrderService.getOrdersByEmail, try_catch; cbn [db_getOrdersByEmail getDatabase
      SupabaseAdapter.adapter].
    rewrite db_getOrdersByEmail_run. unfold orders_for, known_orders.
    destruct (w_connected w); [| destruct (to_string email); reflexivity].
    destruct (to_string email) as [err | e]; [reflexivity |].
    destruct (hd false (w_faults w)); reflexivity.
  - unfold OrderService.getOrdersByEmail, try_catch; cbn [db_getOrdersByEmail getDatabase
      SupabaseAdapter.adapter].
    rewrite db_getOrdersByEmail_run. unfold after_lookup.
    destruct (w_connected w); [| reflexivity].
    destruct (to_string email) as [err | e]; [reflexivity |].
    destruct (hd false (w_faults w)); cbn [snd]; projs; apply pop_faults.
Qed.

Lemma find_recent_pending_none `{JsRuntime} its t orders :
  Forall (fun o => recent_pending its t o = inr false) orders ->
  find_recent_pending its t orders = inr None.
Proof.
  induction 1 as [| o rest Ho _ IH]; simpl; [reflexivity |]. now rewrite Ho.
Qed.

(** The checks up to the lookup of the customer's orders. *)
Lemma checks_valid_cart `{JsRuntime} reqbody total w :
  valid_cart reqbody total ->
  exists w1,
    reads_only w w1
    /\ w_faults w1 = after_lookup (email_key reqbody) w
    /\ checks reqbody w
       = (recentPendingOrder <-
            of_sum (find_recent_pending (elements (b_items reqbody)) (w_clock w)
                      (orders_for (email_key reqbody) w)) ;;
          reuse_session recentPendingOrder ;;
          ret (elements (b_items reqbody), total)) w1.
Proof.
  intros (Harr & Hne & Hvalid & Htotal & Hpos).
  set (its := elements (b_items reqbody)) in *.
  assert (Hlen : Nat.eqb (List.length its) 0 = false)
    by (destruct its; [now elim Hne | reflexivity]).
  assert (Htruthy : JS.truthy (b_items reqbody) = true)
    by (destruct (b_items reqbody); try discriminate; reflexivity).
  set (w3 := set_log
               (w_log (set_log (w_log (set_log (w_log w ++ [(info, "Creating checkout session")]) w)
                                ++ [(debug, "Checkout session request body")])
                         (set_log (w_log w ++ [(info, "Creating checkout session")]) w))
                ++ [(debug, "Parsed checkout data")])
               (set_log (w_log (set_log (w_log w ++ [(info, "Creating checkout session")]) w)
                         ++ [(debug, "Checkout session request body")])
                  (set_log (w_log w ++ [(info, "Creating checkout session")]) w))).
  destruct (svc_getOrdersByEmail_total (email_key reqbody) w3) as (w4 & Hget & Hreads & Hfaults).
  exists w4. split.
  { apply (frame_trans w w3); [| exact Hreads]. constructor; try reflexivity. auto. }
  split; [exact Hfaults |].
  unfold checks. cbv zeta. fold its.
  rewrite !bind_logger. fold w3.
  rewrite Htruthy, Harr, Hlen. cbn [negb orb when]. rewrite bind_ret.
  erewrite bind_val by (apply validate_items_ok; exact Hvalid).
  rewrite Htotal. cbn [of_sum]. rewrite bind_ret.
  rewrite Hpos. cbn [when]. rewrite bind_ret.
  erewrite bind_val by exact Hget.
  rewrite bind_now. rewrite (ro_clock _ _ Hreads).
  reflexivity.
Qed.

Lemma checks_pass `{JsRuntime} reqbody total w :
  valid_cart reqbody total ->
  Forall (fun o => recent_pending (elements (b_items reqbody)) (w_clock w) o = inr false)
         (orders_for (email_key reqbody) w) ->
  exists w1,
    checks reqbody w = (Val (elements (b_items reqbody), total), w1)
    /\ reads_only w w1
    /\ w_faults w1 = after_lookup (email_key reqbody) w.
Proof.
  intros Hvalid Hnone.
  destruct (checks_valid_cart reqbody total w Hvalid) as (w1 & Hreads & Hfaults & Hrun).
  exists w1. split; [| split; assumption].
  rewrite Hrun, (find_recent_pending_none _ _ _ Hnone). reflexivity.
Qed.

(** ** A checkout that goes through *)








(** ** A checkout on a store that is down *)

(** X14: with the store not connected, a checkout request with a valid cart
    is answered 500 "Failed to create order" with the adapter's message;
    no order is written and the provider is not contacted.  (The lookup of
    the duplicate guard fails first and is taken for "no orders".) *)
Theorem checkout_on_disconnected_store `{JsRuntime}
  (reqbody : CheckoutBody) (total : float) (w : World) :
  w_stripe w = true ->
  valid_cart reqbody total ->
  w_connected w = false ->
  let res := serve (post_create_checkout_session reqbody) w in
  fst res
  = Some (mkResponse 500
            (ErrorBody "Failed to create order"
               (Some "Failed to create order: Database adapter is not connected")))
  /\ untouched w (snd res)
  /\ w_stripe_create (snd res) = w_stripe_create w
  /\ w_tasks (snd res) = w_tasks w.
Proof.
  intros Hs Hvalid Hc res.
  set (w0 := set_res None w).
  destruct (checks_pass reqbody total w0 Hvalid) as (w1 & Echk & Hreads & _).
  { unfold orders_for, known_orders. change (w_connected w0) with (w_connected w).
    rewrite Hc. destruct (to_string _); constructor. }
  set (its := elements (b_items reqbody)) in *.
  set (od := order_data reqbody its total).
  set (w2 := set_log (w_log w1 ++ [(info, "Creating order in database")]) w1).
  assert (Hc2 : w_connected w2 = false)
    by (change (w_connected w2) with (w_connected w1); rewrite (ro_connected _ _ Hreads); exact Hc).
  pose proof (svc_createOrder_run od w2) as Ecreate. cbv zeta in Ecreate.
  rewrite Hc2 in Ecreate.
  set (w3 := set_log (w_log (take_id w2) ++ [(error, "Error creating order")]) (take_id w2)) in *.
  destruct (take_id_facts w2) as (_ & _ & Hr3 & _ & Ht3).
  assert (Hres3 : w_res w3 = None).
  { unfold w3, take_id. destruct (w_ids w2); projs; apply (ro_res _ _ Hreads). }
  assert (Hsc3 : w_stripe_create w3 = w_stripe_create w).
  { unfold w3, take_id. destruct (w_ids w2); projs; apply (ro_stripe_create _ _ Hreads). }
  assert (Hta3 : w_tasks w3 = w_tasks w).
  { unfold w3, take_id. destruct (w_ids w2); projs; apply (ro_tasks _ _ Hreads). }
  assert (Eplace : exists w4,
             place_order reqbody its total w1 = (Return, w4)
             /\ w_res w4 = Some (mkResponse 500
                                   (ErrorBody "Failed to create order"
                                      (Some "Failed to create order: Database adapter is not connected")))
             /\ w_rows w4 = w_rows w3 /\ w_trace w4 = w_trace w3
             /\ w_stripe_create w4 = w_stripe_create w3 /\ w_tasks w4 = w_tasks w3).
  { eexists. split.
    - unfold place_order. cbv zeta. fold od.
      erewrite bind_returned; [reflexivity |].
      erewrite try_catch_thrown.
      2:{ rewrite bind_logger. fold w2. erewrite bind_thrown by exact Ecreate. reflexivity. }
      rewrite bind_logger. unfold bind, send, return_; projs. rewrite Hres3. reflexivity.
    - projs. repeat split. }
  destruct Eplace as (w4 & Eplace & Hres4 & Hrows4 & Htrace4 & Hsc4 & Hta4).
  assert (Erun : post_create_checkout_session reqbody w0 = (Return, w4)).
  { unfold post_create_checkout_session, checkStripeConfig.
    change (w_stripe w0) with (w_stripe w). rewrite Hs. cbn [negb].
    unfold create_checkout_session.
    erewrite try_catch_returned; [reflexivity |].
    erewrite bind_val by exact Echk. cbn [fst snd]. exact Eplace. }
  unfold res, serve. fold w0. rewrite Erun. cbn [fst snd].
  split; [exact Hres4 |].
  split; [split |].
  - rewrite Hrows4. unfold w3; projs. rewrite Hr3. apply (ro_rows _ _ Hreads).
  - rewrite Htrace4. unfold w3; projs. rewrite Ht3. apply (ro_trace _ _ Hreads).
  - split; [rewrite Hsc4; exact Hsc3 | rewrite Hta4; exact Hta3].
Qed.

(** ** A matching order whose session cannot be reused *)

Lemma sessions_retrieve_fails sid w :
  find (fun s => String.eqb (cs_id s) sid) (w_stripe_sessions w) = None ->
  Stripe.sessions_retrieve sid w
  = (Throw ("No such checkout.session: " ++ sid),
     set_trace (w_trace w ++ [StripeSessionsRetrieve sid]) w).
Proof.
  intro Hfind. unfold Stripe.sessions_retrieve. rewrite bind_effect.
  cbn [w_stripe_sessions set_trace]. now rewrite Hfind.
Qed.




(** ** Without a Stripe key *)

(** X16: when STRIPE_SECRET_KEY is not set, the checkout route and the
    webhook both answer 500 "Stripe is not configured" before reading the
    request: no order is written, the provider is not contacted, no work is
    left pending. *)
Theorem without_stripe_key `{JsRuntime}
  (reqbody : CheckoutBody) (req : WebhookRequest) (w : World) :
  w_stripe w = false ->
  serve (post_create_checkout_session reqbody) w
  = (Some (mkResponse 500
             (ErrorBody "Stripe is not configured"
                (Some "Please set STRIPE_SECRET_KEY environment variable"))),
     set_res (Some (mkResponse 500
                      (ErrorBody "Stripe is not configured"
                         (Some "Please set STRIPE_SECRET_KEY environment variable")))) w)
  /\ fst (serve (webhook req) w)
     = Some (mkResponse 500 (ErrorBody "Stripe is not configured" None))
  /\ untouched w (snd (serve (webhook req) w))
  /\ w_tasks (snd (serve (webhook req) w)) = w_tasks w.
Proof.
  intro Hs. unfold serve, post_create_checkout_session, checkStripeConfig, webhook.
  cbn [w_stripe w_webhook_secret set_res]. rewrite Hs. cbn [negb andb].
  unfold bind, logger, send, return_; cbn. repeat split.
Qed.

(** ** The deferred update of the checkout route *)

Lemma filter_session_update_rows sid k f rs :
  (forall x, stripe_session_id (f x) = Some sid) ->
  session_free sid k rs ->
  filter (Supabase.has_session sid) (Supabase.update_rows k f rs)
  = map f (filter (Supabase.has_id k) rs).
Proof.
  intros Hf Hfree. unfold Supabase.update_rows.
  induction rs as [| x rs IH]; [reflexivity |].
  assert (Hfree' : session_free sid k rs) by (intros y Hy; apply Hfree; now right).
  cbn [map filter]. destruct (Supabase.has_id k x) eqn:Hx.
  - assert (Hs : Supabase.has_session sid (f x) = true).
    { unfold Supabase.has_session. rewrite Hf. apply opt_string_eqb_eq. reflexivity. }
    rewrite Hs. cbn [map]. now rewrite IH.
  - assert (Hs : Supabase.has_session sid x = false).
    { apply has_session_false. intro Hsid.
      pose proof (Hfree x (or_introl eq_refl) Hsid) as Hid.
      unfold Supabase.has_id in Hx. rewrite Hid, String.eqb_refl in Hx. discriminate. }
    rewrite Hs. now apply IH.
Qed.

Lemma row_by_session_update_rows_attach sid k f rs r :
  (forall x, stripe_session_id (f x) = Some sid) ->
  session_free sid k rs ->
  row_by_id k rs = Some r ->
  row_by_session sid (Supabase.update_rows k f rs) = Some (f r).
Proof.
  intros Hf Hfree Hr. unfold row_by_session.
  rewrite (filter_session_update_rows sid k f rs Hf Hfree), (row_by_id_filter _ _ _ Hr).
  reflexivity.
Qed.

Lemma attach_session_run `{JsRuntime} t r w :
  healthy w ->
  row_by_id (t_orderId t) (w_rows w) = Some r ->
  session_free (t_sessionId t) (t_orderId t) (w_rows w) ->
  let f := SupabaseAdapter.update_row pending (w_clock w)
             (attach_data (t_sessionId t) (t_paymentIntent t)) in
  exists w',
    attach_session t w = (Val tt, w')
    /\ store_only w w'
    /\ w_rows w' = Supabase.update_rows (t_orderId t) f (w_rows w)
    /\ w_trace w' = (w_trace w ++ [DbUpdate (t_orderId t) pending])%list.
Proof.
  intros Hh Hr Hfree f.
  destruct (svc_update_healthy (t_orderId t) pending
              (attach_data (t_sessionId t) (t_paymentIntent t)) w r)
    as (w1 & Hupd & Hstore & Hrows & Htrace);
    [exact Hh | exact Hr | apply skips_pending
    | apply (session_taken_updateData (t_sessionId t)); [reflexivity | exact Hfree] |].
  eexists. split.
  - unfold attach_session. erewrite try_catch_val; [reflexivity |].
    erewrite bind_val by exact Hupd. reflexivity.
  - unfold logger; projs. split; [| split; assumption].
    apply (frame_trans w w1); [exact Hstore |].
    apply ignores_reads. apply reads_logger.
Qed.

(** X17: when the deferred update of the checkout route runs on a healthy
    store that has the order, and no other order carries the session id:
    the order gets the session id (and the payment intent id, when there is
    one) and status [pending], whatever status it had; from then on the
    lookup by session id finds it. *)
Theorem attach_links_session_to_order `{JsRuntime}
  (t : Task) (rest : list Task) (r : Row) (w : World) :
  w_tasks w = t :: rest ->
  healthy w ->
  row_by_id (t_orderId t) (w_rows w) = Some r ->
  session_free (t_sessionId t) (t_orderId t) (w_rows w) ->
  t_sessionId t <> "" ->
  let f := SupabaseAdapter.update_row pending (w_clock w)
             (attach_data (t_sessionId t) (t_paymentIntent t)) in
  let w' := step RunTask w in
  w_rows w' = Supabase.update_rows (t_orderId t) f (w_rows w)
  /\ row_by_id (t_orderId t) (w_rows w') = Some (f r)
  /\ stripe_session_id (f r) = Some (t_sessionId t)
  /\ status (f r) = pending
  /\ w_tasks w' = rest
  /\ fst (OrderService.findOrderByStripeSessionId getDatabase (t_sessionId t) w')
     = Val (Some (mapSupabaseOrderToOrder (f r))).
Proof.
  intros Htasks Hh Hr Hfree Hne f w'.
  assert (Hsid : forall x, stripe_session_id (f x) = Some (t_sessionId t)).
  { intro x. unfold f, SupabaseAdapter.update_row, attach_data, SupabaseAdapter.if_truthy;
      cbn [stripe_session_id ad_stripeSessionId truthy_str].
    apply String.eqb_neq in Hne. now rewrite Hne. }
  destruct (attach_session_run t r (set_tasks rest w) Hh Hr Hfree)
    as (w1 & Erun & Hstore & Hrows & Htrace).
  assert (Hw' : w' = w1) by (unfold w'; cbn [step]; rewrite Htasks, Erun; reflexivity).
  rewrite Hw'. change (w_rows (set_tasks rest w)) with (w_rows w) in Hrows.
  change (w_clock (set_tasks rest w)) with (w_clock w) in Hrows. fold f in Hrows.
  split; [exact Hrows |].
  split; [rewrite Hrows; now apply row_by_id_update_rows |].
  split; [apply Hsid |]. split; [reflexivity |].
  split; [apply (so_tasks _ _ Hstore) |].
  rewrite svc_findOrderByStripeSessionId_fst.
  destruct Hh as [Hc Hf].
  rewrite (so_connected _ _ Hstore). cbn [w_connected set_tasks]. rewrite Hc.
  rewrite (so_faults _ _ Hstore Hf). unfold answer. cbn [hd].
  rewrite Hrows, (row_by_session_update_rows_attach _ _ f _ r Hsid Hfree Hr). reflexivity.
Qed.

(** ** Reading back what was written *)

(** X18: an order [createOrder] has returned is in the table under its id:
    as long as the store answers, [getOrderById] with that id returns the
    same order object. *)
Theorem created_order_is_found `{JsRuntime}
  (orderData : OrderData) (w w' : World) (o : Order) :
  OrderService.createOrder getDatabase orderData w = (Val o, w') ->
  hd false (w_faults w') = false ->
  fst (OrderService.getOrderById getDatabase (o_id o) w') = Val (Some o)
  /\ w_rows w' = (w_rows w ++ [row_of orderData w])%list
  /\ o = mapSupabaseOrderToOrder (row_of orderData w).
Proof.
  intros Hcreate Hf.
  pose proof (store_svc_createOrder orderData w) as Hstore.
  destruct (svc_createOrder_cases orderData w)
    as [(e & w1 & E & _) | (w1 & E & Hc & Hi & Hrows & _)];
    rewrite E in Hcreate; [discriminate |].
  rewrite E in Hstore. cbn [snd] in Hstore.
  injection Hcreate as <- <-.
  apply insert_result_fresh in Hi as [_ Hfresh].
  split; [| split; [exact Hrows | reflexivity]].
  rewrite svc_getOrderById_fst, (so_connected _ _ Hstore), Hc.
  unfold resolve, answer. rewrite Hf, Hrows.
  cbn [mapSupabaseOrderToOrder o_id].
  now rewrite (row_by_id_fresh _ _ _ Hfresh eq_refl).
Qed.

(** X19: [getOrderById] also accepts a Stripe session id: on a healthy store
    where no order has [k] as its id and exactly one order has [k] as its
    session id, it returns that order. *)
Theorem order_found_by_session_id `{JsRuntime} (k : string) (r : Row) (w : World) :
  healthy w ->
  row_by_id k (w_rows w) = None ->
  row_by_session k (w_rows w) = Some r ->
  fst (OrderService.getOrderById getDatabase k w) = Val (Some (mapSupabaseOrderToOrder r))
  /\ stripe_session_id r = Some k.
Proof.
  intros [Hc Hf] Hid Hs. split.
  - rewrite svc_getOrderById_fst, Hc. unfold resolve, answer. rewrite Hf. cbn [hd tl].
    now rewrite Hid, Hs.
  - apply row_by_session_filter in Hs.
    assert (Hin : In r (filter (Supabase.has_session k) (w_rows w))) by (rewrite Hs; now left).
    apply filter_In in Hin as [_ Hk]. now apply opt_string_eqb_eq in Hk.
Qed.

(** ** The orders of a customer *)

(** X20: on a store that is connected and answers, [getOrdersByEmail]
    returns the orders whose customer email is the given one, all of them
    and no other, the latest created first. *)
Theorem orders_by_email_latest_first `{JsRuntime} (email : string) (w : World) :
  w_connected w = true -> hd false (w_faults w) = false ->
  exists l,
    fst (OrderService.getOrdersByEmail getDatabase (JS.Str email) w)
    = Val (map mapSupabaseOrderToOrder l)
    /\ Permutation l (filter (fun r => opt_string_eqb (customer_email r) (Some email))
                             (w_rows w))
    /\ StronglySorted (fun a b => created_at b <= created_at a) l.
Proof.
  intros Hc Hf. eexists. split; [| split].
  - rewrite (svc_getOrdersByEmail_run (JS.Str email) email w Hc Hf eq_refl). reflexivity.
  - apply order_desc_perm.
  - apply order_desc_sorted.
Qed.

(** ** Marking a paid order paid *)

(** X21: asked to mark as [paid] an order that is already [paid], on a
    connected store whose lookup answers, [updateOrderStatus] writes
    nothing, whatever the additional data, logs a warning and returns the
    stored order. *)
Theorem paid_order_is_not_rewritten `{JsRuntime}
  (k : string) (ad : AdditionalData) (r : Row) (w : World) :
  w_connected w = true -> hd false (w_faults w) = false ->
  row_by_id k (w_rows w) = Some r -> status r = paid ->
  let res := OrderService.updateOrderStatus getDatabase k paid ad w in
  fst res = Val (mapSupabaseOrderToOrder r)
  /\ untouched w (snd res)
  /\ In (warn, "Order already in paid status. Skipping update.") (w_log (snd res)).
Proof.
  intros Hc Hf Hr Hpaid res.
  assert (Hresolve : resolve k (w_faults w) (w_rows w) = Some r).
  { unfold resolve, answer. now rewrite Hf, Hr. }
  assert (Hskip : skips paid (Some r) = true) by (unfold skips; now rewrite Hpaid).
  pose proof (after_getOrderById_reads k w) as Hreads.
  assert (Erun : res
                 = (Val (mapSupabaseOrderToOrder r),
                    set_log ((w_log (after_getOrderById k w)
                              ++ [(warn, "Order already in paid status. Skipping update.")])
                             ++ [(info, "Order updated successfully")])
                      (after_getOrderById k w))).
  { unfold res, OrderService.updateOrderStatus.
    erewrite try_catch_val; [reflexivity |].
    erewrite bind_val.
    2:{ cbn [db_updateOrderStatus getDatabase SupabaseAdapter.adapter].
        rewrite db_updateOrderStatus_run, Hc. cbv zeta. rewrite Hresolve, Hskip. reflexivity. }
    reflexivity. }
  rewrite Erun. cbn [fst snd]. projs.
  split; [reflexivity |].
  split; [split; [apply (ro_rows _ _ Hreads) | apply (ro_trace _ _ Hreads)] |].
  apply in_or_app. left. apply in_or_app. right. now left.
Qed.

(** ** The read routes *)

(** X22: GET /order/:orderId never fails: it answers 200 with the order the
    service returns, and 404 "Order not found" when the service returns
    none, which is also what it does when the store is not connected or
    does not answer.  It writes nothing. *)
Theorem get_order_reply `{JsRuntime} (orderId : string) (w : World) :
  orderId <> "" ->
  fst (get_order orderId w)
  = Val (match order_seen orderId w with
         | Some o => mkReply 200 (OrderJson o)
         | None => mkReply 404 (ErrorJson "Order not found" None)
         end)
  /\ reads_only w (snd (get_order orderId w)).
Proof.
  intro Hne. apply String.eqb_neq in Hne.
  pose proof (reads_svc_getOrderById orderId w) as Hreads.
  pose proof (svc_getOrderById_fst orderId w) as Hfst.
  unfold get_order, try_catch. rewrite Hne. unfold bind.
  destruct (OrderService.getOrderById getDatabase orderId w) as [out w1].
  cbn [fst snd] in *. subst out. fold (order_seen orderId w).
  destruct (order_seen orderId w); split; try reflexivity; exact Hreads.
Qed.

(** X23: GET /orders/email/:email always answers 200: with the customer's
    orders, latest first, or with an empty list when the store is not
    connected or the query fails.  It writes nothing. *)
Theorem get_orders_by_email_reply `{JsRuntime} (email : string) (w : World) :
  email <> "" ->
  fst (get_orders_by_email email w) = Val (mkReply 200 (OrdersJson (known_orders email w)))
  /\ reads_only w (snd (get_orders_by_email email w)).
Proof.
  intro Hne. apply String.eqb_neq in Hne.
  destruct (svc_getOrdersByEmail_total (JS.Str email) w) as (w1 & Erun & Hreads & _).
  change (orders_for (JS.Str email) w) with (known_orders email w) in Erun.
  unfold get_orders_by_email, try_catch. rewrite Hne. unfold bind. rewrite Erun.
  split; [reflexivity | exact Hreads].
Qed.

(** X24: GET /session/:sessionId, with Stripe configured: for a session the
    provider knows the answer is 200 with the session; for one it does not
    know, the [catch] block itself throws (it names [sessionId], which is
    out of its scope), so the handler sends no response and rejects with a
    [ReferenceError].  Either way no order is written. *)
Theorem get_session_reply `{JsRuntime} (sessionId : string) (w : World) :
  w_stripe w = true -> sessionId <> "" ->
  fst (get_session sessionId w)
  = match find (fun s => String.eqb (cs_id s) sessionId) (w_stripe_sessions w) with
    | Some cs => Val (mkReply 200 (SessionJson cs))
    | None => Throw "sessionId is not defined"
    end
  /\ w_rows (snd (get_session sessionId w)) = w_rows w.
Proof.
  intros Hs Hne. apply String.eqb_neq in Hne.
  unfold get_session. rewrite Hs. cbn [negb]. rewrite Hne.
  destruct (find _ (w_stripe_sessions w)) as [cs |] eqn:Hfind.
  - erewrite try_catch_val.
    2:{ erewrite bind_val by (apply sessions_retrieve_run; exact Hfind). reflexivity. }
    split; reflexivity.
  - erewrite try_catch_thrown.
    2:{ erewrite bind_thrown by (apply sessions_retrieve_fails; exact Hfind). reflexivity. }
    split; reflexivity.
Qed.

(** ** The error handler *)

(** X25: whatever the error and the status set before, [errorHandler] never
    answers with status 200, and the body it sends has [success: false]. *)
Theorem errorHandler_never_200 (development : bool) (err : JsError) (res_statusCode : Z)
  (w w' : World) (statusCode : Z) (body : ErrorResponse) :
  errorHandler development err res_statusCode w = (Val (statusCode, body), w') ->
  statusCode <> 200 /\ er_success body = false.
Proof.
  unfold errorHandler.
  destruct (String.eqb (e_name err) "CastError" && opt_string_eqb (e_kind err) (Some "ObjectId"));
    destruct (match e_code err with NumCode n => n =? 11000 | _ => false end);
    (destruct (String.eqb (e_name err) "ValidationError");
     [destruct (e_errors err) as [messages |] |]);
    cbn [bind ret throw];
    destruct (match e_status err with Some n => n =? 429 | None => false end);
    destruct (includes (e_message err) "Google Places API");
    destruct (code_is (e_code err) "ECONNABORTED" || includes (e_message err) "timeout");
    destruct (code_is (e_code err) "ECONNREFUSED" || code_is (e_code err) "ENOTFOUND");
    unfold bind, logger, ret, throw; cbn; intros [= <- <- _];
    (split; [| reflexivity]); try discriminate;
    destruct (Z.eqb_spec res_statusCode 200); try discriminate; assumption.
Qed.

Lemma includes_after_not_found url sub :
  sub = "timeout" \/ sub = "Google Places API" ->
  includes ("Not Found - " ++ url) sub = includes url sub.
Proof.
  intros [-> | ->]; unfold includes; cbn;
    match goal with |- context [String.index 0 ?s url] => destruct (String.index 0 s url) end;
    reflexivity.
Qed.

(** X26: a request for a URL no route serves is answered by [notFound] and
    [errorHandler] with 404 and "Not Found - <url>", except that a URL
    containing "timeout" is answered 504 "Request timeout" and, failing
    that, one containing "Google Places API" 502. *)
Theorem unknown_route_reply (development : bool) (originalUrl stack : string) (w : World) :
  fst (unknown_route development originalUrl stack w)
  = Val (if includes originalUrl "timeout" then 504
         else if includes originalUrl "Google Places API" then 502
         else 404,
         {| er_success := false;
            er_error := if includes originalUrl "timeout" then "Request timeout"
                        else if includes originalUrl "Google Places API"
                             then "External service temporarily unavailable"
                             else "Not Found - " ++ originalUrl;
            er_stack := if development then Some stack else None |}).
Proof.
  unfold unknown_route, notFound, errorHandler.
  cbn [e_name e_message e_kind e_code e_status e_errors e_stack code_is orb andb
       String.eqb Ascii.eqb Bool.eqb Z.eqb Pos.eqb].
  rewrite !includes_after_not_found by auto.
  destruct (includes originalUrl "Google Places API");
    destruct (includes originalUrl "timeout"); reflexivity.
Qed.

(** ** From checkout to payment *)

#[export] Instance steady_Frame : Frame steady.
Proof.
  split.
  - intro w; constructor; auto.
  - intros a b c [] []; constructor; try congruence; auto.
Qed.

#[export] Instance steady_IgnoresReads : IgnoresReads steady.
Proof. intros w w' []; constructor; assumption. Qed.

#[export] Instance steady_IgnoresStore : IgnoresStore steady.
Proof. intros w w' []; constructor; assumption. Qed.

Lemma steady_send c b : stable steady (send c b).
Proof. unfold send. prim. Qed.

Lemma steady_spawn t : stable steady (spawn t).
Proof. prim. Qed.

Lemma steady_effect e : stable steady (effect e).
Proof. prim. Qed.

#[export] Hint Resolve steady_send steady_spawn steady_effect : stable.

Lemma steady_sessions_create k : stable steady (Stripe.sessions_create k).
Proof.
  unfold Stripe.sessions_create. apply stable_bind; [apply steady_effect | intros _].
  prim.
Qed.

Lemma steady_sessions_retrieve k : stable steady (Stripe.sessions_retrieve k).
Proof.
  unfold Stripe.sessions_retrieve. apply stable_bind; [apply steady_effect | intros _].
  prim.
Qed.

#[export] Hint Resolve steady_sessions_create steady_sessions_retrieve : stable.

Lemma steady_validate_items l : stable steady (validate_items l).
Proof. induction l as [| item rest IH]; simpl; stable_tac. Qed.

#[export] Hint Resolve steady_validate_items : stable.

#[export] Hint Resolve store_svc_createOrder : stable.


#[export] Instance same_tasks_Frame : Frame same_tasks.
Proof. split; unfold same_tasks; [reflexivity | congruence]. Qed.

#[export] Instance same_tasks_IgnoresReads : IgnoresReads same_tasks.
Proof. intros w w' []; assumption. Qed.

#[export] Instance same_tasks_IgnoresStore : IgnoresStore same_tasks.
Proof. intros w w' []; assumption. Qed.

Lemma same_tasks_send c b : stable same_tasks (send c b).
Proof. unfold send. prim. Qed.

#[export] Hint Resolve same_tasks_send : stable.





(** ** The five-minute window of the guard *)





(** * The further properties on the example *)

Lemma sample_valid_cart : valid_cart sample_checkout 9998.
Proof.
  unfold valid_cart. cbv zeta.
  split; [reflexivity |]. split; [discriminate |].
  split; [repeat constructor |]. split; reflexivity.
Qed.



Lemma sample_pending_healthy : healthy sample_pending_world.
Proof. split; reflexivity. Qed.

Lemma order_ids_stay_unique_witness :
  unique_ids (w_rows (run [PostCheckout sample_checkout;
                           PostWebhook (verified (checkout_session_completed sample_completed))]
                        sample_pending_world)).
Proof.
  apply (order_ids_stay_unique _ sample_pending_world).
  unfold unique_ids. cbn. repeat constructor. intros [].
Defined.

Lemma completed_marks_order_paid_witness :
  let res := serve (webhook (verified (checkout_session_completed sample_completed)))
               sample_pending_world in
  fst res = Some (mkResponse 200 (Received None None))
  /\ row_by_id "ORD-1" (w_rows (snd res)) = Some sample_paid_order.
Proof.
  destruct (completed_marks_order_paid
              (verified (checkout_session_completed sample_completed))
              sample_completed "ORD-1" sample_pending_order sample_pending_world)
    as (Hres & _ & Hrow & _).
  - reflexivity.
  - reflexivity.
  - reflexivity.
  - exact sample_pending_healthy.
  - reflexivity.
  - discriminate.
  - reflexivity.
  - discriminate.
  - intros r [<- | []] _. reflexivity.
  - split; [exact Hres | exact Hrow].
Defined.

Lemma completed_marks_order_paid_by_session_witness :
  let res := serve (webhook (verified (checkout_session_completed sample_completed_bare)))
               sample_pending_world in
  fst res = Some (mkResponse 200 (Received None None))
  /\ w_trace (snd res) = (w_trace sample_pending_world ++ [DbUpdate "ORD-1" paid])%list.
Proof.
  destruct (completed_marks_order_paid_by_session
              (verified (checkout_session_completed sample_completed_bare))
              sample_completed_bare sample_pending_order sample_pending_world)
    as (Hres & _ & _ & _ & _ & _ & _ & _ & _ & Htrace).
  - reflexivity.
  - reflexivity.
  - reflexivity.
  - exact sample_pending_healthy.
  - reflexivity.
  - reflexivity.
  - reflexivity.
  - discriminate.
  - split; [exact Hres | exact Htrace].
Defined.

Lemma completed_for_unknown_order_is_dropped_witness :
  untouched sample_pending_world
    (snd (serve (webhook (verified (checkout_session_completed sample_completed_unknown)))
            sample_pending_world)).
Proof.
  apply (completed_for_unknown_order_is_dropped
           (verified (checkout_session_completed sample_completed_unknown))
           sample_completed_unknown sample_pending_world); reflexivity.
Defined.

Lemma async_payment_failed_marks_order_failed_witness :
  let res := serve (webhook (verified (checkout_session_async_payment_failed sample_completed)))
               sample_paid_world in
  fst res = Some (mkResponse 200 (Received None None))
  /\ w_trace (snd res) = (w_trace sample_paid_world ++ [DbUpdate "ORD-1" failed])%list.
Proof.
  destruct (async_payment_failed_marks_order_failed
              (verified (checkout_session_async_payment_failed sample_completed))
              sample_completed "ORD-1" sample_paid_order sample_paid_world)
    as (Hres & _ & _ & _ & _ & _ & _ & Htrace).
  - reflexivity.
  - reflexivity.
  - reflexivity.
  - split; reflexivity.
  - reflexivity.
  - discriminate.
  - reflexivity.
  - split; [exact Hres | exact Htrace].
Defined.

Lemma payment_failed_marks_order_failed_witness :
  let res := serve (webhook (verified (payment_intent_payment_failed sample_declined_intent)))
               sample_pending_world in
  fst res = Some (mkResponse 200 (Received None None))
  /\ w_trace (snd res) = (w_trace sample_pending_world ++ [DbUpdate "ORD-1" failed])%list.
Proof.
  destruct (payment_failed_marks_order_failed
              (verified (payment_intent_payment_failed sample_declined_intent))
              sample_declined_intent sample_pending_order sample_pending_world)
    as (Hres & _ & _ & _ & _ & _ & Htrace).
  - reflexivity.
  - reflexivity.
  - reflexivity.
  - exact sample_pending_healthy.
  - reflexivity.
  - reflexivity.
  - split; [exact Hres | exact Htrace].
Defined.

Lemma logged_only_events_witness :
  fst (serve (webhook (verified (unhandled_event "customer.created"))) sample_pending_world)
  = Some (mkResponse 200 (Received None None)).
Proof.
  apply (logged_only_events (verified (unhandled_event "customer.created"))
           sample_pending_world);
    [reflexivity | reflexivity | right; exists "customer.created"; reflexivity].
Defined.




Lemma checkout_on_disconnected_store_witness :
  fst (serve (post_create_checkout_session sample_checkout) sample_down_world)
  = Some (mkResponse 500
            (ErrorBody "Failed to create order"
               (Some "Failed to create order: Database adapter is not connected"))).
Proof.
  apply (checkout_on_disconnected_store sample_checkout 9998 sample_down_world).
  - reflexivity.
  - exact sample_valid_cart.
  - reflexivity.
Defined.


Lemma without_stripe_key_witness :
  fst (serve (webhook (verified (unhandled_event "customer.created")))
         (mkWorld true [] [] 1000 [] [] [] false false [] [] None []))
  = Some (mkResponse 500 (ErrorBody "Stripe is not configured" None)).
Proof.
  apply (without_stripe_key sample_checkout (verified (unhandled_event "customer.created"))
           (mkWorld true [] [] 1000 [] [] [] false false [] [] None [])).
  reflexivity.
Defined.

Lemma attach_links_session_to_order_witness :
  w_rows (step RunTask sample_checkout_world) = [sample_pending_order]
  /\ w_tasks (step RunTask sample_checkout_world) = [].
Proof.
  destruct (attach_links_session_to_order (mkTask "ORD-1" "cs_1" None) [] sample_new_order
              sample_checkout_world) as (Hrows & _ & _ & _ & Htasks & _).
  - reflexivity.
  - split; reflexivity.
  - reflexivity.
  - intros r [<- | []] _. reflexivity.
  - discriminate.
  - split; [exact Hrows | exact Htasks].
Defined.

Lemma created_order_is_found_witness :
  exists o w',
    OrderService.createOrder getDatabase
      (order_data sample_checkout (elements sample_cart) 9998) sample_world = (Val o, w')
    /\ fst (OrderService.getOrderById getDatabase (o_id o) w') = Val (Some o).
Proof.
  eexists. eexists.
  assert (Hrun : OrderService.createOrder getDatabase
                   (order_data sample_checkout (elements sample_cart) 9998) sample_world
                 = (Val _, _)) by (vm_compute; reflexivity).
  split; [exact Hrun |].
  apply (created_order_is_found _ _ _ _ Hrun). reflexivity.
Defined.

Lemma order_found_by_session_id_witness :
  fst (OrderService.getOrderById getDatabase "cs_1" sample_pending_world)
  = Val (Some (mapSupabaseOrderToOrder sample_pending_order)).
Proof.
  apply (order_found_by_session_id "cs_1" sample_pending_order sample_pending_world).
  - exact sample_pending_healthy.
  - reflexivity.
  - reflexivity.
Defined.

Lemma orders_by_email_latest_first_witness :
  exists l,
    fst (OrderService.getOrdersByEmail getDatabase (JS.Str "ada@example.com")
           sample_pending_world)
    = Val (map mapSupabaseOrderToOrder l).
Proof.
  destruct (orders_by_email_latest_first "ada@example.com" sample_pending_world)
    as (l & Hl & _); [reflexivity | reflexivity |].
  exists l. exact Hl.
Defined.

Lemma paid_order_is_not_rewritten_witness :
  untouched sample_paid_world
    (snd (OrderService.updateOrderStatus getDatabase "ORD-1" paid
            (paid_data sample_completed_again 3000) sample_paid_world)).
Proof.
  apply (paid_order_is_not_rewritten "ORD-1" (paid_data sample_completed_again 3000)
           sample_paid_order sample_paid_world); reflexivity.
Defined.

Lemma get_order_reply_witness :
  fst (get_order "ORD-1" sample_down_world)
  = Val (mkReply 404 (ErrorJson "Order not found" None)).
Proof.
  apply (get_order_reply "ORD-1" sample_down_world). discriminate.
Defined.

Lemma get_orders_by_email_reply_witness :
  fst (get_orders_by_email "ada@example.com" sample_down_world)
  = Val (mkReply 200 (OrdersJson [])).
Proof.
  apply (get_orders_by_email_reply "ada@example.com" sample_down_world). discriminate.
Defined.

Lemma get_session_reply_witness :
  fst (get_session "cs_7" sample_pending_world) = Throw "sessionId is not defined".
Proof.
  apply (get_session_reply "cs_7" sample_pending_world); [reflexivity | discriminate].
Defined.

Lemma errorHandler_never_200_witness :
  exists body w', errorHandler false sample_error 200 sample_world = (Val (503, body), w')
                  /\ 503 <> 200.
Proof.
  eexists. eexists.
  assert (Hrun : errorHandler false sample_error 200 sample_world = (Val (503, _), _))
    by (vm_compute; reflexivity).
  split; [exact Hrun |].
  apply (errorHandler_never_200 _ _ _ _ _ _ _ Hrun).
Defined.



Lemma invalid_cart_rejected_witness :
  exists msg,
    fst (serve (post_create_checkout_session (mkCheckoutBody (JS.Array []) JS.Undefined JS.Undefined JS.Undefined))
           sample_world)
    = Some (mkResponse 400 (ErrorBody msg None)).
Proof.
  apply (invalid_cart_rejected (mkCheckoutBody (JS.Array []) JS.Undefined JS.Undefined JS.Undefined) sample_world).
  - reflexivity.
  - right. left. reflexivity.
Defined.
